(** * The SVG legend of maq-visuals-chartutils: layout, pagination, cloning

    A shallow embedding of [src/legend/svgLegend.ts] (class [SVGLegend]) and
    the properties of its layout engine.

    Conventions of the embedding.
    - JavaScript numbers that carry pixel quantities are exact rationals
      ([Q]); counts and indices are integers ([Z]).  [x | 0] is written out
      as truncation followed by the 32-bit wrap-around.
    - [undefined] is [None] of an [option]; the one place where an
      [undefined] receiver is dereferenced raises [TypeError].
    - The instance fields of [SVGLegend] are the record [SVGLegend.t]; every
      method takes the instance and returns the updated instance.
    - What the class imports from other packages (text measurement, arrow
      paths, the width of the long-dash marker) is the class [Host].
    - The last part of the file models the JavaScript object store, with
      prototype chains, for the cloning done by [drawLegend]. *)

From Stdlib Require Import ZArith QArith Qround Lqa Lia List String Bool.
From stdpp Require Import base gmap list strings.
Import ListNotations.

Local Open Scope Z_scope.
Local Open Scope Q_scope.

(** ** Results of methods that can throw *)

Inductive result (A : Type) : Type :=
| Ok (a : A)
| TypeError.
Arguments Ok {A} a.
Arguments TypeError {A}.

Definition bind {A B : Type} (r : result A) (k : A -> result B) : result B :=
  match r with
  | Ok a => k a
  | TypeError => TypeError
  end.

(** ** JavaScript numbers *)

Definition Qltb (a b : Q) : bool := negb (Qle_bool b a).
Definition Qgtb (a b : Q) : bool := Qltb b a.

(** [q | 0]: ToInt32, truncation toward zero and reduction modulo 2^32 into
    the signed range. *)
Definition Qtrunc (q : Q) : Z :=
  if Qltb q 0 then Qceiling q else Qfloor q.

Definition toInt32 (q : Q) : Z :=
  ((Qtrunc q + 2147483648) mod 4294967296 - 2147483648)%Z.

(** [Math.ceil] *)
Definition Math_ceil (q : Q) : Q := inject_Z (Qceiling q).

(** [Math.max(a, b)] *)
Definition ifgt (a b : Q) : Q := if Qgtb a b then a else b.

(** ** PixelConverter (powerbi-visuals-utils-typeutils)

    [fromPointToPixel(pt) = PxPtRatio * pt] with [PxPtRatio = 4 / 3]. *)
Module PixelConverter.
Definition PxPtRatio : Q := 4 # 3.
Definition fromPointToPixel (pt : Q) : Q := PxPtRatio * pt.
End PixelConverter.

(** ** legendInterfaces.ts *)

(** Modelled from the spec: the enumeration [LegendPosition] is declared in
    [legendInterfaces.ts], which is not among the sources.  The spec names
    the placements (top, bottom, left, right, their centered variants and the
    [None] sentinel); the order, hence the numeric values, is the one of the
    TypeScript declaration: [Top] is 0 and the only falsy member. *)
Module LegendPosition.
Inductive t : Set :=
| Top | Bottom | Right | Left | None
| TopCenter | BottomCenter | RightCenter | LeftCenter.

Definition toNumber (p : t) : Z :=
  match p with
  | Top => 0 | Bottom => 1 | Right => 2 | Left => 3 | None => 4
  | TopCenter => 5 | BottomCenter => 6 | RightCenter => 7 | LeftCenter => 8
  end%Z.

Definition eqb (p q : t) : bool := (toNumber p =? toNumber q)%Z.
End LegendPosition.

(** Modelled from the spec: [MarkerShape] is declared in
    [legendInterfaces.ts]; the class only distinguishes [circle], [square]
    and [longDash]. *)
Inductive MarkerShape : Set := circle | square | longDash.

Module Point.
Record t : Type := mk { x : Q; y : Q }.
End Point.

Module LegendDataPoint.
Record t : Type := mk {
  identity : string;
  label : string;
  measure : option string;
  secondaryMeasure : option string;
  markerShape : option MarkerShape;
  glyphPosition : option Point.t;
  textPosition : option Point.t;
  tooltip : option string
}.

Definition set_positions (g p : Point.t) (d : t) : t :=
  mk (identity d) (label d) (measure d) (secondaryMeasure d) (markerShape d)
     (Some g) (Some p) (tooltip d).
Definition set_label (l : string) (d : t) : t :=
  mk (identity d) l (measure d) (secondaryMeasure d) (markerShape d)
     (glyphPosition d) (textPosition d) (tooltip d).
Definition set_measure (m : option string) (d : t) : t :=
  mk (identity d) (label d) m (secondaryMeasure d) (markerShape d)
     (glyphPosition d) (textPosition d) (tooltip d).
Definition set_secondaryMeasure (m : option string) (d : t) : t :=
  mk (identity d) (label d) (measure d) m (markerShape d)
     (glyphPosition d) (textPosition d) (tooltip d).
Definition set_tooltip (s : option string) (d : t) : t :=
  mk (identity d) (label d) (measure d) (secondaryMeasure d) (markerShape d)
     (glyphPosition d) (textPosition d) s.
End LegendDataPoint.

Module LegendData.
Record t : Type := mk {
  dataPoints : list LegendDataPoint.t;
  title : option string;
  fontSize : option Q;
  primaryType : string
}.

Definition set_dataPoints (l : list LegendDataPoint.t) (d : t) : t :=
  mk l (title d) (fontSize d) (primaryType d).
End LegendData.

Module IViewport.
Record t : Type := mk { height : Q; width : Q }.
End IViewport.

(** The legend's own viewport.  Its width is the sum of a number and
    [data.fontSize], which is [NaN] when the font size is undefined:
    [None] stands for [NaN]. *)
Module OwnViewport.
Record t : Type := mk { height : Q; width : option Q }.
End OwnViewport.

(** ** The exported layout types *)

Module TitleLayout.
Record t : Type := mk { x : Q; y : Q; text : string; width : Q; height : Q }.
End TitleLayout.

Inductive NavigationArrowType : Set := Increase | Decrease.

Module NavigationArrow.
Record t : Type := mk {
  x : Q; y : Q; path : string; rotateTransform : string;
  dataType : NavigationArrowType
}.
Definition set_x (v : Q) (a : t) : t :=
  mk v (y a) (path a) (rotateTransform a) (dataType a).
End NavigationArrow.

Module LegendLayout.
Record t : Type := mk {
  numberOfItems : Z;
  title : option TitleLayout.t;
  navigationArrows : list NavigationArrow.t
}.
End LegendLayout.

(** ** What the class imports *)

Inductive FontFamily : Set := regular | semibold.

Module TextProperties.
(** [fontSize] is the pixel size that [PixelConverter.fromPoint] prints. *)
Record t : Type := mk { text : option string; fontFamily : FontFamily; fontSize : Q }.
End TextProperties.

(** [LegendItem], the element type of
    [calculateHorizontalLegendItemsWidths]. *)
Module LegendItem.
Record t : Type := mk {
  dataPoint : LegendDataPoint.t;
  textProperties : TextProperties.t;
  width : Q;
  desiredWidth : Q;
  desiredOverMaxWidth : bool
}.
Definition set_width (w : Q) (i : t) : t :=
  mk (dataPoint i) (textProperties i) w (desiredWidth i) (desiredOverMaxWidth i).
Definition set_desiredOverMaxWidth (b : bool) (i : t) : t :=
  mk (dataPoint i) (textProperties i) (width i) (desiredWidth i) b.
End LegendItem.

Class Host : Type := {
  (** textMeasurementService *)
  measureSvgTextWidth : TextProperties.t -> Q;
  estimateSvgTextHeight : TextProperties.t -> Q;
  getTailoredTextOrDefault : TextProperties.t -> Q -> string;
  (** Markers.LegendIconLineTotalWidth *)
  LegendIconLineTotalWidth : Q;
  (** svgManipulation.createArrow(width, height, angle): path and transform *)
  createArrow : Q -> Q -> Q -> string * string
}.

(** ** JavaScript arrays *)

(** [arr.slice(a, b)] for integers [a], [b]: negative indices count from the
    end, and both ends are clamped to the array. *)
Definition js_index {A : Type} (l : list A) (i : Z) : nat :=
  let len := Z.of_nat (length l) in
  Z.to_nat (if (i <? 0)%Z then Z.max (len + i) 0 else Z.min i len).

Definition js_slice {A : Type} (l : list A) (a b : Z) : list A :=
  firstn (js_index l b - js_index l a) (skipn (js_index l a) l).

(** [arr.slice(a)] *)
Definition js_slice_from {A : Type} (l : list A) (a : Z) : list A :=
  skipn (js_index l a) l.

(** [arr.shift()] and [arr.length = arr.length - 1], as used on the arrows. *)
Definition js_shift {A : Type} (l : list A) : list A := tl l.
Definition js_drop_last {A : Type} (l : list A) : list A := removelast l.

(** ** The class SVGLegend *)

(** The part of the DOM that the class writes and reads back: the
    attributes of the [svg] element, and what is bound to the [g] group. *)
Module Svg.
Record t : Type := mk {
  attr_height : Q;
  attr_width : Q;
  margin_left : option (option Q);
  margin_top : option Q;
  attr_orientation : option LegendPosition.t
}.
End Svg.

Module Group.
Record t : Type := mk {
  transform : option (Q * Q);
  legendTitle : list TitleLayout.t;
  legendItems : list LegendDataPoint.t;
  navArrows : list NavigationArrow.t
}.
End Group.

Module SVGLegend.

Record t : Type := mk {
  orientation : LegendPosition.t;
  viewport : OwnViewport.t;
  parentViewport : IViewport.t;
  svg : Svg.t;
  group : Group.t;
  legendDataStartIndex : Z;
  arrowPosWindow : Z;
  data : option LegendData.t;
  isScrollable : bool;
  showPrimary : bool;
  lastCalculatedWidth : Q;
  visibleLegendWidth : Q;
  visibleLegendHeight : Q;
  legendFontSizeMarginDifference : Q;
  legendFontSizeMarginValue : Q
}.

Definition set_orientation (v : LegendPosition.t) (s : t) : t :=
  mk v (viewport s) (parentViewport s) (svg s) (group s) (legendDataStartIndex s)
     (arrowPosWindow s) (data s) (isScrollable s) (showPrimary s)
     (lastCalculatedWidth s) (visibleLegendWidth s) (visibleLegendHeight s)
     (legendFontSizeMarginDifference s) (legendFontSizeMarginValue s).
Definition set_viewport (v : OwnViewport.t) (s : t) : t :=
  mk (orientation s) v (parentViewport s) (svg s) (group s) (legendDataStartIndex s)
     (arrowPosWindow s) (data s) (isScrollable s) (showPrimary s)
     (lastCalculatedWidth s) (visibleLegendWidth s) (visibleLegendHeight s)
     (legendFontSizeMarginDifference s) (legendFontSizeMarginValue s).
Definition set_parentViewport (v : IViewport.t) (s : t) : t :=
  mk (orientation s) (viewport s) v (svg s) (group s) (legendDataStartIndex s)
     (arrowPosWindow s) (data s) (isScrollable s) (showPrimary s)
     (lastCalculatedWidth s) (visibleLegendWidth s) (visibleLegendHeight s)
     (legendFontSizeMarginDifference s) (legendFontSizeMarginValue s).
Definition set_svg (v : Svg.t) (s : t) : t :=
  mk (orientation s) (viewport s) (parentViewport s) v (group s) (legendDataStartIndex s)
     (arrowPosWindow s) (data s) (isScrollable s) (showPrimary s)
     (lastCalculatedWidth s) (visibleLegendWidth s) (visibleLegendHeight s)
     (legendFontSizeMarginDifference s) (legendFontSizeMarginValue s).
Definition set_group (v : Group.t) (s : t) : t :=
  mk (orientation s) (viewport s) (parentViewport s) (svg s) v (legendDataStartIndex s)
     (arrowPosWindow s) (data s) (isScrollable s) (showPrimary s)
     (lastCalculatedWidth s) (visibleLegendWidth s) (visibleLegendHeight s)
     (legendFontSizeMarginDifference s) (legendFontSizeMarginValue s).
Definition set_legendDataStartIndex (v : Z) (s : t) : t :=
  mk (orientation s) (viewport s) (parentViewport s) (svg s) (group s) v
     (arrowPosWindow s) (data s) (isScrollable s) (showPrimary s)
     (lastCalculatedWidth s) (visibleLegendWidth s) (visibleLegendHeight s)
     (legendFontSizeMarginDifference s) (legendFontSizeMarginValue s).
Definition set_arrowPosWindow (v : Z) (s : t) : t :=
  mk (orientation s) (viewport s) (parentViewport s) (svg s) (group s) (legendDataStartIndex s)
     v (data s) (isScrollable s) (showPrimary s)
     (lastCalculatedWidth s) (visibleLegendWidth s) (visibleLegendHeight s)
     (legendFontSizeMarginDifference s) (legendFontSizeMarginValue s).
Definition set_data (v : option LegendData.t) (s : t) : t :=
  mk (orientation s) (viewport s) (parentViewport s) (svg s) (group s) (legendDataStartIndex s)
     (arrowPosWindow s) v (isScrollable s) (showPrimary s)
     (lastCalculatedWidth s) (visibleLegendWidth s) (visibleLegendHeight s)
     (legendFontSizeMarginDifference s) (legendFontSizeMarginValue s).
Definition set_showPrimary (v : bool) (s : t) : t :=
  mk (orientation s) (viewport s) (parentViewport s) (svg s) (group s) (legendDataStartIndex s)
     (arrowPosWindow s) (data s) (isScrollable s) v
     (lastCalculatedWidth s) (visibleLegendWidth s) (visibleLegendHeight s)
     (legendFontSizeMarginDifference s) (legendFontSizeMarginValue s).
Definition set_lastCalculatedWidth (v : Q) (s : t) : t :=
  mk (orientation s) (viewport s) (parentViewport s) (svg s) (group s) (legendDataStartIndex s)
     (arrowPosWindow s) (data s) (isScrollable s) (showPrimary s)
     v (visibleLegendWidth s) (visibleLegendHeight s)
     (legendFontSizeMarginDifference s) (legendFontSizeMarginValue s).
Definition set_visibleLegendWidth (v : Q) (s : t) : t :=
  mk (orientation s) (viewport s) (parentViewport s) (svg s) (group s) (legendDataStartIndex s)
     (arrowPosWindow s) (data s) (isScrollable s) (showPrimary s)
     (lastCalculatedWidth s) v (visibleLegendHeight s)
     (legendFontSizeMarginDifference s) (legendFontSizeMarginValue s).
Definition set_visibleLegendHeight (v : Q) (s : t) : t :=
  mk (orientation s) (viewport s) (parentViewport s) (svg s) (group s) (legendDataStartIndex s)
     (arrowPosWindow s) (data s) (isScrollable s) (showPrimary s)
     (lastCalculatedWidth s) (visibleLegendWidth s) v
     (legendFontSizeMarginDifference s) (legendFontSizeMarginValue s).
Definition set_legendFontSizeMargin (value difference : Q) (s : t) : t :=
  mk (orientation s) (viewport s) (parentViewport s) (svg s) (group s) (legendDataStartIndex s)
     (arrowPosWindow s) (data s) (isScrollable s) (showPrimary s)
     (lastCalculatedWidth s) (visibleLegendWidth s) (visibleLegendHeight s)
     difference value.

(** *** Static members *)

Definition DefaultFontSizeInPt : Q := 8.
Definition LegendIconRadius : Q := 5.
Definition MaxTextLength : Q := 60.
Definition MaxTitleLength : Q := 80.
Definition TextAndIconPadding : Q := 5.
Definition TitlePadding : Q := 15.
Definition LegendEdgeMariginWidth : Q := 10.
Definition LegendMaxWidthFactor : Q := 3 # 10.
Definition TopLegendHeight : Q := 24.
Definition DefaultTextMargin : Q := PixelConverter.fromPointToPixel DefaultFontSizeInPt.
Definition DefaultMaxLegendFactor : Q := MaxTitleLength / DefaultTextMargin.
Definition LegendArrowOffset : Q := 10.
Definition LegendArrowHeight : Q := 15.
Definition LegendArrowWidth : Q := 15 # 2.

(** *** Orientation *)

Definition isTopOrBottom (o : LegendPosition.t) : bool :=
  match o with
  | LegendPosition.Top | LegendPosition.Bottom
  | LegendPosition.BottomCenter | LegendPosition.TopCenter => true
  | _ => false
  end.

Definition isCentered (o : LegendPosition.t) : bool :=
  match o with
  | LegendPosition.BottomCenter | LegendPosition.LeftCenter
  | LegendPosition.RightCenter | LegendPosition.TopCenter => true
  | _ => false
  end.

Definition getMargins (s : t) : OwnViewport.t := viewport s.

Definition getOrientation (s : t) : LegendPosition.t := orientation s.

Definition isVisible (s : t) : bool :=
  negb (LegendPosition.eqb (orientation s) LegendPosition.None).

(** [if (orientation)]: [undefined] and the member whose number is 0 are
    falsy. *)
Definition truthy_position (o : option LegendPosition.t) : bool :=
  match o with
  | Some p => negb (LegendPosition.toNumber p =? 0)%Z
  | None => false
  end.

Definition changeOrientation (o : option LegendPosition.t) (s : t) : t :=
  let s :=
    match o with
    | Some p => if truthy_position o then set_orientation p s
                else set_orientation LegendPosition.Top s
    | None => set_orientation LegendPosition.Top s
    end in
  set_svg (Svg.mk (Svg.attr_height (svg s)) (Svg.attr_width (svg s))
                  (Svg.margin_left (svg s)) (Svg.margin_top (svg s)) o) s.

(** [x || y] on numbers: 0 (and [NaN]) are falsy. *)
Definition num_or (x y : Q) : Q := if Qeq_bool x 0 then y else x.
Definition nan_or (x : option Q) (y : Q) : Q :=
  match x with
  | Some v => num_or v y
  | None => y
  end.

(** [data && data.fontSize ? data.fontSize : DefaultFontSizeInPt] *)
Definition fontSize_or_default (d : option LegendData.t) : Q :=
  match d with
  | Some d =>
      match LegendData.fontSize d with
      | Some f => num_or f DefaultFontSizeInPt
      | None => DefaultFontSizeInPt
      end
  | None => DefaultFontSizeInPt
  end.

Definition calculateViewport (s : t) : result t :=
  match orientation s with
  | LegendPosition.Top | LegendPosition.Bottom
  | LegendPosition.TopCenter | LegendPosition.BottomCenter =>
      let pixelHeight := PixelConverter.fromPointToPixel (fontSize_or_default (data s)) in
      let fontHeightSize := TopLegendHeight + (pixelHeight - DefaultFontSizeInPt) in
      Ok (set_viewport (OwnViewport.mk fontHeightSize (Some 0)) s)
  | LegendPosition.Right | LegendPosition.Left
  | LegendPosition.RightCenter | LegendPosition.LeftCenter =>
      let width := num_or (lastCalculatedWidth s)
                     (IViewport.width (parentViewport s) * LegendMaxWidthFactor) in
      match data s with
      | None => TypeError
      | Some d =>
          let w := match LegendData.fontSize d with
                   | Some f => Some (width + f)
                   | None => None
                   end in
          Ok (set_viewport (OwnViewport.mk 0 w) s)
      end
  | LegendPosition.None =>
      Ok (set_viewport (OwnViewport.mk 0 (Some 0)) s)
  end.

Definition updateLayout (s : t) : t :=
  let o := orientation s in
  let s :=
    match data s with
    | Some _ =>
        if isTopOrBottom o && showPrimary s
        then set_viewport
               (OwnViewport.mk
                  (OwnViewport.height (viewport s)
                   + 3 * legendFontSizeMarginDifference s + 20)
                  (OwnViewport.width (viewport s))) s
        else s
    | None => s
    end in
  let legendViewport := viewport s in
  let isNone := LegendPosition.eqb o LegendPosition.None in
  let isRight := LegendPosition.eqb o LegendPosition.Right
                 || LegendPosition.eqb o LegendPosition.RightCenter in
  let isBottom := LegendPosition.eqb o LegendPosition.Bottom
                  || LegendPosition.eqb o LegendPosition.BottomCenter in
  set_svg
    (Svg.mk
       (num_or (OwnViewport.height legendViewport)
               (if isNone then 0 else IViewport.height (parentViewport s)))
       (nan_or (OwnViewport.width legendViewport)
               (if isNone then 0 else IViewport.width (parentViewport s)))
       (if isRight
        then Some (match OwnViewport.width legendViewport with
                   | Some w => Some (IViewport.width (parentViewport s) - w)
                   | None => None
                   end)
        else None)
       (if isBottom
        then Some (IViewport.height (parentViewport s) - OwnViewport.height legendViewport)
        else None)
       (Svg.attr_orientation (svg s)))
    s.

(** *** Pagination *)

Definition normalizePosition {A : Type} (points : list A) (s : t) : t :=
  let len := Z.of_nat (length points) in
  let s := if (len <=? legendDataStartIndex s)%Z
           then set_legendDataStartIndex (len - 1)%Z s else s in
  if (legendDataStartIndex s <? 0)%Z then set_legendDataStartIndex 0%Z s else s.

(** The method updates [arrowPosWindow] and edits the array of arrows in
    place; the edited array is returned with the instance. *)
Definition updateNavigationArrowLayout (navigationArrows : list NavigationArrow.t)
    (remainingDataLength visibleDataLength : Z) (s : t)
  : t * list NavigationArrow.t :=
  let navigationArrows :=
    if (legendDataStartIndex s =? 0)%Z then js_shift navigationArrows
    else navigationArrows in
  let lastWindow := arrowPosWindow s in
  let s := set_arrowPosWindow visibleDataLength s in
  if (0 <? Z.of_nat (length navigationArrows))%Z
     && (arrowPosWindow s =? remainingDataLength)%Z
  then (set_arrowPosWindow lastWindow s, js_drop_last navigationArrows)
  else (s, navigationArrows).

(** *** Text properties and markers *)

Definition getTextProperties (isTitle : bool) (text : option string) (fontSize : option Q)
  : TextProperties.t :=
  TextProperties.mk text (if isTitle then semibold else regular)
    (PixelConverter.fromPointToPixel
       (match fontSize with
        | Some f => num_or f DefaultFontSizeInPt
        | None => DefaultFontSizeInPt
        end)).

Definition setTooltipToLegendItems (d : LegendData.t) : LegendData.t :=
  LegendData.set_dataPoints
    (map (fun dataPoint =>
            LegendDataPoint.set_tooltip (Some (LegendDataPoint.label dataPoint)) dataPoint)
         (LegendData.dataPoints d))
    d.

(** A [for] loop over an array whose body edits the element and an
    accumulator, and which leaves the loop, recording the index, as soon as
    the accumulator passes a limit.  Both item layouts are loops of this
    shape ([numberOfItems = itr; break]). *)
Fixpoint for_until {A S : Type} (body : S -> A -> A * S) (stop : S -> bool)
    (l : list A) (itr : Z) (acc : S) : list A * S * option Z :=
  match l with
  | [] => ([], acc, None)
  | a :: rest =>
      let (a', acc') := body acc a in
      if stop acc' then (a' :: rest, acc', Some itr)
      else
        let '(rest', acc'', n) := for_until body stop rest (itr + 1)%Z acc' in
        (a' :: rest', acc'', n)
  end.

Section WithHost.
Context `{host : Host}.

Definition getMarkerShapeWidth (markerShape : option MarkerShape) : Q :=
  match markerShape with
  | Some longDash => LegendIconLineTotalWidth
  | _ => LegendIconRadius * 2
  end.

(** [dataPoints && dataPoints[0] && dataPoints[0].markerShape] *)
Definition firstDataPointMarkerShape (dataPoints : list LegendDataPoint.t)
  : option MarkerShape :=
  match dataPoints with
  | [] => None
  | dp :: _ => LegendDataPoint.markerShape dp
  end.

(** *** Title *)

(** [this.data] is the parameter [d]; [parseFloat(this.svg.style("width"))]
    is read from the width that [updateLayout] last gave the element. *)
Definition calculateTitleLayout (d : LegendData.t) (title : option string) (s : t)
  : option TitleLayout.t :=
  match title with
  | None => None
  | Some ttl =>
    if String.eqb ttl "" then None
    else
      let isHorizontal := isTopOrBottom (orientation s) in
      let maxMeasureLength :=
        if isHorizontal then
          let fontSizeMargin :=
            if Qgtb (legendFontSizeMarginValue s) DefaultTextMargin
            then TextAndIconPadding + legendFontSizeMarginDifference s
            else TextAndIconPadding in
          let fixedHorizontalIconShift := TextAndIconPadding + LegendIconRadius in
          let fixedHorizontalTextShift :=
            LegendIconRadius + fontSizeMargin + fixedHorizontalIconShift in
          IViewport.width (parentViewport s) * LegendMaxWidthFactor
          - fixedHorizontalTextShift - LegendEdgeMariginWidth
        else
          if Qltb (legendFontSizeMarginValue s) DefaultTextMargin
          then MaxTitleLength
          else MaxTitleLength + DefaultMaxLegendFactor * legendFontSizeMarginDifference s in
      let textProperties := getTextProperties true (Some ttl) (LegendData.fontSize d) in
      let titleWidth := measureSvgTextWidth textProperties in
      let tooWide := Qgtb titleWidth maxMeasureLength in
      let text :=
        if tooWide then getTailoredTextOrDefault textProperties maxMeasureLength else ttl in
      let width := if tooWide then maxMeasureLength else titleWidth in
      let text :=
        if isHorizontal then text
        else
          let legendWidth := Svg.attr_width (svg s) in
          if Qltb width maxMeasureLength
          then getTailoredTextOrDefault textProperties legendWidth
          else text in
      let width := if isHorizontal then width + TitlePadding else width in
      Some (TitleLayout.mk 0 0 text width (estimateSvgTextHeight textProperties))
  end.

(** *** Navigation arrows *)

Definition calculateHorizontalNavigationArrowsLayout (title : option TitleLayout.t) (s : t)
  : list NavigationArrow.t :=
  let height := LegendArrowHeight in
  let width := LegendArrowWidth in
  let translateY := OwnViewport.height (viewport s) / 2 - height / 2 in
  let rightShift :=
    match title with
    | Some tl => TitleLayout.x tl + TitleLayout.width tl
    | None => 0
    end in
  let arrowLeft := createArrow width height 180 in
  let arrowRight := createArrow width height 0 in
  [ NavigationArrow.mk rightShift translateY (fst arrowLeft) (snd arrowLeft) Decrease;
    NavigationArrow.mk (IViewport.width (parentViewport s) - width) translateY
      (fst arrowRight) (snd arrowRight) Increase ].

Definition calculateVerticalNavigationArrowsLayout (title : option TitleLayout.t) (s : t)
  : list NavigationArrow.t :=
  let height := LegendArrowHeight in
  let width := LegendArrowWidth in
  let verticalCenter := OwnViewport.height (viewport s) / 2 in
  let rightShift := verticalCenter + height / 2 in
  let arrowTop := createArrow width height 270 in
  let arrowBottom := createArrow width height 90 in
  let titleHeight :=
    match title with
    | Some tl => TitleLayout.height tl
    | None => 0
    end in
  [ NavigationArrow.mk rightShift (width + titleHeight) (fst arrowTop) (snd arrowTop) Decrease;
    NavigationArrow.mk rightShift (IViewport.height (parentViewport s) - height)
      (fst arrowBottom) (snd arrowBottom) Increase ].

(** *** Items *)

(** The widest of the label and, when the primary measure is shown, the two
    measures, plus the room of the indicators ([width += 15]).  Both layouts
    compute it with the same statements. *)
Definition measuredItemWidth (fontSize : option Q) (showPrimary : bool)
    (dataPoint : LegendDataPoint.t) : Q :=
  let labelwidth :=
    measureSvgTextWidth
      (getTextProperties false (Some (LegendDataPoint.label dataPoint)) fontSize) in
  let primaryWidth :=
    if showPrimary
    then measureSvgTextWidth
           (getTextProperties false (LegendDataPoint.measure dataPoint) fontSize)
    else 0 in
  let secondaryWidth :=
    if showPrimary
    then measureSvgTextWidth
           (getTextProperties false (LegendDataPoint.secondaryMeasure dataPoint) fontSize)
    else 0 in
  let width :=
    if Qgtb labelwidth primaryWidth
    then (if Qgtb labelwidth secondaryWidth then labelwidth else secondaryWidth)
    else (if Qgtb primaryWidth secondaryWidth then primaryWidth else secondaryWidth) in
  width + 15.

(** [text | 0] divided evenly, never below [MaxTextLength]. *)
Definition evenSplit (available : Q) (dataPointsLength : nat) : Q :=
  let maxTextLength :=
    if (0 <? dataPointsLength)%nat
    then inject_Z (toInt32 (available / inject_Z (Z.of_nat dataPointsLength)))
    else 0 in
  if Qgtb maxTextLength MaxTextLength then maxTextLength else MaxTextLength.

(** The body of the loop of [calculateHorizontalLayout]; the accumulator is
    [occupiedWidth]. *)
Definition horizontalItem (fontSize : option Q) (showPrimary : bool)
    (fixedTextShift fixedIconShift iconTotalItemPadding maxTextLength percentTextLength : Q)
    (occupiedWidth : Q) (dataPoint : LegendDataPoint.t) : LegendDataPoint.t * Q :=
  let markerShapeWidth := getMarkerShapeWidth (LegendDataPoint.markerShape dataPoint) in
  let textProperties :=
    getTextProperties false (Some (LegendDataPoint.label dataPoint)) fontSize in
  let width := measuredItemWidth fontSize showPrimary dataPoint in
  let dataPoint :=
    LegendDataPoint.set_positions
      (Point.mk (occupiedWidth + markerShapeWidth / 2) fixedIconShift)
      (Point.mk (occupiedWidth + fixedTextShift) fixedTextShift)
      dataPoint in
  if Qltb width maxTextLength then
    (dataPoint, occupiedWidth + (iconTotalItemPadding + width))
  else
    let text := getTailoredTextOrDefault textProperties maxTextLength in
    let measure' :=
      getTailoredTextOrDefault
        (getTextProperties false (LegendDataPoint.measure dataPoint) fontSize)
        maxTextLength in
    let secondaryMeasure' :=
      getTailoredTextOrDefault
        (getTextProperties false (LegendDataPoint.secondaryMeasure dataPoint) fontSize)
        percentTextLength in
    let dataPoint := LegendDataPoint.set_label text dataPoint in
    let dataPoint :=
      if showPrimary
      then LegendDataPoint.set_secondaryMeasure (Some secondaryMeasure')
             (LegendDataPoint.set_measure (Some measure') dataPoint)
      else dataPoint in
    (dataPoint, occupiedWidth + (iconTotalItemPadding + maxTextLength)).

(** The method edits the points, the title and the arrows in place; they are
    returned with the instance and the number of items. *)
Definition calculateHorizontalLayout (d : LegendData.t)
    (dataPoints : list LegendDataPoint.t) (title : option TitleLayout.t)
    (navigationArrows : list NavigationArrow.t) (s : t)
  : result (t * list LegendDataPoint.t * option TitleLayout.t
            * list NavigationArrow.t * Z) :=
  let HorizontalTextShift := 4 in
  let HorizontalIconShift := 11 in
  let fontSizeBiggerThanDefault := Qgtb (legendFontSizeMarginDifference s) 0 in
  let fontSizeMargin :=
    if fontSizeBiggerThanDefault
    then TextAndIconPadding + legendFontSizeMarginDifference s
    else TextAndIconPadding in
  let markerWidth := getMarkerShapeWidth (firstDataPointMarkerShape dataPoints) in
  let fixedTextShift := markerWidth / 2 + fontSizeMargin + HorizontalTextShift in
  let fixedIconShift :=
    HorizontalIconShift
    + (if fontSizeBiggerThanDefault then legendFontSizeMarginDifference s else 0) in
  let iconTotalItemPadding := markerWidth + fontSizeMargin * 3 in
  (* primaryMeasureLength = dataPoints[0]["measure"].length *)
  let primaryMeasureLength : result unit :=
    if showPrimary s then
      match dataPoints with
      | [] => TypeError
      | dp :: _ =>
          match LegendDataPoint.measure dp with
          | Some _ => Ok tt
          | None => TypeError
          end
      end
    else Ok tt in
  bind primaryMeasureLength (fun _ =>
  let occupiedWidth := 0 in
  let occupiedWidth :=
    match title with
    | Some tl => occupiedWidth + TitleLayout.width tl
    | None => occupiedWidth
    end in
  let title :=
    match title with
    | Some tl =>
        Some (TitleLayout.mk (TitleLayout.x tl) fixedTextShift (TitleLayout.text tl)
                (TitleLayout.width tl) (TitleLayout.height tl))
    | None => None
    end in
  let occupiedWidth :=
    if (0 <? legendDataStartIndex s)%Z then occupiedWidth + LegendArrowOffset
    else occupiedWidth in
  let dataPointsLength := length dataPoints in
  let parentWidth := IViewport.width (parentViewport s) in
  let maxTextLength :=
    evenSplit (parentWidth - occupiedWidth
               - iconTotalItemPadding * inject_Z (Z.of_nat dataPointsLength))
              dataPointsLength in
  let percentTextLength := evenSplit (parentWidth - occupiedWidth) dataPointsLength in
  let '(dataPoints, occupiedWidth, broke) :=
    for_until
      (horizontalItem (LegendData.fontSize d) (showPrimary s) fixedTextShift fixedIconShift
         iconTotalItemPadding maxTextLength percentTextLength)
      (fun occupiedWidth => Qgtb occupiedWidth parentWidth)
      dataPoints 0%Z occupiedWidth in
  let numberOfItems :=
    match broke with
    | Some itr => itr
    | None => Z.of_nat dataPointsLength
    end in
  let s := set_visibleLegendWidth occupiedWidth s in
  let '(s, navigationArrows) :=
    updateNavigationArrowLayout navigationArrows (Z.of_nat dataPointsLength)
      numberOfItems s in
  Ok (s, dataPoints, title, navigationArrows, numberOfItems)).

(** The body of the loop of [calculateVerticalLayout]; the accumulator is
    [(totalSpaceOccupiedThusFar, maxHorizontalSpaceUsed)]. *)
Definition verticalItem (fontSize : option Q) (showPrimary : bool)
    (legendFontSizeMarginDifference fontFactor verticalLegendHeight
     extraShiftForTextAlignmentToIcon fixedHorizontalIconShift fixedHorizontalTextShift
     maxHorizontalSpaceAvaliable : Q)
    (acc : Q * Q) (dp : LegendDataPoint.t) : LegendDataPoint.t * (Q * Q) :=
  let '(totalSpaceOccupiedThusFar, maxHorizontalSpaceUsed) := acc in
  let textProperties :=
    getTextProperties false (Some (LegendDataPoint.label dp)) fontSize in
  let width := measuredItemWidth fontSize showPrimary dp in
  let dp :=
    LegendDataPoint.set_positions
      (Point.mk fixedHorizontalIconShift (totalSpaceOccupiedThusFar + fontFactor))
      (Point.mk fixedHorizontalTextShift
         (totalSpaceOccupiedThusFar + extraShiftForTextAlignmentToIcon))
      dp in
  let totalSpaceOccupiedThusFar :=
    if showPrimary
    then totalSpaceOccupiedThusFar + (20 + legendFontSizeMarginDifference / 2) * 2
    else totalSpaceOccupiedThusFar in
  let maxHorizontalSpaceUsed :=
    if Qgtb width maxHorizontalSpaceUsed then width else maxHorizontalSpaceUsed in
  let dp :=
    if Qgtb width maxHorizontalSpaceAvaliable then
      let text := getTailoredTextOrDefault textProperties maxHorizontalSpaceAvaliable in
      let measure' :=
        getTailoredTextOrDefault
          (getTextProperties false (LegendDataPoint.measure dp) fontSize)
          (maxHorizontalSpaceAvaliable - 18) in
      let secondaryMeasure' :=
        getTailoredTextOrDefault
          (getTextProperties false (LegendDataPoint.secondaryMeasure dp) fontSize)
          (maxHorizontalSpaceAvaliable - 18) in
      let dp := LegendDataPoint.set_label text dp in
      if showPrimary
      then LegendDataPoint.set_secondaryMeasure (Some secondaryMeasure')
             (LegendDataPoint.set_measure (Some measure') dp)
      else dp
    else dp in
  (dp, (totalSpaceOccupiedThusFar + verticalLegendHeight, maxHorizontalSpaceUsed)).

Definition calculateVerticalLayout (d : LegendData.t)
    (dataPoints : list LegendDataPoint.t) (title : option TitleLayout.t)
    (navigationArrows : list NavigationArrow.t) (autoWidth : bool) (s : t)
  : t * list LegendDataPoint.t * option TitleLayout.t * list NavigationArrow.t * Z :=
  let fontSizeBiggerThenDefault := Qgtb (legendFontSizeMarginDifference s) 0 in
  let fontFactor :=
    if fontSizeBiggerThenDefault then legendFontSizeMarginDifference s else 0 in
  let verticalLegendHeight := 20 + fontFactor in
  let spaceNeededByTitle := 15 + fontFactor * (13 # 10) in
  let extraShiftForTextAlignmentToIcon := 4 + fontFactor * (13 # 10) in
  let totalSpaceOccupiedThusFar := 0 in
  let fixedHorizontalIconShift :=
    TextAndIconPadding + getMarkerShapeWidth (firstDataPointMarkerShape dataPoints) / 2 in
  let fixedHorizontalTextShift := fixedHorizontalIconShift * 2 in
  let maxHorizontalSpaceAvaliable :=
    if autoWidth
    then IViewport.width (parentViewport s) * LegendMaxWidthFactor
         - fixedHorizontalTextShift - LegendEdgeMariginWidth
    else lastCalculatedWidth s - fixedHorizontalTextShift - LegendEdgeMariginWidth in
  let maxHorizontalSpaceUsed := 0 in
  let parentHeight := IViewport.height (parentViewport s) in
  let totalSpaceOccupiedThusFar :=
    match title with
    | Some _ => totalSpaceOccupiedThusFar + spaceNeededByTitle + spaceNeededByTitle
    | None => totalSpaceOccupiedThusFar + spaceNeededByTitle
    end in
  let maxHorizontalSpaceUsed :=
    match title with
    | Some tl => num_or (TitleLayout.width tl) 0
    | None => maxHorizontalSpaceUsed
    end in
  let title :=
    match title with
    | Some tl =>
        Some (TitleLayout.mk TextAndIconPadding spaceNeededByTitle (TitleLayout.text tl)
                (TitleLayout.width tl) (TitleLayout.height tl))
    | None => None
    end in
  let totalSpaceOccupiedThusFar :=
    if (0 <? legendDataStartIndex s)%Z
    then totalSpaceOccupiedThusFar + LegendArrowOffset
    else totalSpaceOccupiedThusFar in
  let dataPointsLength := length dataPoints in
  let '(dataPoints, (totalSpaceOccupiedThusFar, maxHorizontalSpaceUsed), broke) :=
    for_until
      (verticalItem (LegendData.fontSize d) (showPrimary s)
         (legendFontSizeMarginDifference s) fontFactor verticalLegendHeight
         extraShiftForTextAlignmentToIcon fixedHorizontalIconShift
         fixedHorizontalTextShift maxHorizontalSpaceAvaliable)
      (fun acc => Qgtb (fst acc) parentHeight)
      dataPoints 0%Z (totalSpaceOccupiedThusFar, maxHorizontalSpaceUsed) in
  let numberOfItems :=
    match broke with
    | Some itr => itr
    | None => Z.of_nat dataPointsLength
    end in
  let s :=
    if autoWidth then
      let w :=
        if Qltb maxHorizontalSpaceUsed maxHorizontalSpaceAvaliable
        then Math_ceil (maxHorizontalSpaceUsed + fixedHorizontalTextShift
                        + LegendEdgeMariginWidth)
        else Math_ceil (IViewport.width (parentViewport s) * LegendMaxWidthFactor) in
      set_lastCalculatedWidth w
        (set_viewport (OwnViewport.mk (OwnViewport.height (viewport s)) (Some w)) s)
    else
      set_viewport
        (OwnViewport.mk (OwnViewport.height (viewport s)) (Some (lastCalculatedWidth s))) s in
  let s := set_visibleLegendHeight (totalSpaceOccupiedThusFar - verticalLegendHeight) s in
  let title :=
    match title with
    | Some tl =>
        let textProperties :=
          getTextProperties true (LegendData.title d) (LegendData.fontSize d) in
        Some (TitleLayout.mk (TitleLayout.x tl) (TitleLayout.y tl)
                (getTailoredTextOrDefault textProperties (lastCalculatedWidth s))
                (TitleLayout.width tl) (TitleLayout.height tl))
    | None => None
    end in
  let navigationArrows :=
    map (NavigationArrow.set_x (lastCalculatedWidth s / 2)) navigationArrows in
  let '(s, navigationArrows) :=
    updateNavigationArrowLayout navigationArrows (Z.of_nat dataPointsLength)
      numberOfItems s in
  (s, dataPoints, title, navigationArrows, numberOfItems).

(** *** calculateLayout

    The method is called with [data === this.data] only, so the model reads
    the data from the instance.  [dataPoints.slice(start)] shares its
    elements with [data.dataPoints]: the points edited by the item layout
    are written back behind the points that precede the window. *)
Definition calculateLayout (autoWidth : bool) (s : t) : result (t * LegendLayout.t) :=
  match data s with
  | None => TypeError
  | Some d =>
    let allPoints := LegendData.dataPoints d in
    if (Z.of_nat (length allPoints) =? 0)%Z then
      Ok (s, LegendLayout.mk 0 None [])
    else
      let value :=
        PixelConverter.fromPointToPixel
          (match LegendData.fontSize d with
           | Some f => f
           | None => DefaultFontSizeInPt
           end) in
      let s := set_legendFontSizeMargin value (value - DefaultTextMargin) s in
      let s := normalizePosition allPoints s in
      let sliced := (legendDataStartIndex s <? Z.of_nat (length allPoints))%Z in
      let dataPoints :=
        if sliced then js_slice_from allPoints (legendDataStartIndex s) else allPoints in
      let title := calculateTitleLayout d (LegendData.title d) s in
      bind
        (if isTopOrBottom (orientation s) then
          let navArrows :=
            if isScrollable s then calculateHorizontalNavigationArrowsLayout title s
            else [] in
          calculateHorizontalLayout d dataPoints title navArrows s
        else
          let navArrows :=
            if isScrollable s then calculateVerticalNavigationArrowsLayout title s
            else [] in
          Ok (calculateVerticalLayout d dataPoints title navArrows autoWidth s))
        (fun laid =>
      let '(s, dataPoints, title, navArrows, numberOfItems) := laid in
      let allPoints :=
        if sliced
        then firstn (js_index allPoints (legendDataStartIndex s)) allPoints ++ dataPoints
        else dataPoints in
      Ok (set_data (Some (LegendData.set_dataPoints allPoints d)) s,
          LegendLayout.mk numberOfItems title navArrows))
  end.

(** *** drawLegendInternal

    Kept of the rendering: what is bound to the group (title, visible items,
    arrows) and the transform of the centered placements.  The selection
    state ([interactivityService]) and the map-control workaround touch
    nothing that the layout reads. *)
Definition drawLegendInternal (data : LegendData.t) (viewport : IViewport.t)
    (autoWidth : bool) (s : t) : result t :=
  let s := set_parentViewport viewport s in
  let s := set_data (Some data) s in
  let s :=
    if (Z.of_nat (length (LegendData.dataPoints data)) =? 0)%Z
    then changeOrientation (Some LegendPosition.None) s else s in
  let data :=
    if LegendPosition.eqb (getOrientation s) LegendPosition.None
    then LegendData.set_dataPoints [] data else data in
  let s := set_data (Some data) s in
  let s := set_showPrimary (negb (String.eqb (LegendData.primaryType data) "None")) s in
  bind (calculateViewport s) (fun s =>
  bind (calculateLayout autoWidth s) (fun laid =>
  let '(s, layout) := laid in
  let titleData :=
    match LegendLayout.title layout with
    | Some titleLayout => [titleLayout]
    | None => []
    end in
  let transform :=
    if isCentered (orientation s) then
      if isTopOrBottom (orientation s) then
        let centerOffset :=
          ifgt 0 ((IViewport.width (parentViewport s) - visibleLegendWidth s) / 2) in
        Some (centerOffset, 0)
      else
        let half := (IViewport.height (parentViewport s) - visibleLegendHeight s) / 2 in
        Some (0, if Qltb half 0 then 0 else half)
    else None in
  let virtualizedDataPoints :=
    match SVGLegend.data s with
    | Some d =>
        js_slice (LegendData.dataPoints d) (legendDataStartIndex s)
          (legendDataStartIndex s + LegendLayout.numberOfItems layout)
    | None => []
    end in
  let s :=
    set_group
      (Group.mk transform titleData virtualizedDataPoints
         (LegendLayout.navigationArrows layout)) s in
  Ok (updateLayout s))).

(** [Prototype.inherit] gives every clone the properties of its original;
    at the level of values a clone is a copy.  The object store at the end of
    the file keeps the clones apart from the originals. *)
Definition drawLegend (data : LegendData.t) (viewport : IViewport.t) (s : t) : result t :=
  let clonedData := data in
  let newDataPoints := map (fun dp => dp) (LegendData.dataPoints data) in
  let clonedData := LegendData.set_dataPoints newDataPoints clonedData in
  let clonedData := setTooltipToLegendItems clonedData in
  drawLegendInternal clonedData viewport true s.

(** *** calculateHorizontalLegendItemsWidths

    The first loop: items are appended while the occupied width stays below
    the available width; the accumulator is [(occupiedWidth, legendItems)].
    The parameter [fontFamily] of the method is not read. *)
Fixpoint addLegendItems (fontSize : option Q)
    (iconPadding maxItemWidth availableWidth : Q)
    (dataPoints : list LegendDataPoint.t)
    (occupiedWidth : Q) (legendItems : list LegendItem.t) : Q * list LegendItem.t :=
  match dataPoints with
  | [] => (occupiedWidth, legendItems)
  | dataPoint :: rest =>
      let textProperties :=
        getTextProperties false (Some (LegendDataPoint.label dataPoint)) fontSize in
      let itemTextWidth := measureSvgTextWidth textProperties in
      let desiredWidth := itemTextWidth + iconPadding in
      let overMaxWidth := Qgtb desiredWidth maxItemWidth in
      let actualWidth := if overMaxWidth then maxItemWidth else desiredWidth in
      let occupiedWidth := occupiedWidth + actualWidth in
      if Qle_bool availableWidth occupiedWidth then
        if (Z.of_nat (length legendItems) =? 0)%Z
        then (availableWidth,
              legendItems
              ++ [LegendItem.mk dataPoint textProperties desiredWidth desiredWidth true])
        else (occupiedWidth - actualWidth, legendItems)
      else
        addLegendItems fontSize iconPadding maxItemWidth availableWidth rest occupiedWidth
          (legendItems
           ++ [LegendItem.mk dataPoint textProperties desiredWidth desiredWidth overMaxWidth])
  end.

(** The second loop runs over [legendItems.filter(li => li.desiredOverMaxWidth)],
    whose elements are the objects of [legendItems] themselves: what it
    assigns shows in [legendItems].  The filter is evaluated before the
    loop, and the loop assigns to the item it is at only, so one pass over
    [legendItems] that skips the items whose flag is not set visits the same
    items in the same order. *)
Fixpoint redistributeExtraWidth (maxItemWidth : Q) (legendItems : list LegendItem.t)
    (extraWidth : Q) (numItemsOverMax : Z) : list LegendItem.t :=
  match legendItems with
  | [] => []
  | item :: rest =>
      if LegendItem.desiredOverMaxWidth item then
        let extraWidthPerItem := extraWidth / inject_Z numItemsOverMax in
        let newMaxItemWidth := maxItemWidth + extraWidthPerItem in
        if Qle_bool (LegendItem.desiredWidth item) newMaxItemWidth then
          let usedExtraWidth := LegendItem.desiredWidth item - maxItemWidth in
          LegendItem.set_desiredOverMaxWidth false item
          :: redistributeExtraWidth maxItemWidth rest (extraWidth - usedExtraWidth)
               (numItemsOverMax - 1)%Z
        else
          let usedExtraWidth := newMaxItemWidth - maxItemWidth in
          LegendItem.set_width newMaxItemWidth item
          :: redistributeExtraWidth maxItemWidth rest (extraWidth - usedExtraWidth)
               (numItemsOverMax - 1)%Z
      else item :: redistributeExtraWidth maxItemWidth rest extraWidth numItemsOverMax
  end.

(** The width that an item may take before the extra width is shared out:
    the even share, at least [MaxTextLength] of text, at most the available
    width. *)
Definition maxItemWidthOf (dataPointsLength : nat) (availableWidth iconPadding : Q) : Q :=
  let maxItemWidth :=
    if (0 <? Z.of_nat dataPointsLength)%Z
    then inject_Z (toInt32 (availableWidth / inject_Z (Z.of_nat dataPointsLength)))
    else 0 in
  let maxItemTextWidth := maxItemWidth - iconPadding in
  let maxItemWidth :=
    if Qltb maxItemTextWidth MaxTextLength then MaxTextLength + iconPadding
    else maxItemWidth in
  if Qgtb maxItemWidth availableWidth then availableWidth else maxItemWidth.

Definition calculateHorizontalLegendItemsWidths (dataPoints : list LegendDataPoint.t)
    (availableWidth iconPadding : Q) (fontSize : option Q) : list LegendItem.t :=
  let maxItemWidth := maxItemWidthOf (length dataPoints) availableWidth iconPadding in
  let '(occupiedWidth, legendItems) :=
    addLegendItems fontSize iconPadding maxItemWidth availableWidth dataPoints 0 [] in
  let numItemsOverMax :=
    Z.of_nat (length (filter (fun li => LegendItem.desiredOverMaxWidth li = true)
                        legendItems)) in
  if (0 <? numItemsOverMax)%Z
  then redistributeExtraWidth maxItemWidth legendItems (availableWidth - occupiedWidth)
         numItemsOverMax
  else legendItems.

(** The click handler that [drawNavigationArrows] binds to each arrow. *)
Definition onArrowClick (d : NavigationArrow.t) (s : t) : result t :=
  let pos := legendDataStartIndex s in
  let s :=
    set_legendDataStartIndex
      (match NavigationArrow.dataType d with
       | Increase => pos + arrowPosWindow s
       | Decrease => pos - arrowPosWindow s
       end)%Z s in
  match SVGLegend.data s with
  | Some data => drawLegendInternal data (parentViewport s) false s
  | None => TypeError
  end.

End WithHost.

(** *** The constructor

    The instance before the body of the constructor runs: the fields with an
    initializer hold it, [data] is [undefined] and [showPrimary] is falsy.
    [orientation], [viewport], [parentViewport] and the attributes of the
    [svg] element are written by the body before anything reads them; here
    they hold a placeholder. *)
Definition initial (isScrollable : bool) : t :=
  mk LegendPosition.Top (OwnViewport.mk 0 (Some 0)) (IViewport.mk 0 0)
     (Svg.mk 0 0 None None None) (Group.mk None [] [] [])
     0 1 None isScrollable false 0 0 0 0 0.

(** [new SVGLegend(element, legendPosition, interactivityService,
    isScrollable)] *)
Definition constructor (legendPosition : option LegendPosition.t) (isScrollable : bool)
  : result t :=
  let s := initial isScrollable in
  let s := changeOrientation legendPosition s in
  let s := set_parentViewport (IViewport.mk 0 0) s in
  bind (calculateViewport s) (fun s => Ok (updateLayout s)).

End SVGLegend.

(** ** A host with a fixed-pitch font

    A text service for the examples: every character is 6 pixels wide and
    12 pixels high whatever the font.  Tailoring follows the service of
    powerbi-visuals-utils-formattingutils: a text strictly narrower than the
    target is returned as it is; otherwise the longest prefix is kept such
    that the prefix and three dots fit, and the dots are appended. *)
Module FixedPitch.

Definition charWidth : Q := 6.

Definition widthOf (s : string) : Q :=
  charWidth * inject_Z (Z.of_nat (String.length s)).

Definition measure (tp : TextProperties.t) : Q :=
  match TextProperties.text tp with
  | Some s => widthOf s
  | None => 0
  end.

Definition ellipsis : string := "...".

Definition tailor (tp : TextProperties.t) (maxWidth : Q) : string :=
  match TextProperties.text tp with
  | None => ""
  | Some s =>
      if (String.length s =? 0)%nat then s
      else if Qltb (measure tp) maxWidth then s
      else
        let fit := Z.to_nat (Qfloor (maxWidth / charWidth)) in
        (String.substring 0 (fit - 3) s ++ ellipsis)%string
  end.

Definition host : Host := {|
  measureSvgTextWidth := measure;
  estimateSvgTextHeight := fun _ => 12;
  getTailoredTextOrDefault := tailor;
  LegendIconLineTotalWidth := 31;
  createArrow := fun _ _ _ => ("M0 0L4 4L0 8", "rotate")
|}.

Definition point (label : string) : LegendDataPoint.t :=
  LegendDataPoint.mk label label None None None None None None.

Definition legendData (labels : list string) : LegendData.t :=
  LegendData.mk (map point labels) None (Some 8) "None".

(** A legend as its constructor leaves it, for a horizontal or [None]
    placement. *)
Definition legend (o : LegendPosition.t) (isScrollable : bool) : SVGLegend.t :=
  SVGLegend.mk o (OwnViewport.mk 0 (Some 0)) (IViewport.mk 0 0)
    (Svg.mk 0 0 None None (Some o)) (Group.mk None [] [] [])
    0 1 None isScrollable false 0 0 0 0 0.

(** The legend once [drawLegendInternal] has stored its arguments. *)
Definition loaded (o : LegendPosition.t) (isScrollable : bool) (startIndex : Z)
    (labels : list string) (viewport : IViewport.t) : SVGLegend.t :=
  SVGLegend.set_legendDataStartIndex startIndex
    (SVGLegend.set_data (Some (legendData labels))
       (SVGLegend.set_parentViewport viewport (legend o isScrollable))).

Definition fiveLabels : list string :=
  ["aaaaaaaaaaaaaaaa"; "bbbbbbbbbbbbbbbbbbbbbbbbbb"; "cccccccccccccc";
   "dddddddddddddddd"; "eeeeee"]%string.

(** Twelve labels of five characters: 45 pixels each with the indicators. *)
Definition twelveLabels : list string :=
  ["label"; "label"; "label"; "label"; "label"; "label";
   "label"; "label"; "label"; "label"; "label"; "label"]%string.

End FixedPitch.

(** ** The object store

    [drawLegend] receives references: the caller keeps the data object and
    its points, and would see any property written to them.  Objects are
    allocated in a list (a location is an index), each with its own
    properties and an optional prototype; [Prototype.inherit(o)] allocates
    an object without own properties whose prototype is [o].  A read walks
    the prototype chain, a write creates or replaces an own property of its
    target.  Arrays and the [{x, y}] literals are never edited after they are
    built, so they are values. *)
Module Store.

Inductive value : Type :=
| VUndefined
| VNumber (q : Q)
| VString (s : string)
| VMarker (m : MarkerShape)
| VPoint (p : Point.t)
| VArray (refs : list nat).

Record object : Type := mkObject {
  proto : option nat;
  props : gmap string value
}.

Fixpoint get_fuel (fuel : nat) (h : list object) (l : nat) (k : string) : value :=
  match fuel with
  | O => VUndefined
  | S fuel =>
      match h !! l with
      | None => VUndefined
      | Some o =>
          match props o !! k with
          | Some v => v
          | None =>
              match proto o with
              | Some p => get_fuel fuel h p k
              | None => VUndefined
              end
          end
      end
  end.

(** [o[k]]: a prototype is allocated before the objects that inherit from
    it, so a chain that starts at [l] has at most [S l] objects. *)
Definition get (h : list object) (l : nat) (k : string) : value :=
  get_fuel (S l) h l k.

(** [o[k] = v] *)
Definition set (h : list object) (l : nat) (k : string) (v : value) : list object :=
  alter (fun o => mkObject (proto o) (<[k := v]> (props o))) l h.

(** [Prototype.inherit(o)] of powerbi-visuals-utils-typeutils: a new object
    with no property of its own, whose prototype is [o]. *)
Definition inherit (h : list object) (l : nat) : list object * nat :=
  (h ++ [mkObject (Some l) ∅], length h).

Fixpoint inheritAll (h : list object) (ls : list nat) : list object * list nat :=
  match ls with
  | [] => (h, [])
  | l :: rest =>
      let (h1, c) := inherit h l in
      let (h2, cs) := inheritAll h1 rest in
      (h2, c :: cs)
  end.

Definition getString (h : list object) (l : nat) (k : string) : option string :=
  match get h l k with
  | VString s => Some s
  | _ => None
  end.

Definition getPoint (h : list object) (l : nat) (k : string) : option Point.t :=
  match get h l k with
  | VPoint p => Some p
  | _ => None
  end.

Definition getArray (h : list object) (l : nat) (k : string) : list nat :=
  match get h l k with
  | VArray refs => refs
  | _ => []
  end.

Definition ofString (s : option string) : value :=
  match s with
  | Some s => VString s
  | None => VUndefined
  end.

Definition ofPoint (p : option Point.t) : value :=
  match p with
  | Some p => VPoint p
  | None => VUndefined
  end.

(** The data point and the data that a reference denotes. *)
Definition readPoint (h : list object) (l : nat) : LegendDataPoint.t :=
  LegendDataPoint.mk
    (default "" (getString h l "identity"))
    (default "" (getString h l "label"))
    (getString h l "measure")
    (getString h l "secondaryMeasure")
    (match get h l "markerShape" with
     | VMarker m => Some m
     | _ => None
     end)
    (getPoint h l "glyphPosition")
    (getPoint h l "textPosition")
    (getString h l "tooltip").

Definition readData (h : list object) (l : nat) : LegendData.t :=
  LegendData.mk
    (map (readPoint h) (getArray h l "dataPoints"))
    (getString h l "title")
    (match get h l "fontSize" with
     | VNumber q => Some q
     | _ => None
     end)
    (default "" (getString h l "primaryType")).

(** The assignments of the item layouts to one point. *)
Definition writePoint (h : list object) (l : nat) (dp : LegendDataPoint.t) : list object :=
  let h := set h l "glyphPosition" (ofPoint (LegendDataPoint.glyphPosition dp)) in
  let h := set h l "textPosition" (ofPoint (LegendDataPoint.textPosition dp)) in
  let h := set h l "label" (VString (LegendDataPoint.label dp)) in
  let h := set h l "measure" (ofString (LegendDataPoint.measure dp)) in
  set h l "secondaryMeasure" (ofString (LegendDataPoint.secondaryMeasure dp)).

Fixpoint writePoints (h : list object) (ls : list nat) (dps : list LegendDataPoint.t)
  : list object :=
  match ls, dps with
  | l :: ls, dp :: dps => writePoints (writePoint h l dp) ls dps
  | _, _ => h
  end.

(** [for (let dataPoint of data.dataPoints) dataPoint.tooltip = dataPoint.label] *)
Definition setTooltipToLegendItems (h : list object) (data : nat) : list object :=
  fold_left (fun h dataPoint => set h dataPoint "tooltip" (get h dataPoint "label"))
    (getArray h data "dataPoints") h.

Section WithHost.
Context `{host : Host}.

(** [drawLegendInternal] on a reference: the layout runs on what the
    reference denotes, and its assignments land in the objects that the
    reference reaches: [data.dataPoints = []] on the data object, the
    positions and the tailored texts on the points of its array. *)
Definition drawLegendInternal (h : list object) (data : nat) (viewport : IViewport.t)
    (autoWidth : bool) (s : SVGLegend.t) : result (list object * SVGLegend.t) :=
  match SVGLegend.drawLegendInternal (readData h data) viewport autoWidth s with
  | TypeError => TypeError
  | Ok s' =>
      let laidOut :=
        match SVGLegend.data s' with
        | Some d => LegendData.dataPoints d
        | None => []
        end in
      let h :=
        if LegendPosition.eqb (SVGLegend.getOrientation s') LegendPosition.None
        then set h data "dataPoints" (VArray [])
        else writePoints h (getArray h data "dataPoints") laidOut in
      Ok (h, s')
  end.

(** [drawLegend]: the clone of the data, the clones of its points ([c] is
    what [this.data] refers to afterwards). *)
Definition drawLegend (h : list object) (data : nat) (viewport : IViewport.t)
    (s : SVGLegend.t) : result (list object * nat * SVGLegend.t) :=
  let (h, clonedData) := inherit h data in
  let (h, newDataPoints) := inheritAll h (getArray h data "dataPoints") in
  let h := set h clonedData "dataPoints" (VArray newDataPoints) in
  let h := setTooltipToLegendItems h clonedData in
  match drawLegendInternal h clonedData viewport true s with
  | TypeError => TypeError
  | Ok (h, s') => Ok (h, clonedData, s')
  end.

End WithHost.

(** A store is closed when no prototype dangles. *)
Definition closed (h : list object) : Prop :=
  forall l o p, h !! l = Some o -> proto o = Some p -> (p < length h)%nat.

(** A property of the object itself, not of its prototype chain. *)
Definition own (h : list object) (l : nat) (k : string) (v : value) : Prop :=
  exists o, h !! l = Some o /\ props o !! k = Some v.

(** What is below [n] in the store. *)
Definition sameBelow (n : nat) (h h' : list object) : Prop :=
  forall l, (l < n)%nat -> h' !! l = h !! l.

(** A caller's store: two points with long labels at 0 and 1, and at 2 the
    legend data that lists them. *)
Definition samplePoint (identity label : string) : object :=
  mkObject None (<["identity" := VString identity]> (<["label" := VString label]> ∅)).

Definition sample : list object :=
  [ samplePoint "first" "aaaaaaaaaaaaaaaaaaaaaaaaaaaaaaaaaaaaaaaa";
    samplePoint "second" "bbbbbbbbbbbbbbbbbbbbbbbbbbbbbbbbbbbbbbbb";
    mkObject None
      (<["dataPoints" := VArray [0%nat; 1%nat]]>
         (<["fontSize" := VNumber 8]> (<["primaryType" := VString "None"]> ∅))) ].

End Store.

(** ** Vocabulary of the statements *)

(** The kinds of the arrows of a layout, in order. *)
Definition arrowTypes (arrows : list NavigationArrow.t) : list NavigationArrowType :=
  map NavigationArrow.dataType arrows.

(** The points from the pagination start onward. *)
Definition paginationWindow (d : LegendData.t) (s : SVGLegend.t)
  : list LegendDataPoint.t :=
  js_slice_from (LegendData.dataPoints d) (SVGLegend.legendDataStartIndex s).

(** Every point carries a primary measure. *)
Definition measuresDefined (points : list LegendDataPoint.t) : Prop :=
  Forall (fun dp => LegendDataPoint.measure dp <> None) points.

(** The parent viewport has no room along the axis of the layout. *)
Definition zeroSized (s : SVGLegend.t) : Prop :=
  if SVGLegend.isTopOrBottom (SVGLegend.orientation s)
  then IViewport.width (SVGLegend.parentViewport s) == 0
  else IViewport.height (SVGLegend.parentViewport s) == 0.

(** What the layout arithmetic expects of its inputs: measured widths and
    the width of the long-dash marker are not negative, and neither is the
    font size. *)
Definition wellFormed `{host : Host} (d : LegendData.t) : Prop :=
  (forall tp, 0 <= measureSvgTextWidth tp)
  /\ 0 <= LegendIconLineTotalWidth
  /\ match LegendData.fontSize d with
     | Some f => 0 <= f
     | None => True
     end.

(** The budget of text width per item of a horizontal pass, as
    [calculateHorizontalLayout] derives it before its loop
    ([maxTextLength]). *)
Definition horizontalBudget `{host : Host} (dataPoints : list LegendDataPoint.t)
    (title : option TitleLayout.t) (s : SVGLegend.t) : Q :=
  let fontSizeMargin :=
    if Qgtb (SVGLegend.legendFontSizeMarginDifference s) 0
    then SVGLegend.TextAndIconPadding + SVGLegend.legendFontSizeMarginDifference s
    else SVGLegend.TextAndIconPadding in
  let iconTotalItemPadding :=
    SVGLegend.getMarkerShapeWidth (SVGLegend.firstDataPointMarkerShape dataPoints)
    + fontSizeMargin * 3 in
  let occupiedWidth :=
    match title with
    | Some tl => 0 + TitleLayout.width tl
    | None => 0
    end in
  let occupiedWidth :=
    if (0 <? SVGLegend.legendDataStartIndex s)%Z
    then occupiedWidth + SVGLegend.LegendArrowOffset
    else occupiedWidth in
  SVGLegend.evenSplit
    (IViewport.width (SVGLegend.parentViewport s) - occupiedWidth
     - iconTotalItemPadding * inject_Z (Z.of_nat (length dataPoints)))
    (length dataPoints).

(** The budget of a vertical pass ([maxHorizontalSpaceAvaliable]). *)
Definition verticalBudget `{host : Host} (dataPoints : list LegendDataPoint.t)
    (autoWidth : bool) (s : SVGLegend.t) : Q :=
  let fixedHorizontalTextShift :=
    (SVGLegend.TextAndIconPadding
     + SVGLegend.getMarkerShapeWidth (SVGLegend.firstDataPointMarkerShape dataPoints) / 2)
    * 2 in
  if autoWidth
  then IViewport.width (SVGLegend.parentViewport s) * SVGLegend.LegendMaxWidthFactor
       - fixedHorizontalTextShift - SVGLegend.LegendEdgeMariginWidth
  else SVGLegend.lastCalculatedWidth s - fixedHorizontalTextShift
       - SVGLegend.LegendEdgeMariginWidth.

(** What the layouts rely on from [getTailoredTextOrDefault]: a text that
    is strictly narrower than the target comes back as it is, and tailoring
    to a target that has room for the ellipsis yields a text no wider than
    the target. *)
Definition tailoringContract `{host : Host} (ellipsisWidth : Q) : Prop :=
  (forall tp w t,
     TextProperties.text tp = Some t ->
     measureSvgTextWidth tp < w ->
     getTailoredTextOrDefault tp w = t)
  /\ (forall tp w,
        ellipsisWidth <= w ->
        measureSvgTextWidth
          (TextProperties.mk (Some (getTailoredTextOrDefault tp w))
             (TextProperties.fontFamily tp) (TextProperties.fontSize tp)) <= w).

(** The labels after an item layout that returned [n], against a budget:
    a point behind the one at which the loop stopped is untouched; a point
    the loop reached has its label tailored to the budget when the label is
    at least as wide as the budget, the new label is then no wider than the
    budget if the budget has room for the ellipsis, and a label narrower
    than the budget is kept. *)
Definition labelsTailored `{host : Host} (ellipsisWidth : Q) (fontSize : option Q)
    (budget : Q) (n : Z) (before after : list LegendDataPoint.t) : Prop :=
  forall (i : nat) (dp : LegendDataPoint.t),
    before !! i = Some dp ->
    exists dp',
      after !! i = Some dp'
      /\ let tp := SVGLegend.getTextProperties false (Some (LegendDataPoint.label dp)) fontSize in
         let tp' := SVGLegend.getTextProperties false (Some (LegendDataPoint.label dp')) fontSize in
         ((n < Z.of_nat i)%Z -> dp' = dp)
         /\ ((Z.of_nat i <= n)%Z ->
             budget <= measureSvgTextWidth tp ->
             LegendDataPoint.label dp' = getTailoredTextOrDefault tp budget)
         /\ ((Z.of_nat i <= n)%Z ->
             budget <= measureSvgTextWidth tp ->
             ellipsisWidth <= budget ->
             measureSvgTextWidth tp' <= budget)
         /\ ((Z.of_nat i <= n)%Z ->
             measureSvgTextWidth tp < budget ->
             LegendDataPoint.label dp' = LegendDataPoint.label dp).

(** Two title layouts with the same box: they may differ in their text. *)
Definition sameBox (a b : option TitleLayout.t) : Prop :=
  match a, b with
  | Some a, Some b =>
      TitleLayout.x a = TitleLayout.x b /\ TitleLayout.y a = TitleLayout.y b
      /\ TitleLayout.width a = TitleLayout.width b
      /\ TitleLayout.height a = TitleLayout.height b
  | None, None => True
  | _, _ => False
  end.

(** The instance as [drawLegendInternal] has it when it calls
    [calculateViewport], for data with points and a placement other than
    [None]. *)
Definition prepared (data : LegendData.t) (viewport : IViewport.t) (s : SVGLegend.t)
  : SVGLegend.t :=
  SVGLegend.set_showPrimary (negb (String.eqb (LegendData.primaryType data) "None"))
    (SVGLegend.set_data (Some data)
       (SVGLegend.set_data (Some data) (SVGLegend.set_parentViewport viewport s))).

(** What [drawLegendInternal] does with the layout: the group and
    [updateLayout]. *)
Definition rendered (s : SVGLegend.t) (layout : LegendLayout.t) : SVGLegend.t :=
  let titleData :=
    match LegendLayout.title layout with
    | Some titleLayout => [titleLayout]
    | None => []
    end in
  let transform :=
    if SVGLegend.isCentered (SVGLegend.orientation s) then
      if SVGLegend.isTopOrBottom (SVGLegend.orientation s) then
        let centerOffset :=
          ifgt 0 ((IViewport.width (SVGLegend.parentViewport s)
                   - SVGLegend.visibleLegendWidth s) / 2) in
        Some (centerOffset, 0)
      else
        let half := (IViewport.height (SVGLegend.parentViewport s)
                     - SVGLegend.visibleLegendHeight s) / 2 in
        Some (0, if Qltb half 0 then 0 else half)
    else None in
  let virtualizedDataPoints :=
    match SVGLegend.data s with
    | Some d =>
        js_slice (LegendData.dataPoints d) (SVGLegend.legendDataStartIndex s)
          (SVGLegend.legendDataStartIndex s + LegendLayout.numberOfItems layout)
    | None => []
    end in
  SVGLegend.updateLayout
    (SVGLegend.set_group
       (Group.mk transform titleData virtualizedDataPoints
          (LegendLayout.navigationArrows layout)) s).

(** The instance as [calculateLayout] has it when it calls the title and
    item layouts. *)
Definition normalized (d : LegendData.t) (s : SVGLegend.t) : SVGLegend.t :=
  let value :=
    PixelConverter.fromPointToPixel
      (match LegendData.fontSize d with
       | Some f => f
       | None => SVGLegend.DefaultFontSizeInPt
       end) in
  SVGLegend.normalizePosition (LegendData.dataPoints d)
    (SVGLegend.set_legendFontSizeMargin value (value - SVGLegend.DefaultTextMargin) s).

(** The accumulator of a loop when it reaches the item of index [k]. *)
Fixpoint accBefore {A T : Type} (body : T -> A -> A * T) (l : list A) (k : nat) (acc : T)
  : T :=
  match k, l with
  | S k, a :: rest => accBefore body rest k (snd (body acc a))
  | _, _ => acc
  end.

(** The loop of [calculateHorizontalLayout] on the window [dataPoints]: the
    width occupied before the first item, and the body with the shifts, the
    padding and the budgets that the method computes before the loop. *)
Definition horizontalStart (title : option TitleLayout.t) (s : SVGLegend.t) : Q :=
  let occupiedWidth :=
    match title with
    | Some tl => 0 + TitleLayout.width tl
    | None => 0
    end in
  if (0 <? SVGLegend.legendDataStartIndex s)%Z
  then occupiedWidth + SVGLegend.LegendArrowOffset
  else occupiedWidth.

Definition horizontalFontSizeMargin (s : SVGLegend.t) : Q :=
  if Qgtb (SVGLegend.legendFontSizeMarginDifference s) 0
  then SVGLegend.TextAndIconPadding + SVGLegend.legendFontSizeMarginDifference s
  else SVGLegend.TextAndIconPadding.

Definition horizontalTextShift `{host : Host} (dataPoints : list LegendDataPoint.t)
    (s : SVGLegend.t) : Q :=
  SVGLegend.getMarkerShapeWidth (SVGLegend.firstDataPointMarkerShape dataPoints) / 2
  + horizontalFontSizeMargin s + 4.

Definition horizontalIconShift (s : SVGLegend.t) : Q :=
  11 + (if Qgtb (SVGLegend.legendFontSizeMarginDifference s) 0
        then SVGLegend.legendFontSizeMarginDifference s else 0).

Definition horizontalPadding `{host : Host} (dataPoints : list LegendDataPoint.t)
    (s : SVGLegend.t) : Q :=
  SVGLegend.getMarkerShapeWidth (SVGLegend.firstDataPointMarkerShape dataPoints)
  + horizontalFontSizeMargin s * 3.

Definition horizontalBody `{host : Host} (d : LegendData.t)
    (dataPoints : list LegendDataPoint.t) (title : option TitleLayout.t) (s : SVGLegend.t)
  : Q -> LegendDataPoint.t -> LegendDataPoint.t * Q :=
  SVGLegend.horizontalItem (LegendData.fontSize d) (SVGLegend.showPrimary s)
    (horizontalTextShift dataPoints s) (horizontalIconShift s)
    (horizontalPadding dataPoints s) (horizontalBudget dataPoints title s)
    (SVGLegend.evenSplit
       (IViewport.width (SVGLegend.parentViewport s) - horizontalStart title s)
       (length dataPoints)).

(** The loop of [calculateVerticalLayout]. *)
Definition verticalFontFactor (s : SVGLegend.t) : Q :=
  if Qgtb (SVGLegend.legendFontSizeMarginDifference s) 0
  then SVGLegend.legendFontSizeMarginDifference s else 0.

Definition verticalStart (title : option TitleLayout.t) (s : SVGLegend.t) : Q * Q :=
  let spaceNeededByTitle := 15 + verticalFontFactor s * (13 # 10) in
  let totalSpaceOccupiedThusFar :=
    match title with
    | Some _ => 0 + spaceNeededByTitle + spaceNeededByTitle
    | None => 0 + spaceNeededByTitle
    end in
  let maxHorizontalSpaceUsed :=
    match title with
    | Some tl => SVGLegend.num_or (TitleLayout.width tl) 0
    | None => 0
    end in
  (if (0 <? SVGLegend.legendDataStartIndex s)%Z
   then totalSpaceOccupiedThusFar + SVGLegend.LegendArrowOffset
   else totalSpaceOccupiedThusFar,
   maxHorizontalSpaceUsed).

Definition verticalIconShift `{host : Host} (dataPoints : list LegendDataPoint.t) : Q :=
  SVGLegend.TextAndIconPadding
  + SVGLegend.getMarkerShapeWidth (SVGLegend.firstDataPointMarkerShape dataPoints) / 2.

Definition verticalBody `{host : Host} (d : LegendData.t)
    (dataPoints : list LegendDataPoint.t) (autoWidth : bool) (s : SVGLegend.t)
  : Q * Q -> LegendDataPoint.t -> LegendDataPoint.t * (Q * Q) :=
  SVGLegend.verticalItem (LegendData.fontSize d) (SVGLegend.showPrimary s)
    (SVGLegend.legendFontSizeMarginDifference s) (verticalFontFactor s)
    (20 + verticalFontFactor s) (4 + verticalFontFactor s * (13 # 10))
    (verticalIconShift dataPoints) (verticalIconShift dataPoints * 2)
    (verticalBudget dataPoints autoWidth s).

(** The distance between two rows of a vertical legend. *)
Definition rowPitch (s : SVGLegend.t) : Q :=
  (if SVGLegend.showPrimary s
   then (20 + SVGLegend.legendFontSizeMarginDifference s / 2) * 2 else 0)
  + (20 + verticalFontFactor s).

(** The width that [calculateVerticalLayout] gives the legend. *)
Definition verticalWidth `{host : Host} (dataPoints : list LegendDataPoint.t)
    (autoWidth : bool) (maxHorizontalSpaceUsed : Q) (s : SVGLegend.t) : Q :=
  if autoWidth then
    if Qltb maxHorizontalSpaceUsed (verticalBudget dataPoints autoWidth s)
    then Math_ceil (maxHorizontalSpaceUsed + verticalIconShift dataPoints * 2
                    + SVGLegend.LegendEdgeMariginWidth)
    else Math_ceil (IViewport.width (SVGLegend.parentViewport s)
                    * SVGLegend.LegendMaxWidthFactor)
  else SVGLegend.lastCalculatedWidth s.

(** The projection of a point on what the layouts keep. *)
Definition kept (dp : LegendDataPoint.t) : string * option MarkerShape * option string :=
  (LegendDataPoint.identity dp, LegendDataPoint.markerShape dp, LegendDataPoint.tooltip dp).

(** The sum of the widths of the items of a horizontal pass, and the
    width that the first loop of [calculateHorizontalLegendItemsWidths]
    counts for them: [maxItemWidth] for an item whose flag is set. *)
Definition totalWidth (items : list LegendItem.t) : Q :=
  fold_right (fun item acc => LegendItem.width item + acc) 0 items.

Definition countedWidth (maxItemWidth : Q) (items : list LegendItem.t) : Q :=
  fold_right
    (fun item acc =>
       (if LegendItem.desiredOverMaxWidth item then maxItemWidth else LegendItem.width item)
       + acc)
    0 items.

(** * Properties *)

(** ** Comparisons on rationals *)

Lemma Qltb_lt (a b : Q) : Qltb a b = true <-> a < b.
Proof.
  unfold Qltb. rewrite negb_true_iff. split.
  - intros H. apply Qnot_le_lt. intros Hle. apply Qle_bool_iff in Hle. congruence.
  - intros H. destruct (Qle_bool b a) eqn:E; [|reflexivity].
    apply Qle_bool_iff in E. exfalso. apply (Qlt_not_le _ _ H E).
Qed.

Lemma Qltb_ge (a b : Q) : Qltb a b = false <-> b <= a.
Proof. unfold Qltb. rewrite negb_false_iff. apply Qle_bool_iff. Qed.

Lemma Qgtb_gt (a b : Q) : Qgtb a b = true <-> b < a.
Proof. apply Qltb_lt. Qed.

Lemma Qgtb_le (a b : Q) : Qgtb a b = false <-> a <= b.
Proof. apply Qltb_ge. Qed.

(** Linear arithmetic over the rationals, once the halves are spelled as
    multiplications. *)
Ltac qarith := unfold Qdiv in *; change (/ 2) with (1 # 2) in *; lra.

Lemma LegendPosition_eqb_eq (p q : LegendPosition.t) :
  LegendPosition.eqb p q = true <-> p = q.
Proof.
  unfold LegendPosition.eqb. rewrite Z.eqb_eq. split; [|congruence].
  destruct p, q; simpl; intros H; try reflexivity; discriminate H.
Qed.

(** ** Pagination: the clamp *)

(** The clamp of [normalizePosition], case by case. *)
Lemma normalizePosition_range (A : Type) (points : list A) (s : SVGLegend.t) :
  let L := Z.of_nat (length points) in
  let i0 := SVGLegend.legendDataStartIndex s in
  let i := SVGLegend.legendDataStartIndex (SVGLegend.normalizePosition points s) in
  (0 <= i <= Z.max 0 (L - 1))%Z
  /\ ((L <= i0)%Z -> i = Z.max 0 (L - 1))
  /\ ((i0 < 0)%Z -> i = 0%Z)
  /\ ((0 <= i0 < L)%Z -> i = i0).
Proof.
  intros L i0 i. subst i i0. unfold SVGLegend.normalizePosition. fold L.
  destruct (L <=? SVGLegend.legendDataStartIndex s)%Z eqn:Hge.
  - apply Z.leb_le in Hge. cbn [SVGLegend.legendDataStartIndex SVGLegend.set_legendDataStartIndex].
    destruct (L - 1 <? 0)%Z eqn:Hneg; cbn [SVGLegend.legendDataStartIndex SVGLegend.set_legendDataStartIndex].
    + apply Z.ltb_lt in Hneg. lia.
    + apply Z.ltb_ge in Hneg. lia.
  - apply Z.leb_gt in Hge.
    destruct (SVGLegend.legendDataStartIndex s <? 0)%Z eqn:Hneg;
      cbn [SVGLegend.legendDataStartIndex SVGLegend.set_legendDataStartIndex].
    + apply Z.ltb_lt in Hneg. lia.
    + apply Z.ltb_ge in Hneg. lia.
Qed.

(** C2.  Whatever integer is stored in [legendDataStartIndex] and whatever
    the length [L] of the list of points, after [normalizePosition] the
    stored index lies in [0, max(0, L - 1)]: an index at or above [L]
    becomes [L - 1] (0 when [L] is 0), a negative index becomes 0, and an
    index already in range is kept. *)
Theorem normalizePosition_clamps (A : Type) (points : list A) (s : SVGLegend.t) :
  let L := Z.of_nat (length points) in
  let i0 := SVGLegend.legendDataStartIndex s in
  let i := SVGLegend.legendDataStartIndex (SVGLegend.normalizePosition points s) in
  (0 <= i <= Z.max 0 (L - 1))%Z
  /\ ((L <= i0)%Z -> i = Z.max 0 (L - 1))
  /\ ((i0 < 0)%Z -> i = 0%Z)
  /\ ((0 <= i0 < L)%Z -> i = i0).
Proof.
  exact (normalizePosition_range A points s).
Qed.

(** ** The loop with early exit *)

Lemma for_until_length {A S : Type} (body : S -> A -> A * S) (stop : S -> bool)
    (l : list A) :
  forall itr acc l' acc' n,
    SVGLegend.for_until body stop l itr acc = (l', acc', n) -> length l' = length l.
Proof.
  induction l as [|a rest IH]; intros itr acc l' acc' n H; cbn in H.
  - inversion H. reflexivity.
  - destruct (body acc a) as [a' acc1].
    destruct (stop acc1).
    + inversion H. reflexivity.
    + destruct (SVGLegend.for_until body stop rest (itr + 1)%Z acc1)
        as [[rest' acc2] n2] eqn:E.
      inversion H. subst. cbn. f_equal. eapply IH. exact E.
Qed.

Lemma for_until_break {A S : Type} (body : S -> A -> A * S) (stop : S -> bool)
    (l : list A) :
  forall itr acc l' acc' n,
    SVGLegend.for_until body stop l itr acc = (l', acc', Some n) ->
    (itr <= n < itr + Z.of_nat (length l))%Z.
Proof.
  induction l as [|a rest IH]; intros itr acc l' acc' n H; cbn in H.
  - inversion H.
  - destruct (body acc a) as [a' acc1].
    destruct (stop acc1).
    + inversion H. subst. cbn [length]. lia.
    + destruct (SVGLegend.for_until body stop rest (itr + 1)%Z acc1)
        as [[rest' acc2] n2] eqn:E.
      inversion H. subst. apply IH in E. cbn [length]. lia.
Qed.

Lemma for_until_head_stops {A S : Type} (body : S -> A -> A * S) (stop : S -> bool)
    (a : A) (rest : list A) (itr : Z) (acc : S) :
  stop (snd (body acc a)) = true ->
  SVGLegend.for_until body stop (a :: rest) itr acc
  = (fst (body acc a) :: rest, snd (body acc a), Some itr).
Proof.
  intros H. cbn. destruct (body acc a) as [a' acc1]. cbn in H. rewrite H. reflexivity.
Qed.

(** What the loop did to the element at position [i] of the array: it ran
    the body on it when the loop reached it, and left it alone otherwise. *)
Lemma for_until_untouched {A S : Type} (body : S -> A -> A * S) (stop : S -> bool)
    (l : list A) :
  forall itr acc l' acc' n (i : nat),
    SVGLegend.for_until body stop l itr acc = (l', acc', Some n) ->
    (n < itr + Z.of_nat i)%Z ->
    l' !! i = l !! i.
Proof.
  induction l as [|a rest IH]; intros itr acc l' acc' n i H Hi; cbn in H.
  - inversion H.
  - destruct (body acc a) as [a' acc1].
    destruct (stop acc1).
    + inversion H. subst. destruct i as [|i]; [lia | reflexivity].
    + destruct (SVGLegend.for_until body stop rest (itr + 1)%Z acc1)
        as [[rest' acc2] n2] eqn:E.
      inversion H. subst.
      pose proof (for_until_break _ _ _ _ _ _ _ _ E) as Hb.
      destruct i as [|i]; [lia|]. cbn.
      eapply IH; [exact E | lia].
Qed.

(** ** The arrows after a layout pass *)

Lemma updateNavigationArrowLayout_frame (nav : list NavigationArrow.t) (rem n : Z)
    (s : SVGLegend.t) :
  let s' := fst (SVGLegend.updateNavigationArrowLayout nav rem n s) in
  s' = SVGLegend.set_arrowPosWindow (SVGLegend.arrowPosWindow s') s.
Proof.
  destruct s. unfold SVGLegend.updateNavigationArrowLayout.
  cbn [SVGLegend.legendDataStartIndex SVGLegend.arrowPosWindow SVGLegend.set_arrowPosWindow].
  match goal with |- context [if ?c then (_, _) else _] => destruct c end; reflexivity.
Qed.

Lemma updateNavigationArrowLayout_scrollable (nav : list NavigationArrow.t) (rem n : Z)
    (s : SVGLegend.t) :
  arrowTypes nav = [Decrease; Increase] ->
  let r := SVGLegend.updateNavigationArrowLayout nav rem n s in
  arrowTypes (snd r)
  = (if (SVGLegend.legendDataStartIndex s =? 0)%Z then [] else [Decrease])
    ++ (if (n =? rem)%Z then [] else [Increase])
  /\ SVGLegend.arrowPosWindow (fst r)
     = (if (n =? rem)%Z then SVGLegend.arrowPosWindow s else n).
Proof.
  intros Hnav. destruct nav as [|a [|b [|c nav]]]; try discriminate Hnav.
  injection Hnav as Ha Hb.
  destruct s. unfold SVGLegend.updateNavigationArrowLayout, js_shift, js_drop_last, arrowTypes.
  cbn [SVGLegend.legendDataStartIndex SVGLegend.arrowPosWindow SVGLegend.set_arrowPosWindow].
  destruct (legendDataStartIndex =? 0)%Z; destruct (n =? rem)%Z; simpl;
    rewrite ?Ha, ?Hb; auto.
Qed.

Lemma updateNavigationArrowLayout_nil (rem n : Z) (s : SVGLegend.t) :
  SVGLegend.updateNavigationArrowLayout [] rem n s = (SVGLegend.set_arrowPosWindow n s, []).
Proof.
  unfold SVGLegend.updateNavigationArrowLayout, js_shift.
  destruct (SVGLegend.legendDataStartIndex s =? 0)%Z; cbn; reflexivity.
Qed.

(** ** What a layout pass returns and what it leaves alone *)

Lemma set_visibleLegendWidth_get (w : Q) (s : SVGLegend.t) :
  SVGLegend.visibleLegendWidth (SVGLegend.set_visibleLegendWidth w s) = w.
Proof. reflexivity. Qed.

Lemma calculateHorizontalLayout_inv `{host : Host} (d : LegendData.t)
    (pts : list LegendDataPoint.t) (title : option TitleLayout.t)
    (nav : list NavigationArrow.t) (s s' : SVGLegend.t)
    (pts' : list LegendDataPoint.t) (title' : option TitleLayout.t)
    (nav' : list NavigationArrow.t) (n : Z) :
  SVGLegend.calculateHorizontalLayout d pts title nav s = Ok (s', pts', title', nav', n) ->
  (0 <= n <= Z.of_nat (length pts))%Z
  /\ length pts' = length pts
  /\ exists w,
       SVGLegend.updateNavigationArrowLayout nav (Z.of_nat (length pts)) n
         (SVGLegend.set_visibleLegendWidth w s) = (s', nav').
Proof.
  unfold SVGLegend.calculateHorizontalLayout.
  match goal with |- context [bind ?r _] => destruct r end; cbn [bind]; [|discriminate].
  match goal with |- context [SVGLegend.for_until ?b ?st ?l ?i ?a] =>
    destruct (SVGLegend.for_until b st l i a) as [[l1 occ] broke] eqn:E end.
  match goal with |- context [SVGLegend.updateNavigationArrowLayout ?a ?b ?c ?e] =>
    destruct (SVGLegend.updateNavigationArrowLayout a b c e) as [s1 nav1] eqn:U end.
  intros H. injection H as -> -> _ -> <-.
  pose proof (for_until_length _ _ _ _ _ _ _ _ E) as Hlen.
  split; [|split; [exact Hlen|]].
  - destruct broke as [itr|].
    + apply for_until_break in E. lia.
    + lia.
  - eexists. exact U.
Qed.

Lemma calculateVerticalLayout_inv `{host : Host} (d : LegendData.t)
    (pts : list LegendDataPoint.t) (title : option TitleLayout.t)
    (nav : list NavigationArrow.t) (autoWidth : bool) (s s' : SVGLegend.t)
    (pts' : list LegendDataPoint.t) (title' : option TitleLayout.t)
    (nav' : list NavigationArrow.t) (n : Z) :
  SVGLegend.calculateVerticalLayout d pts title nav autoWidth s = (s', pts', title', nav', n) ->
  (0 <= n <= Z.of_nat (length pts))%Z
  /\ length pts' = length pts
  /\ exists v lcw vh nav0,
       arrowTypes nav0 = arrowTypes nav
       /\ SVGLegend.updateNavigationArrowLayout nav0 (Z.of_nat (length pts)) n
            (SVGLegend.set_visibleLegendHeight vh
               (SVGLegend.set_lastCalculatedWidth lcw (SVGLegend.set_viewport v s)))
          = (s', nav').
Proof.
  unfold SVGLegend.calculateVerticalLayout.
  match goal with |- context [SVGLegend.for_until ?b ?st ?l ?i ?a] =>
    destruct (SVGLegend.for_until b st l i a) as [[l1 [tot used]] broke] eqn:E end.
  match goal with |- context [SVGLegend.updateNavigationArrowLayout ?a ?b ?c ?e] =>
    destruct (SVGLegend.updateNavigationArrowLayout a b c e) as [s1 nav1] eqn:U end.
  intros H. injection H as -> -> _ -> <-.
  pose proof (for_until_length _ _ _ _ _ _ _ _ E) as Hlen.
  split; [|split; [exact Hlen|]].
  - destruct broke as [itr|].
    + apply for_until_break in E. lia.
    + lia.
  - destruct autoWidth.
    + do 4 eexists. split; [|exact U].
      unfold arrowTypes. rewrite map_map. reflexivity.
    + exists (OwnViewport.mk (OwnViewport.height (SVGLegend.viewport s))
                (Some (SVGLegend.lastCalculatedWidth s))),
        (SVGLegend.lastCalculatedWidth s).
      do 2 eexists. split; [|rewrite <- U; destruct s; reflexivity].
      unfold arrowTypes. rewrite map_map. reflexivity.
Qed.

Lemma normalizePosition_frame {A : Type} (points : list A) (s : SVGLegend.t) :
  SVGLegend.normalizePosition points s
  = SVGLegend.set_legendDataStartIndex
      (SVGLegend.legendDataStartIndex (SVGLegend.normalizePosition points s)) s.
Proof.
  destruct s. unfold SVGLegend.normalizePosition. simpl.
  destruct (Z.of_nat (length points) <=? legendDataStartIndex)%Z; simpl;
    match goal with |- context [if ?c then _ else _] => destruct c end; reflexivity.
Qed.

Lemma normalizePosition_set_margin {A : Type} (points : list A) (v df : Q)
    (s : SVGLegend.t) :
  SVGLegend.legendDataStartIndex
    (SVGLegend.normalizePosition points (SVGLegend.set_legendFontSizeMargin v df s))
  = SVGLegend.legendDataStartIndex (SVGLegend.normalizePosition points s).
Proof.
  destruct s. unfold SVGLegend.normalizePosition. simpl.
  destruct (Z.of_nat (length points) <=? legendDataStartIndex)%Z; simpl;
    match goal with |- context [if ?c then _ else _] => destruct c end; reflexivity.
Qed.

Lemma js_index_in_range {A : Type} (l : list A) (i : Z) :
  (0 <= i <= Z.of_nat (length l))%Z -> js_index l i = Z.to_nat i.
Proof.
  intros H. unfold js_index. destruct (i <? 0)%Z eqn:E.
  - apply Z.ltb_lt in E. lia.
  - f_equal. lia.
Qed.

Lemma js_slice_from_length {A : Type} (l : list A) (i : Z) :
  (0 <= i <= Z.of_nat (length l))%Z ->
  Z.of_nat (length (js_slice_from l i)) = (Z.of_nat (length l) - i)%Z.
Proof.
  intros H. unfold js_slice_from. rewrite js_index_in_range by exact H.
  rewrite length_skipn. lia.
Qed.

(** The pagination view of a layout pass over a non-empty list: the start
    index is the clamped one, the number of items is bounded by the window,
    the placement and the host's inputs are untouched, the data keeps its
    shape, and the arrows and the stored window size follow
    [updateNavigationArrowLayout]. *)
Lemma calculateLayout_inv `{host : Host} (autoWidth : bool) (s s' : SVGLegend.t)
    (d : LegendData.t) (lay : LegendLayout.t) :
  SVGLegend.data s = Some d ->
  LegendData.dataPoints d <> [] ->
  SVGLegend.calculateLayout autoWidth s = Ok (s', lay) ->
  let pts := LegendData.dataPoints d in
  let i := SVGLegend.legendDataStartIndex (SVGLegend.normalizePosition pts s) in
  let rem := Z.of_nat (length (js_slice_from pts i)) in
  let n := LegendLayout.numberOfItems lay in
  SVGLegend.legendDataStartIndex s' = i
  /\ (0 <= n <= rem)%Z
  /\ SVGLegend.orientation s' = SVGLegend.orientation s
  /\ SVGLegend.isScrollable s' = SVGLegend.isScrollable s
  /\ SVGLegend.parentViewport s' = SVGLegend.parentViewport s
  /\ SVGLegend.showPrimary s' = SVGLegend.showPrimary s
  /\ SVGLegend.svg s' = SVGLegend.svg s
  /\ SVGLegend.group s' = SVGLegend.group s
  /\ (exists d', SVGLegend.data s' = Some d'
                 /\ length (LegendData.dataPoints d') = length pts
                 /\ LegendData.title d' = LegendData.title d
                 /\ LegendData.fontSize d' = LegendData.fontSize d
                 /\ LegendData.primaryType d' = LegendData.primaryType d)
  /\ (if SVGLegend.isScrollable s
      then arrowTypes (LegendLayout.navigationArrows lay)
           = (if (i =? 0)%Z then [] else [Decrease])
             ++ (if (n =? rem)%Z then [] else [Increase])
           /\ SVGLegend.arrowPosWindow s'
              = (if (n =? rem)%Z then SVGLegend.arrowPosWindow s else n)
      else LegendLayout.navigationArrows lay = []
           /\ SVGLegend.arrowPosWindow s' = n).
Proof.
  intros Hd Hne H.
  assert (Hlen : (0 < Z.of_nat (length (LegendData.dataPoints d)))%Z).
  { destruct (LegendData.dataPoints d); [congruence | cbn [length]; lia]. }
  intros pts i rem n. fold pts in Hlen.
  unfold SVGLegend.calculateLayout in H. rewrite Hd in H. fold pts in H.
  destruct (Z.of_nat (length pts) =? 0)%Z eqn:E0; [apply Z.eqb_eq in E0; lia|].
  cbv zeta in H.
  set (v := PixelConverter.fromPointToPixel _) in H.
  set (s0 := SVGLegend.normalizePosition pts _) in H.
  assert (Hi : SVGLegend.legendDataStartIndex s0 = i).
  { subst s0 i. apply normalizePosition_set_margin. }
  pose proof (normalizePosition_range _ pts s) as Hc. cbv zeta in Hc. fold i in Hc.
  destruct Hc as [Hrange _].
  assert (Hir : (0 <= i <= Z.of_nat (length pts) - 1)%Z) by lia.
  rewrite Hi in H.
  destruct (i <? Z.of_nat (length pts))%Z eqn:Elt; [|apply Z.ltb_ge in Elt; lia].
  assert (Hs0 : s0 = SVGLegend.set_legendDataStartIndex i
                       (SVGLegend.set_legendFontSizeMargin v (v - SVGLegend.DefaultTextMargin) s)).
  { subst s0. rewrite normalizePosition_frame. f_equal. exact Hi. }
  assert (Hrem : rem = (Z.of_nat (length pts) - i)%Z).
  { subst rem. apply js_slice_from_length. lia. }
  match type of H with bind ?r _ = _ => destruct r as [[[[[s1 pts1] title1] nav1] n1]|] eqn:R end;
    cbn [bind] in H; [|discriminate].
  injection H as <- <-. cbn [LegendLayout.numberOfItems LegendLayout.navigationArrows] in *.
  subst n.
  assert (Hcore :
    (0 <= n1 <= rem)%Z /\ length pts1 = length (js_slice_from pts i)
    /\ exists sm nav0,
         SVGLegend.updateNavigationArrowLayout nav0 rem n1 sm = (s1, nav1)
         /\ SVGLegend.set_arrowPosWindow (SVGLegend.arrowPosWindow s) sm
            = SVGLegend.set_arrowPosWindow (SVGLegend.arrowPosWindow s)
                (SVGLegend.set_visibleLegendWidth (SVGLegend.visibleLegendWidth sm)
                   (SVGLegend.set_visibleLegendHeight (SVGLegend.visibleLegendHeight sm)
                      (SVGLegend.set_lastCalculatedWidth (SVGLegend.lastCalculatedWidth sm)
                         (SVGLegend.set_viewport (SVGLegend.viewport sm) s0))))
         /\ SVGLegend.arrowPosWindow sm = SVGLegend.arrowPosWindow s
         /\ arrowTypes nav0
            = if SVGLegend.isScrollable s then [Decrease; Increase] else []).
  { destruct (SVGLegend.isTopOrBottom (SVGLegend.orientation s0)).
    - apply calculateHorizontalLayout_inv in R. destruct R as (Hn & Hl & w & U).
      split; [exact Hn|]. split; [exact Hl|].
      eexists; eexists. split; [exact U|]. rewrite Hs0. destruct s. cbn.
      split; [reflexivity|]. split; [reflexivity|].
      destruct isScrollable; reflexivity.
    - injection R as R. apply calculateVerticalLayout_inv in R.
      destruct R as (Hn & Hl & v' & lcw & vh & nav0 & Hty & U).
      split; [exact Hn|]. split; [exact Hl|].
      eexists; eexists. split; [exact U|]. rewrite Hty, Hs0. destruct s. cbn.
      split; [reflexivity|]. split; [reflexivity|].
      destruct isScrollable; reflexivity. }
  destruct Hcore as (Hn & Hl & sm & nav0 & U & Hsm & Hapw & Hty).
  pose proof (updateNavigationArrowLayout_frame nav0 rem n1 sm) as Hfr.
  cbv zeta in Hfr. rewrite U in Hfr. cbn [fst] in Hfr.
  assert (Hs1 : s1 = SVGLegend.set_arrowPosWindow (SVGLegend.arrowPosWindow s1)
                       (SVGLegend.set_arrowPosWindow (SVGLegend.arrowPosWindow s) sm)).
  { rewrite Hfr at 1. destruct sm; reflexivity. }
  rewrite Hsm, Hs0 in Hs1.
  assert (Hsi : SVGLegend.legendDataStartIndex sm = i).
  { apply (f_equal SVGLegend.legendDataStartIndex) in Hsm. rewrite Hs0 in Hsm.
    destruct sm, s; cbn in Hsm |- *. exact Hsm. }
  split; [rewrite Hs1; destruct s; reflexivity|].
  split; [exact Hn|].
  split; [rewrite Hs1; destruct s; reflexivity|].
  split; [rewrite Hs1; destruct s; reflexivity|].
  split; [rewrite Hs1; destruct s; reflexivity|].
  split; [rewrite Hs1; destruct s; reflexivity|].
  split; [rewrite Hs1; destruct s; reflexivity|].
  split; [rewrite Hs1; destruct s; reflexivity|].
  split.
  { eexists. split; [reflexivity|].
    cbn [LegendData.set_dataPoints LegendData.dataPoints LegendData.title
         LegendData.fontSize LegendData.primaryType].
    split; [|auto].
    rewrite length_app, length_firstn, Hl.
    replace (SVGLegend.legendDataStartIndex s1) with i
      by (rewrite Hs1; destruct s; reflexivity).
    rewrite js_index_in_range by lia.
    unfold js_slice_from. rewrite js_index_in_range by lia. rewrite length_skipn. lia. }
  destruct (SVGLegend.isScrollable s).
  - pose proof (updateNavigationArrowLayout_scrollable nav0 rem n1 sm Hty) as Hs.
    cbv zeta in Hs. rewrite U in Hs. cbn [fst snd] in Hs.
    rewrite Hsi, Hapw in Hs.
    replace (SVGLegend.arrowPosWindow (SVGLegend.set_data _ s1))
      with (SVGLegend.arrowPosWindow s1) by (destruct s1; reflexivity).
    exact Hs.
  - destruct nav0; [|discriminate Hty].
    rewrite updateNavigationArrowLayout_nil in U. injection U as <- <-.
    split; [reflexivity|]. destruct sm; reflexivity.
Qed.

(** ** Arrow visibility *)

(** C5, as amended.  A layout pass of a scrollable legend over a list of
    points that is not empty: the Decrease arrow is missing from the
    returned arrows exactly when the start index is 0; the Increase arrow is
    missing exactly when the number of items equals the number of points
    from the start index onward; in that case [arrowPosWindow] keeps its
    previous value, and otherwise it becomes the number of items.  A pass of
    a legend that is not scrollable over such a list returns no arrows and
    stores the number of items in [arrowPosWindow], on the last page as on
    any other.  A pass over an empty list returns no arrows and changes
    neither the start index nor [arrowPosWindow]. *)
Theorem navigationArrows_rule `{host : Host} (autoWidth : bool) (s s' : SVGLegend.t)
    (d : LegendData.t) (lay : LegendLayout.t) :
  SVGLegend.data s = Some d ->
  SVGLegend.calculateLayout autoWidth s = Ok (s', lay) ->
  let remaining := Z.of_nat (length (paginationWindow d s')) in
  let n := LegendLayout.numberOfItems lay in
  let arrows := arrowTypes (LegendLayout.navigationArrows lay) in
  (LegendData.dataPoints d <> [] -> SVGLegend.isScrollable s = true ->
   (~ In Decrease arrows <-> SVGLegend.legendDataStartIndex s' = 0%Z)
   /\ (~ In Increase arrows <-> n = remaining)
   /\ (n = remaining -> SVGLegend.arrowPosWindow s' = SVGLegend.arrowPosWindow s)
   /\ (n <> remaining -> SVGLegend.arrowPosWindow s' = n))
  /\ (LegendData.dataPoints d <> [] -> SVGLegend.isScrollable s = false ->
      LegendLayout.navigationArrows lay = []
      /\ SVGLegend.arrowPosWindow s' = n)
  /\ (LegendData.dataPoints d = [] ->
      LegendLayout.navigationArrows lay = []
      /\ SVGLegend.legendDataStartIndex s' = SVGLegend.legendDataStartIndex s
      /\ SVGLegend.arrowPosWindow s' = SVGLegend.arrowPosWindow s).
Proof.
  intros Hd H. cbv zeta. split; [|split].
  - intros Hne Hsc.
    pose proof (calculateLayout_inv autoWidth s s' d lay Hd Hne H) as Hinv.
    cbv zeta in Hinv. destruct Hinv as (Hi & _ & _ & _ & _ & _ & _ & _ & _ & Harr).
    rewrite Hsc in Harr.
    unfold paginationWindow. rewrite Hi.
    remember (SVGLegend.legendDataStartIndex
                (SVGLegend.normalizePosition (LegendData.dataPoints d) s)) as i.
    remember (Z.of_nat (length (js_slice_from (LegendData.dataPoints d) i))) as rem.
    destruct Harr as [Hty Hapw]. rewrite Hty, Hapw.
    destruct (Z.eqb_spec i 0) as [Ei|Ei];
      destruct (Z.eqb_spec (LegendLayout.numberOfItems lay) rem) as [En|En];
      cbn [app In]; repeat split; intros; try tauto; try congruence;
      intuition congruence.
  - intros Hne Hsc.
    pose proof (calculateLayout_inv autoWidth s s' d lay Hd Hne H) as Hinv.
    cbv zeta in Hinv. destruct Hinv as (_ & _ & _ & _ & _ & _ & _ & _ & _ & Harr).
    rewrite Hsc in Harr. exact Harr.
  - intros He.
    assert (E : SVGLegend.calculateLayout autoWidth s = Ok (s, LegendLayout.mk 0 None [])).
    { unfold SVGLegend.calculateLayout. rewrite Hd, He. reflexivity. }
    rewrite E in H. injection H as <- <-. repeat split; reflexivity.
Qed.

(** Five labels on top of a parent 400 pixels wide, scrollable; the same
    labels on a parent 100 pixels wide, not scrollable; and an empty list on
    a legend whose start index is 3. *)
Lemma navigationArrows_rule_witness :
  (let s := FixedPitch.loaded LegendPosition.Top true 0 FixedPitch.fiveLabels
              (IViewport.mk 50 400) in
   match SVGLegend.calculateLayout (host := FixedPitch.host) true s with
   | Ok (s', lay) =>
       let remaining :=
         Z.of_nat (length (paginationWindow (FixedPitch.legendData FixedPitch.fiveLabels)
                             s')) in
       let n := LegendLayout.numberOfItems lay in
       let arrows := arrowTypes (LegendLayout.navigationArrows lay) in
       (~ In Decrease arrows <-> SVGLegend.legendDataStartIndex s' = 0%Z)
       /\ (~ In Increase arrows <-> n = remaining)
       /\ (n = remaining -> SVGLegend.arrowPosWindow s' = SVGLegend.arrowPosWindow s)
       /\ (n <> remaining -> SVGLegend.arrowPosWindow s' = n)
   | TypeError => False
   end)
  /\ (let s := FixedPitch.loaded LegendPosition.Top false 0 FixedPitch.fiveLabels
                 (IViewport.mk 50 100) in
      match SVGLegend.calculateLayout (host := FixedPitch.host) true s with
      | Ok (s', lay) =>
          LegendLayout.navigationArrows lay = []
          /\ SVGLegend.arrowPosWindow s' = LegendLayout.numberOfItems lay
      | TypeError => False
      end)
  /\ (let s := FixedPitch.loaded LegendPosition.None true 3 [] (IViewport.mk 50 100) in
      match SVGLegend.calculateLayout (host := FixedPitch.host) true s with
      | Ok (s', lay) =>
          LegendLayout.navigationArrows lay = []
          /\ SVGLegend.legendDataStartIndex s' = 3%Z
          /\ SVGLegend.arrowPosWindow s' = SVGLegend.arrowPosWindow s
      | TypeError => False
      end).
Proof.
  split; [|split]; intros s.
  - destruct (SVGLegend.calculateLayout (host := FixedPitch.host) true s) as [[s' lay]|] eqn:E;
      [|vm_compute in E; discriminate E].
    apply (navigationArrows_rule (host := FixedPitch.host) true s s'
             (FixedPitch.legendData FixedPitch.fiveLabels) lay);
      [reflexivity | exact E | discriminate | reflexivity].
  - destruct (SVGLegend.calculateLayout (host := FixedPitch.host) true s) as [[s' lay]|] eqn:E;
      [|vm_compute in E; discriminate E].
    apply (navigationArrows_rule (host := FixedPitch.host) true s s'
             (FixedPitch.legendData FixedPitch.fiveLabels) lay);
      [reflexivity | exact E | discriminate | reflexivity].
  - destruct (SVGLegend.calculateLayout (host := FixedPitch.host) true s) as [[s' lay]|] eqn:E;
      [|vm_compute in E; discriminate E].
    apply (navigationArrows_rule (host := FixedPitch.host) true s s'
             (FixedPitch.legendData []) lay);
      [reflexivity | exact E | reflexivity].
Defined.

(** C5 as stated fails without its two provisos.  A legend that is not
    scrollable has no arrows at all, so its Increase arrow is missing on a
    page that is not the last one (1 item laid out, 5 points remaining).
    And a pass over an empty list returns no arrows and leaves the start
    index alone: a scrollable legend on top draws twelve labels, a click on
    its Increase arrow moves the start index to 4, and a draw of an empty
    list then hides the legend and runs the layout pass on that instance;
    the Decrease arrow is missing while the start index is 4. *)
Lemma navigationArrows_rule_counterexample :
  (let s := FixedPitch.loaded LegendPosition.Top false 0 FixedPitch.fiveLabels
              (IViewport.mk 50 100) in
   exists s' lay,
     SVGLegend.calculateLayout (host := FixedPitch.host) true s = Ok (s', lay)
     /\ ~ In Increase (arrowTypes (LegendLayout.navigationArrows lay))
     /\ LegendLayout.numberOfItems lay = 1%Z
     /\ Z.of_nat (length (paginationWindow (FixedPitch.legendData FixedPitch.fiveLabels) s'))
        = 5%Z)
  /\ match SVGLegend.drawLegend (host := FixedPitch.host)
             (FixedPitch.legendData FixedPitch.twelveLabels) (IViewport.mk 50 285)
             (FixedPitch.legend LegendPosition.Top true) with
     | Ok s0 =>
         match Group.navArrows (SVGLegend.group s0) with
         | [inc] =>
             match SVGLegend.onArrowClick (host := FixedPitch.host) inc s0 with
             | Ok s1 =>
                 let data := FixedPitch.legendData [] in
                 let viewport := IViewport.mk 50 285 in
                 let s2 :=
                   SVGLegend.changeOrientation (Some LegendPosition.None)
                     (SVGLegend.set_data (Some data)
                        (SVGLegend.set_parentViewport viewport s1)) in
                 let s3 :=
                   SVGLegend.set_showPrimary
                     (negb (String.eqb (LegendData.primaryType data) "None"))
                     (SVGLegend.set_data (Some (LegendData.set_dataPoints [] data)) s2) in
                 match SVGLegend.calculateViewport s3 with
                 | Ok s4 =>
                     exists s' lay drawn,
                       SVGLegend.calculateLayout (host := FixedPitch.host) true s4
                       = Ok (s', lay)
                       /\ SVGLegend.drawLegendInternal (host := FixedPitch.host) data
                            viewport true s1 = Ok drawn
                       /\ Group.navArrows (SVGLegend.group drawn)
                          = LegendLayout.navigationArrows lay
                       /\ SVGLegend.isScrollable s4 = true
                       /\ NavigationArrow.dataType inc = Increase
                       /\ ~ In Decrease (arrowTypes (LegendLayout.navigationArrows lay))
                       /\ SVGLegend.legendDataStartIndex s' = 4%Z
                 | TypeError => False
                 end
             | TypeError => False
             end
         | _ => False
         end
     | TypeError => False
     end.
Proof.
  split.
  - intros s.
    destruct (SVGLegend.calculateLayout (host := FixedPitch.host) true s) as [[s' lay]|] eqn:E;
      vm_compute in E; [|discriminate E].
    injection E as <- <-. eexists. eexists. split; [reflexivity|].
    split; [|split; reflexivity]. intros [].
  - vm_compute. eexists. eexists. eexists. split; [reflexivity|].
    split; [reflexivity|]. split; [reflexivity|]. split; [reflexivity|].
    split; [reflexivity|]. split; [intros []| reflexivity].
Qed.

(** ** No data, no legend *)

Lemma calculateLayout_empty `{host : Host} (autoWidth : bool) (s : SVGLegend.t)
    (d : LegendData.t) :
  SVGLegend.data s = Some d ->
  LegendData.dataPoints d = [] ->
  SVGLegend.calculateLayout autoWidth s = Ok (s, LegendLayout.mk 0 None []).
Proof.
  intros Hd He. unfold SVGLegend.calculateLayout. rewrite Hd, He. reflexivity.
Qed.

Lemma js_slice_nil {A : Type} (a b : Z) : js_slice (@nil A) a b = [].
Proof. unfold js_slice. rewrite skipn_nil. apply firstn_nil. Qed.

(** What [drawLegendInternal] does once the orientation is [None] (after
    its own [changeOrientation] when the list is empty): the points are
    dropped, the viewport is {0, 0}, nothing is laid out or bound to the
    group, and the orientation stays [None]. *)
Lemma drawLegendInternal_hidden `{host : Host} (data : LegendData.t)
    (viewport : IViewport.t) (autoWidth : bool) (s : SVGLegend.t) :
  LegendData.dataPoints data = [] \/ SVGLegend.orientation s = LegendPosition.None ->
  exists s',
    SVGLegend.drawLegendInternal data viewport autoWidth s = Ok s'
    /\ SVGLegend.orientation s' = LegendPosition.None
    /\ SVGLegend.getMargins s' = OwnViewport.mk 0 (Some 0)
    /\ SVGLegend.data s' = Some (LegendData.set_dataPoints [] data)
    /\ SVGLegend.group s' = Group.mk None [] [] []
    /\ SVGLegend.legendDataStartIndex s' = SVGLegend.legendDataStartIndex s
    /\ SVGLegend.arrowPosWindow s' = SVGLegend.arrowPosWindow s.
Proof.
  intros H.
  assert (Ho : SVGLegend.getOrientation
                 (if (Z.of_nat (length (LegendData.dataPoints data)) =? 0)%Z
                  then SVGLegend.changeOrientation (Some LegendPosition.None)
                         (SVGLegend.set_data (Some data)
                            (SVGLegend.set_parentViewport viewport s))
                  else SVGLegend.set_data (Some data)
                         (SVGLegend.set_parentViewport viewport s))
               = LegendPosition.None).
  { destruct H as [H|H].
    - rewrite H. destruct s; reflexivity.
    - destruct (Z.of_nat (length (LegendData.dataPoints data)) =? 0)%Z;
        destruct s; cbn in H |- *; [reflexivity | exact H]. }
  unfold SVGLegend.drawLegendInternal.
  match goal with |- context [SVGLegend.getOrientation ?x] => set (s1 := x) in * end.
  rewrite Ho. cbn [LegendPosition.eqb LegendPosition.toNumber Z.eqb Pos.eqb].
  unfold SVGLegend.getOrientation in Ho.
  unfold SVGLegend.calculateViewport.
  replace (SVGLegend.orientation
             (SVGLegend.set_showPrimary
                (negb (LegendData.primaryType (LegendData.set_dataPoints [] data) =? "None")%string)
                (SVGLegend.set_data (Some (LegendData.set_dataPoints [] data)) s1)))
    with LegendPosition.None by (rewrite <- Ho; destruct s1; reflexivity).
  cbn [bind].
  erewrite calculateLayout_empty; [| destruct s1; reflexivity | reflexivity].
  cbn [bind LegendLayout.title LegendLayout.navigationArrows LegendLayout.numberOfItems].
  eexists. split; [reflexivity|].
  assert (Hidx : SVGLegend.legendDataStartIndex s1 = SVGLegend.legendDataStartIndex s
                 /\ SVGLegend.arrowPosWindow s1 = SVGLegend.arrowPosWindow s).
  { subst s1. destruct (Z.of_nat (length (LegendData.dataPoints data)) =? 0)%Z;
      destruct s; split; reflexivity. }
  destruct Hidx as [Hi Ha].
  destruct s1. cbn in Ho, Hi, Ha. subst. cbn. rewrite js_slice_nil.
  repeat split; reflexivity.
Qed.

(** C6.  [drawLegend] with an empty list of points returns normally; the
    orientation is then [None], [isVisible] is false, the legend's own
    viewport is {0, 0}, nothing is bound to the group, and [calculateLayout]
    returns 0 items, no title and no arrows. *)
Theorem drawLegend_no_data `{host : Host} (title : option string) (fontSize : option Q)
    (primaryType : string) (viewport : IViewport.t) (autoWidth : bool) (s : SVGLegend.t) :
  exists s',
    SVGLegend.drawLegend (LegendData.mk [] title fontSize primaryType) viewport s = Ok s'
    /\ SVGLegend.getOrientation s' = LegendPosition.None
    /\ SVGLegend.isVisible s' = false
    /\ SVGLegend.getMargins s' = OwnViewport.mk 0 (Some 0)
    /\ SVGLegend.group s' = Group.mk None [] [] []
    /\ SVGLegend.calculateLayout autoWidth s' = Ok (s', LegendLayout.mk 0 None []).
Proof.
  unfold SVGLegend.drawLegend, SVGLegend.setTooltipToLegendItems.
  cbn [LegendData.dataPoints LegendData.set_dataPoints map LegendData.title
       LegendData.fontSize LegendData.primaryType].
  destruct (drawLegendInternal_hidden (LegendData.mk [] title fontSize primaryType)
              viewport true s) as (s' & Hrun & Ho & Hm & Hd & Hg & _).
  { left. reflexivity. }
  exists s'. split; [exact Hrun|].
  split; [exact Ho|].
  split; [unfold SVGLegend.isVisible; rewrite Ho; reflexivity|].
  split; [exact Hm|]. split; [exact Hg|].
  eapply calculateLayout_empty; [exact Hd | reflexivity].
Qed.

(** ** The absorbing orientation *)

(** C9, as amended.  Once the orientation is [None], [drawLegendInternal],
    [drawLegend] and the arrow handler drop the points they are given, bind
    nothing to the group and leave the orientation at [None].
    [changeOrientation] makes the legend visible again exactly when its
    argument is not [None]: a truthy position is adopted, and a falsy
    argument ([undefined], or [Top], whose number is 0) selects [Top]. *)
Theorem none_is_absorbing `{host : Host} (s : SVGLegend.t) :
  SVGLegend.orientation s = LegendPosition.None ->
  (forall data viewport autoWidth,
     exists s',
       SVGLegend.drawLegendInternal data viewport autoWidth s = Ok s'
       /\ SVGLegend.isVisible s' = false
       /\ SVGLegend.data s' = Some (LegendData.set_dataPoints [] data)
       /\ SVGLegend.group s' = Group.mk None [] [] [])
  /\ (forall data viewport,
        exists s',
          SVGLegend.drawLegend data viewport s = Ok s'
          /\ SVGLegend.isVisible s' = false
          /\ (exists d', SVGLegend.data s' = Some d' /\ LegendData.dataPoints d' = [])
          /\ SVGLegend.group s' = Group.mk None [] [] [])
  /\ (forall arrow data,
        SVGLegend.data s = Some data ->
        exists s',
          SVGLegend.onArrowClick arrow s = Ok s'
          /\ SVGLegend.isVisible s' = false
          /\ SVGLegend.group s' = Group.mk None [] [] [])
  /\ (forall o,
        SVGLegend.isVisible (SVGLegend.changeOrientation o s) = true
        <-> o <> Some LegendPosition.None)
  /\ (forall o,
        SVGLegend.orientation (SVGLegend.changeOrientation o s)
        = match o with
          | Some p => if SVGLegend.truthy_position o then p else LegendPosition.Top
          | None => LegendPosition.Top
          end).
Proof.
  intros Hs. split; [|split; [|split; [|split]]].
  - intros data viewport autoWidth.
    destruct (drawLegendInternal_hidden data viewport autoWidth s (or_intror Hs))
      as (s' & Hrun & Ho & _ & Hd & Hg & _).
    exists s'. split; [exact Hrun|].
    split; [unfold SVGLegend.isVisible; rewrite Ho; reflexivity|]. auto.
  - intros data viewport. unfold SVGLegend.drawLegend.
    match goal with |- context [SVGLegend.drawLegendInternal ?d _ _ _] =>
      destruct (drawLegendInternal_hidden d viewport true s (or_intror Hs))
        as (s' & Hrun & Ho & _ & Hd & Hg & _) end.
    exists s'. split; [exact Hrun|].
    split; [unfold SVGLegend.isVisible; rewrite Ho; reflexivity|].
    split; [|exact Hg]. eexists. split; [exact Hd|reflexivity].
  - intros arrow data Hd. unfold SVGLegend.onArrowClick.
    match goal with |- context [SVGLegend.data ?x] => set (s1 := x) end.
    assert (Hd1 : SVGLegend.data s1 = Some data) by (subst s1; destruct s; exact Hd).
    assert (Ho1 : SVGLegend.orientation s1 = LegendPosition.None)
      by (subst s1; destruct s; exact Hs).
    rewrite Hd1.
    destruct (drawLegendInternal_hidden data (SVGLegend.parentViewport s1) false s1
                (or_intror Ho1)) as (s' & Hrun & Ho & _ & _ & Hg & _).
    exists s'. split; [exact Hrun|].
    split; [unfold SVGLegend.isVisible; rewrite Ho; reflexivity|exact Hg].
  - intros o. destruct s. unfold SVGLegend.isVisible, SVGLegend.changeOrientation.
    destruct o as [[]|]; cbn; split; intros H; try congruence; try discriminate H;
      try reflexivity.
  - intros o. destruct s. unfold SVGLegend.changeOrientation.
    destruct o as [[]|]; reflexivity.
Qed.

Lemma none_is_absorbing_witness :
  let s := FixedPitch.legend LegendPosition.None true in
  SVGLegend.orientation s = LegendPosition.None
  /\ (forall o,
        SVGLegend.isVisible (SVGLegend.changeOrientation o s) = true
        <-> o <> Some LegendPosition.None)
  /\ (exists s',
        SVGLegend.drawLegend (host := FixedPitch.host)
          (FixedPitch.legendData FixedPitch.fiveLabels) (IViewport.mk 50 400) s = Ok s'
        /\ SVGLegend.isVisible s' = false
        /\ (exists d', SVGLegend.data s' = Some d' /\ LegendData.dataPoints d' = [])
        /\ SVGLegend.group s' = Group.mk None [] [] []).
Proof.
  intros s.
  pose proof (none_is_absorbing (host := FixedPitch.host) s eq_refl) as H.
  split; [reflexivity|]. split.
  - exact (proj1 (proj2 (proj2 (proj2 H)))).
  - exact (proj1 (proj2 H) (FixedPitch.legendData FixedPitch.fiveLabels)
             (IViewport.mk 50 400)).
Defined.

(** C9 as stated fails in its last part: on a legend whose orientation is
    [None], [changeOrientation] with a falsy argument, [undefined] or [Top],
    restores visibility, since the method then selects [Top]. *)
Lemma none_is_absorbing_counterexample :
  let s := FixedPitch.legend LegendPosition.None true in
  SVGLegend.isVisible s = false
  /\ SVGLegend.truthy_position None = false
  /\ SVGLegend.isVisible (SVGLegend.changeOrientation None s) = true
  /\ SVGLegend.truthy_position (Some LegendPosition.Top) = false
  /\ SVGLegend.isVisible (SVGLegend.changeOrientation (Some LegendPosition.Top) s) = true.
Proof. repeat split; reflexivity. Qed.

(** ** The unguarded read of the primary measure *)

Lemma calculateHorizontalLayout_total `{host : Host} (d : LegendData.t)
    (dp : LegendDataPoint.t) (pts : list LegendDataPoint.t)
    (title : option TitleLayout.t) (nav : list NavigationArrow.t) (s : SVGLegend.t) :
  (SVGLegend.showPrimary s = true -> LegendDataPoint.measure dp <> None) ->
  exists r, SVGLegend.calculateHorizontalLayout d (dp :: pts) title nav s = Ok r.
Proof.
  intros H. unfold SVGLegend.calculateHorizontalLayout.
  assert (Hp : (if SVGLegend.showPrimary s
                then match LegendDataPoint.measure dp with
                     | Some _ => Ok tt
                     | None => TypeError
                     end
                else Ok tt) = Ok tt).
  { destruct (SVGLegend.showPrimary s); [|reflexivity].
    destruct (LegendDataPoint.measure dp); [reflexivity|]. exfalso. apply H; reflexivity. }
  rewrite Hp. cbn [bind].
  match goal with |- context [SVGLegend.for_until ?b ?st ?l ?i ?a] =>
    destruct (SVGLegend.for_until b st l i a) as [[l1 occ] broke] end.
  match goal with |- context [SVGLegend.updateNavigationArrowLayout ?a ?b ?c ?e] =>
    destruct (SVGLegend.updateNavigationArrowLayout a b c e) as [s1 nav1] end.
  eexists. reflexivity.
Qed.

Lemma calculateLayout_total `{host : Host} (autoWidth : bool) (s : SVGLegend.t)
    (d : LegendData.t) :
  SVGLegend.data s = Some d ->
  (SVGLegend.showPrimary s = true ->
   measuresDefined
     (paginationWindow d (SVGLegend.normalizePosition (LegendData.dataPoints d) s))) ->
  exists s' lay, SVGLegend.calculateLayout autoWidth s = Ok (s', lay).
Proof.
  intros Hd Hm. unfold SVGLegend.calculateLayout. rewrite Hd.
  destruct (Z.of_nat (length (LegendData.dataPoints d)) =? 0)%Z eqn:E0.
  { eexists. eexists. reflexivity. }
  apply Z.eqb_neq in E0. cbv zeta.
  set (v := PixelConverter.fromPointToPixel _).
  set (s0 := SVGLegend.normalizePosition _ _).
  set (pts := LegendData.dataPoints d) in *.
  assert (Hi : SVGLegend.legendDataStartIndex s0
               = SVGLegend.legendDataStartIndex (SVGLegend.normalizePosition pts s)).
  { subst s0. apply normalizePosition_set_margin. }
  pose proof (normalizePosition_range _ pts s) as Hc. cbv zeta in Hc.
  destruct Hc as [Hrange _]. rewrite <- Hi in Hrange.
  unfold paginationWindow in Hm. fold pts in Hm. rewrite <- Hi in Hm.
  assert (Hlt : (SVGLegend.legendDataStartIndex s0 <? Z.of_nat (length pts))%Z = true).
  { apply Z.ltb_lt. lia. }
  rewrite Hlt.
  assert (Hsp : SVGLegend.showPrimary s0 = SVGLegend.showPrimary s).
  { subst s0. rewrite normalizePosition_frame. destruct s; reflexivity. }
  destruct (js_slice_from pts (SVGLegend.legendDataStartIndex s0)) as [|dp rest] eqn:W.
  { exfalso. apply (f_equal (fun l => Z.of_nat (length l))) in W.
    rewrite js_slice_from_length in W by lia. cbn in W. lia. }
  destruct (SVGLegend.isTopOrBottom (SVGLegend.orientation s0)).
  - match goal with |- context [SVGLegend.calculateHorizontalLayout ?a ?b ?c ?e ?f] =>
      destruct (calculateHorizontalLayout_total a dp rest c e f) as [r Hr] end.
    { rewrite Hsp. intros Hs. specialize (Hm Hs). inversion Hm; assumption. }
    rewrite Hr. cbn [bind]. destruct r as [[[[s1 p1] t1] n1] k1].
    eexists. eexists. reflexivity.
  - cbn [bind].
    match goal with |- context [SVGLegend.calculateVerticalLayout ?a ?b ?c ?e ?f ?g] =>
      destruct (SVGLegend.calculateVerticalLayout a b c e f g) as [[[[s1 p1] t1] n1] k1] end.
    eexists. eexists. reflexivity.
Qed.

(** C10.  When the primary measure is shown, [calculateHorizontalLayout]
    reads [dataPoints[0].measure.length] without a guard: an undefined
    measure on the first point of the window throws.  When every point of
    the pagination window carries a measure, [calculateLayout] returns a
    layout for the horizontal and for the vertical placements alike, and so
    does [drawLegendInternal]. *)
Theorem primary_measure_dereference `{host : Host} :
  (forall d dp pts title nav s,
     SVGLegend.showPrimary s = true ->
     LegendDataPoint.measure dp = None ->
     SVGLegend.calculateHorizontalLayout d (dp :: pts) title nav s = TypeError)
  /\ (forall autoWidth s d,
        SVGLegend.data s = Some d ->
        (SVGLegend.showPrimary s = true ->
         measuresDefined
           (paginationWindow d (SVGLegend.normalizePosition (LegendData.dataPoints d) s))) ->
        exists s' lay, SVGLegend.calculateLayout autoWidth s = Ok (s', lay))
  /\ (forall data viewport autoWidth s,
        (LegendData.primaryType data <> "None"%string ->
         measuresDefined (LegendData.dataPoints data)) ->
        exists s', SVGLegend.drawLegendInternal data viewport autoWidth s = Ok s').
Proof.
  split; [|split].
  - intros d dp pts title nav s Hs Hm. unfold SVGLegend.calculateHorizontalLayout.
    rewrite Hs, Hm. reflexivity.
  - intros autoWidth s d. apply calculateLayout_total.
  - intros data viewport autoWidth s Hm.
    destruct (LegendPosition.eqb
                (SVGLegend.getOrientation
                   (if (Z.of_nat (length (LegendData.dataPoints data)) =? 0)%Z
                    then SVGLegend.changeOrientation (Some LegendPosition.None)
                           (SVGLegend.set_data (Some data)
                              (SVGLegend.set_parentViewport viewport s))
                    else SVGLegend.set_data (Some data)
                           (SVGLegend.set_parentViewport viewport s)))
                LegendPosition.None) eqn:Eo.
    { destruct (drawLegendInternal_hidden data viewport autoWidth s) as (s' & Hrun & _).
      - apply LegendPosition_eqb_eq in Eo.
        destruct (Z.of_nat (length (LegendData.dataPoints data)) =? 0)%Z eqn:E0.
        + left. apply Z.eqb_eq in E0. destruct (LegendData.dataPoints data);
            [reflexivity | cbn in E0; lia].
        + right. destruct s; exact Eo.
      - exists s'. exact Hrun. }
    unfold SVGLegend.drawLegendInternal. rewrite Eo.
    match goal with |- context [SVGLegend.calculateViewport ?x] => set (s1 := x) end.
    assert (Hd1 : SVGLegend.data s1 = Some data) by (subst s1; reflexivity).
    assert (Hv : exists s2, SVGLegend.calculateViewport s1 = Ok s2
                            /\ SVGLegend.data s2 = Some data
                            /\ SVGLegend.showPrimary s2 = SVGLegend.showPrimary s1).
    { unfold SVGLegend.calculateViewport. rewrite Hd1.
      destruct (SVGLegend.orientation s1); eexists; (split; [reflexivity|]);
        destruct s1; cbn in Hd1 |- *; auto. }
    destruct Hv as (s2 & Hv & Hd2 & Hsp2). rewrite Hv. cbn [bind].
    destruct (calculateLayout_total autoWidth s2 data Hd2) as (s3 & lay & Hl).
    { rewrite Hsp2. subst s1. cbn [SVGLegend.showPrimary SVGLegend.set_showPrimary].
      intros Hp. apply negb_true_iff in Hp. apply String.eqb_neq in Hp.
      specialize (Hm Hp). unfold paginationWindow, measuresDefined, js_slice_from.
      apply Forall_drop. exact Hm. }
    rewrite Hl. cbn [bind]. eexists. reflexivity.
Qed.

(** ** How many items fit *)

Lemma measuredItemWidth_indicators `{host : Host} (fontSize : option Q)
    (showPrimary : bool) (dp : LegendDataPoint.t) :
  (forall tp, 0 <= measureSvgTextWidth tp) ->
  15 <= SVGLegend.measuredItemWidth fontSize showPrimary dp.
Proof.
  intros Hm. unfold SVGLegend.measuredItemWidth.
  set (l := measureSvgTextWidth _).
  assert (Hl : 0 <= l) by apply Hm.
  destruct showPrimary.
  - set (p := measureSvgTextWidth _). set (q := measureSvgTextWidth _).
    assert (Hp : 0 <= p) by apply Hm. assert (Hq : 0 <= q) by apply Hm.
    destruct (Qgtb l p); [destruct (Qgtb l q) | destruct (Qgtb p q)]; lra.
  - destruct (Qgtb l 0); [destruct (Qgtb l 0) | destruct (Qgtb 0 0)]; lra.
Qed.

Lemma evenSplit_floor (available : Q) (n : nat) :
  SVGLegend.MaxTextLength <= SVGLegend.evenSplit available n.
Proof.
  unfold SVGLegend.evenSplit.
  match goal with |- context [Qgtb ?a ?b] => destruct (Qgtb a b) eqn:E end.
  - apply Qgtb_gt in E. lra.
  - lra.
Qed.

Lemma getMarkerShapeWidth_nonneg `{host : Host} (m : option MarkerShape) :
  0 <= LegendIconLineTotalWidth -> 0 <= SVGLegend.getMarkerShapeWidth m.
Proof.
  intros H. unfold SVGLegend.getMarkerShapeWidth, SVGLegend.LegendIconRadius.
  destruct m as [[]|]; lra.
Qed.

Lemma horizontalItem_advance `{host : Host} (fontSize : option Q) (showPrimary : bool)
    (fts fis pad mtl ptl occ : Q) (dp : LegendDataPoint.t) :
  (forall tp, 0 <= measureSvgTextWidth tp) ->
  SVGLegend.MaxTextLength <= mtl ->
  occ + pad + 15
  <= snd (SVGLegend.horizontalItem fontSize showPrimary fts fis pad mtl ptl occ dp).
Proof.
  intros Hm Hmtl. unfold SVGLegend.horizontalItem.
  pose proof (measuredItemWidth_indicators fontSize showPrimary dp Hm) as Hw.
  unfold SVGLegend.MaxTextLength in Hmtl.
  destruct (Qltb _ mtl); cbn [snd]; lra.
Qed.

(** On a parent of width 0 the horizontal title is cut to the (negative)
    maximum, which leaves it [-(fontSizeMargin + 10)] wide with its padding. *)
Lemma calculateTitleLayout_narrow `{host : Host} (d : LegendData.t)
    (title : option string) (s : SVGLegend.t) (tl : TitleLayout.t) :
  (forall tp, 0 <= measureSvgTextWidth tp) ->
  SVGLegend.isTopOrBottom (SVGLegend.orientation s) = true ->
  IViewport.width (SVGLegend.parentViewport s) == 0 ->
  SVGLegend.legendFontSizeMarginDifference s
  = SVGLegend.legendFontSizeMarginValue s - SVGLegend.DefaultTextMargin ->
  SVGLegend.calculateTitleLayout d title s = Some tl ->
  let fontSizeMargin :=
    if Qgtb (SVGLegend.legendFontSizeMarginDifference s) 0
    then SVGLegend.TextAndIconPadding + SVGLegend.legendFontSizeMarginDifference s
    else SVGLegend.TextAndIconPadding in
  - fontSizeMargin - 10 <= TitleLayout.width tl.
Proof.
  intros Hm Ho Hw Hdiff. unfold SVGLegend.calculateTitleLayout.
  destruct title as [ttl|]; [|discriminate].
  destruct (ttl =? "")%string; [discriminate|].
  rewrite Ho. intros H. injection H as <-. cbn [TitleLayout.width].
  cbv zeta.
  set (tw := measureSvgTextWidth _). assert (Htw : 0 <= tw) by apply Hm.
  unfold SVGLegend.TextAndIconPadding, SVGLegend.LegendIconRadius,
    SVGLegend.LegendMaxWidthFactor, SVGLegend.LegendEdgeMariginWidth,
    SVGLegend.TitlePadding in *.
  rewrite Hdiff.
  set (v := SVGLegend.legendFontSizeMarginValue s).
  set (m := SVGLegend.DefaultTextMargin).
  set (pw := IViewport.width (SVGLegend.parentViewport s)) in *.
  destruct (Qgtb v m) eqn:E1; destruct (Qgtb (v - m) 0) eqn:E2;
    try apply Qgtb_gt in E1; try apply Qgtb_le in E1;
    try apply Qgtb_gt in E2; try apply Qgtb_le in E2;
    match goal with |- context [Qgtb tw ?x] => destruct (Qgtb tw x) eqn:E3 end;
    try apply Qgtb_gt in E3; try apply Qgtb_le in E3; lra.
Qed.

Lemma calculateHorizontalLayout_no_room `{host : Host} (d : LegendData.t)
    (dp : LegendDataPoint.t) (rest : list LegendDataPoint.t)
    (title : option TitleLayout.t) (nav : list NavigationArrow.t) (s s' : SVGLegend.t)
    (pts' : list LegendDataPoint.t) (title' : option TitleLayout.t)
    (nav' : list NavigationArrow.t) (n : Z) :
  (forall tp, 0 <= measureSvgTextWidth tp) ->
  0 <= LegendIconLineTotalWidth ->
  IViewport.width (SVGLegend.parentViewport s) == 0 ->
  match title with
  | Some tl =>
      - (if Qgtb (SVGLegend.legendFontSizeMarginDifference s) 0
         then SVGLegend.TextAndIconPadding + SVGLegend.legendFontSizeMarginDifference s
         else SVGLegend.TextAndIconPadding) - 10 <= TitleLayout.width tl
  | None => True
  end ->
  SVGLegend.calculateHorizontalLayout d (dp :: rest) title nav s
  = Ok (s', pts', title', nav', n) ->
  n = 0%Z.
Proof.
  intros Hm Hicon Hw Ht. unfold SVGLegend.calculateHorizontalLayout.
  match goal with |- context [bind ?r _] => destruct r end; cbn [bind]; [|discriminate].
  match goal with |- context [SVGLegend.for_until ?b ?st (dp :: rest) ?i ?a] =>
    rewrite (for_until_head_stops b st dp rest i a) end.
  - match goal with |- context [SVGLegend.updateNavigationArrowLayout ?a ?b ?c ?e] =>
      destruct (SVGLegend.updateNavigationArrowLayout a b c e) as [s1 nav1] end.
    intros H. injection H as _ _ _ _ <-. reflexivity.
  - apply Qgtb_gt.
    eapply Qlt_le_trans;
      [| apply horizontalItem_advance; [exact Hm | apply evenSplit_floor]].
    pose proof (getMarkerShapeWidth_nonneg
                  (SVGLegend.firstDataPointMarkerShape (dp :: rest)) Hicon) as Hmw.
    set (mw := SVGLegend.getMarkerShapeWidth _) in *.
    set (pw := IViewport.width (SVGLegend.parentViewport s)) in *.
    unfold SVGLegend.TextAndIconPadding, SVGLegend.LegendArrowOffset in *.
    set (df := SVGLegend.legendFontSizeMarginDifference s) in *.
    destruct (Qgtb df 0) eqn:E1;
      try apply Qgtb_gt in E1; try apply Qgtb_le in E1;
      destruct (0 <? SVGLegend.legendDataStartIndex s)%Z;
      destruct title as [tl|]; lra.
Qed.

Lemma verticalItem_advance `{host : Host} (fontSize : option Q) (showPrimary : bool)
    (df ff vlh ex his hts avail tot used : Q) (dp : LegendDataPoint.t) :
  fst (snd (SVGLegend.verticalItem fontSize showPrimary df ff vlh ex his hts avail
              (tot, used) dp))
  = (if showPrimary then tot + (20 + df / 2) * 2 else tot) + vlh.
Proof. reflexivity. Qed.

Lemma calculateVerticalLayout_no_room `{host : Host} (d : LegendData.t)
    (dp : LegendDataPoint.t) (rest : list LegendDataPoint.t)
    (title : option TitleLayout.t) (nav : list NavigationArrow.t) (autoWidth : bool)
    (s s' : SVGLegend.t) (pts' : list LegendDataPoint.t) (title' : option TitleLayout.t)
    (nav' : list NavigationArrow.t) (n : Z) :
  IViewport.height (SVGLegend.parentViewport s) == 0 ->
  - (75) < SVGLegend.legendFontSizeMarginDifference s ->
  SVGLegend.calculateVerticalLayout d (dp :: rest) title nav autoWidth s
  = (s', pts', title', nav', n) ->
  n = 0%Z.
Proof.
  intros Hh Hdf. unfold SVGLegend.calculateVerticalLayout.
  match goal with |- context [SVGLegend.for_until ?b ?st (dp :: rest) ?i ?a] =>
    rewrite (for_until_head_stops b st dp rest i a) end.
  - match goal with |- context [snd ?x] => destruct (snd x) as [tot used] end.
    match goal with |- context [SVGLegend.updateNavigationArrowLayout ?a ?b ?c ?e] =>
      destruct (SVGLegend.updateNavigationArrowLayout a b c e) as [s1 nav1] end.
    intros H. injection H as _ _ _ _ <-. reflexivity.
  - apply Qgtb_gt. rewrite verticalItem_advance.
    set (ph := IViewport.height (SVGLegend.parentViewport s)) in *.
    unfold SVGLegend.LegendArrowOffset.
    set (df := SVGLegend.legendFontSizeMarginDifference s) in *.
    destruct (Qgtb df 0) eqn:E1;
      try apply Qgtb_gt in E1; try apply Qgtb_le in E1;
      destruct (0 <? SVGLegend.legendDataStartIndex s)%Z;
      destruct title as [tl|]; destruct (SVGLegend.showPrimary s); qarith.
Qed.

Lemma calculateLayout_no_room `{host : Host} (autoWidth : bool) (s s' : SVGLegend.t)
    (d : LegendData.t) (lay : LegendLayout.t) :
  SVGLegend.data s = Some d ->
  LegendData.dataPoints d <> [] ->
  wellFormed d ->
  zeroSized s ->
  SVGLegend.calculateLayout autoWidth s = Ok (s', lay) ->
  LegendLayout.numberOfItems lay = 0%Z.
Proof.
  intros Hd Hne (Hm & Hicon & Hfont) Hz H.
  assert (Hlen : (0 < Z.of_nat (length (LegendData.dataPoints d)))%Z).
  { destruct (LegendData.dataPoints d); [congruence | cbn [length]; lia]. }
  unfold SVGLegend.calculateLayout in H. rewrite Hd in H.
  set (pts := LegendData.dataPoints d) in *.
  destruct (Z.of_nat (length pts) =? 0)%Z eqn:E0; [apply Z.eqb_eq in E0; lia|].
  cbv zeta in H.
  set (v := PixelConverter.fromPointToPixel _) in H.
  set (s0 := SVGLegend.normalizePosition pts _) in H.
  assert (Hi : SVGLegend.legendDataStartIndex s0
               = SVGLegend.legendDataStartIndex (SVGLegend.normalizePosition pts s)).
  { subst s0. apply normalizePosition_set_margin. }
  pose proof (normalizePosition_range _ pts s) as Hc. cbv zeta in Hc.
  destruct Hc as [Hrange _]. rewrite <- Hi in Hrange.
  assert (Hlt : (SVGLegend.legendDataStartIndex s0 <? Z.of_nat (length pts))%Z = true).
  { apply Z.ltb_lt. lia. }
  rewrite Hlt in H.
  assert (Hs0 : s0 = SVGLegend.set_legendDataStartIndex (SVGLegend.legendDataStartIndex s0)
                       (SVGLegend.set_legendFontSizeMargin v (v - SVGLegend.DefaultTextMargin) s)).
  { subst s0. apply normalizePosition_frame. }
  assert (Ho : SVGLegend.orientation s0 = SVGLegend.orientation s)
    by (rewrite Hs0; destruct s; reflexivity).
  assert (Hpv : SVGLegend.parentViewport s0 = SVGLegend.parentViewport s)
    by (rewrite Hs0; destruct s; reflexivity).
  assert (Hdf : SVGLegend.legendFontSizeMarginDifference s0 = v - SVGLegend.DefaultTextMargin)
    by (rewrite Hs0; destruct s; reflexivity).
  assert (Hmv : SVGLegend.legendFontSizeMarginValue s0 = v)
    by (rewrite Hs0; destruct s; reflexivity).
  destruct (js_slice_from pts (SVGLegend.legendDataStartIndex s0)) as [|dp rest] eqn:W.
  { exfalso. apply (f_equal (fun l => Z.of_nat (length l))) in W.
    rewrite js_slice_from_length in W by lia. cbn in W. lia. }
  unfold zeroSized in Hz. rewrite <- Ho, <- Hpv in Hz.
  destruct (SVGLegend.isTopOrBottom (SVGLegend.orientation s0)) eqn:Etb.
  - match type of H with bind ?r _ = _ =>
      destruct r as [[[[[s1 pts1] title1] nav1] n1]|] eqn:R end;
      cbn [bind] in H; [|discriminate].
    injection H as _ <-. cbn [LegendLayout.numberOfItems].
    eapply calculateHorizontalLayout_no_room; [exact Hm | exact Hicon | exact Hz | | exact R].
    destruct (SVGLegend.calculateTitleLayout d (LegendData.title d) s0) as [tl|] eqn:T;
      [|exact I].
    eapply (calculateTitleLayout_narrow d (LegendData.title d) s0 tl Hm Etb Hz); [|exact T].
    rewrite Hdf, Hmv. reflexivity.
  - cbn [bind] in H.
    match type of H with context [SVGLegend.calculateVerticalLayout ?a ?b ?c ?e ?f ?g] =>
      destruct (SVGLegend.calculateVerticalLayout a b c e f g)
        as [[[[s1 pts1] title1] nav1] n1] eqn:R end.
    injection H as _ <-. cbn [LegendLayout.numberOfItems].
    eapply calculateVerticalLayout_no_room; [exact Hz | | exact R].
    rewrite Hdf. subst v.
    unfold SVGLegend.DefaultTextMargin, PixelConverter.fromPointToPixel,
      PixelConverter.PxPtRatio, SVGLegend.DefaultFontSizeInPt.
    destruct (LegendData.fontSize d) as [f|]; lra.
Qed.

(** C1.  Whatever the points, the parent viewport, the orientation and the
    stored start index, the [numberOfItems] that [calculateLayout] returns is
    at most the number of points of the pagination window (from the clamped
    start index onward).  It is 0 when the list is empty, and it is 0 when
    the parent viewport has width 0 (top and bottom placements) or height 0
    (the others), for inputs whose measured widths, long-dash width and font
    size are not negative. *)
Theorem numberOfItems_bounded `{host : Host} (autoWidth : bool) (s s' : SVGLegend.t)
    (d : LegendData.t) (lay : LegendLayout.t) :
  SVGLegend.data s = Some d ->
  SVGLegend.calculateLayout autoWidth s = Ok (s', lay) ->
  (0 <= LegendLayout.numberOfItems lay <= Z.of_nat (length (paginationWindow d s')))%Z
  /\ (LegendData.dataPoints d = [] -> LegendLayout.numberOfItems lay = 0%Z)
  /\ (wellFormed d -> zeroSized s -> LegendLayout.numberOfItems lay = 0%Z).
Proof.
  intros Hd H.
  destruct (LegendData.dataPoints d) as [|dp rest] eqn:Ep.
  - rewrite (calculateLayout_empty autoWidth s d Hd Ep) in H.
    injection H as <- <-. unfold paginationWindow, js_slice_from. rewrite Ep.
    rewrite skipn_nil. cbn. repeat split; intros; lia.
  - assert (Hne : LegendData.dataPoints d <> []) by (rewrite Ep; discriminate).
    pose proof (calculateLayout_inv autoWidth s s' d lay Hd Hne H) as Hinv.
    cbv zeta in Hinv. destruct Hinv as (Hi & Hn & _).
    split; [|split].
    + unfold paginationWindow. rewrite Hi. exact Hn.
    + intros Hnil. discriminate Hnil.
    + intros Hwf Hz. eapply calculateLayout_no_room; eauto.
Qed.

Lemma FixedPitch_wellFormed (labels : list string) :
  wellFormed (host := FixedPitch.host) (FixedPitch.legendData labels).
Proof.
  split; [|split].
  - intros tp. cbn. unfold FixedPitch.measure.
    destruct (TextProperties.text tp) as [t|]; [|lra].
    unfold FixedPitch.widthOf, FixedPitch.charWidth.
    apply Qmult_le_0_compat; [lra|].
    replace 0 with (inject_Z 0) by reflexivity. rewrite <- Zle_Qle. lia.
  - cbn. lra.
  - cbn. lra.
Qed.

Lemma numberOfItems_bounded_witness :
  let d := FixedPitch.legendData FixedPitch.fiveLabels in
  let s := FixedPitch.loaded LegendPosition.Top true 7 FixedPitch.fiveLabels
             (IViewport.mk 50 0) in
  match SVGLegend.calculateLayout (host := FixedPitch.host) true s with
  | Ok (s', lay) =>
      (0 <= LegendLayout.numberOfItems lay <= Z.of_nat (length (paginationWindow d s')))%Z
      /\ LegendLayout.numberOfItems lay = 0%Z
  | TypeError => False
  end.
Proof.
  intros d s.
  destruct (SVGLegend.calculateLayout (host := FixedPitch.host) true s)
    as [[s' lay]|] eqn:E.
  - pose proof (numberOfItems_bounded (host := FixedPitch.host) true s s' d lay
                  eq_refl E) as (Hb & _ & Hz).
    split; [exact Hb|]. apply Hz.
    + apply FixedPitch_wellFormed.
    + reflexivity.
  - vm_compute in E. discriminate E.
Defined.

(** ** Paging *)

Lemma calculateViewport_frame (s s' : SVGLegend.t) :
  SVGLegend.calculateViewport s = Ok s' ->
  s' = SVGLegend.set_viewport (SVGLegend.viewport s') s.
Proof.
  unfold SVGLegend.calculateViewport.
  destruct (SVGLegend.orientation s); try destruct (SVGLegend.data s);
    intros H; try discriminate H; injection H as <-; destruct s; reflexivity.
Qed.

Lemma calculateViewport_total (s : SVGLegend.t) (d : LegendData.t) :
  SVGLegend.data s = Some d -> exists s', SVGLegend.calculateViewport s = Ok s'.
Proof.
  intros Hd. unfold SVGLegend.calculateViewport. rewrite Hd.
  destruct (SVGLegend.orientation s); eexists; reflexivity.
Qed.

Lemma normalizePosition_index {A : Type} (points : list A) (s1 s2 : SVGLegend.t) :
  SVGLegend.legendDataStartIndex s1 = SVGLegend.legendDataStartIndex s2 ->
  SVGLegend.legendDataStartIndex (SVGLegend.normalizePosition points s1)
  = SVGLegend.legendDataStartIndex (SVGLegend.normalizePosition points s2).
Proof.
  intros H. destruct s1, s2. cbn in H. subst. unfold SVGLegend.normalizePosition. simpl.
  destruct (Z.of_nat (length points) <=? legendDataStartIndex0)%Z; simpl;
    match goal with |- context [if ?c then _ else _] => destruct c end; reflexivity.
Qed.

(** The pagination view of [drawLegendInternal] on a visible legend with
    points: [n] is the number of items of the layout it computed. *)
Lemma drawLegendInternal_visible `{host : Host} (data : LegendData.t)
    (viewport : IViewport.t) (autoWidth : bool) (s s' : SVGLegend.t) :
  SVGLegend.orientation s <> LegendPosition.None ->
  LegendData.dataPoints data <> [] ->
  SVGLegend.drawLegendInternal data viewport autoWidth s = Ok s' ->
  let pts := LegendData.dataPoints data in
  let i := SVGLegend.legendDataStartIndex (SVGLegend.normalizePosition pts s) in
  let rem := (Z.of_nat (length pts) - i)%Z in
  exists n,
    (0 <= n <= rem)%Z
    /\ SVGLegend.legendDataStartIndex s' = i
    /\ SVGLegend.orientation s' = SVGLegend.orientation s
    /\ SVGLegend.isScrollable s' = SVGLegend.isScrollable s
    /\ SVGLegend.parentViewport s' = viewport
    /\ (exists d', SVGLegend.data s' = Some d'
                   /\ length (LegendData.dataPoints d') = length pts
                   /\ LegendData.primaryType d' = LegendData.primaryType data)
    /\ (if SVGLegend.isScrollable s
        then arrowTypes (Group.navArrows (SVGLegend.group s'))
             = (if (i =? 0)%Z then [] else [Decrease])
               ++ (if (n =? rem)%Z then [] else [Increase])
             /\ SVGLegend.arrowPosWindow s'
                = (if (n =? rem)%Z then SVGLegend.arrowPosWindow s else n)
        else Group.navArrows (SVGLegend.group s') = []
             /\ SVGLegend.arrowPosWindow s' = n).
Proof.
  intros Ho Hne H pts i rem.
  assert (Hlen : (0 < Z.of_nat (length pts))%Z).
  { subst pts. destruct (LegendData.dataPoints data); [congruence | cbn [length]; lia]. }
  unfold SVGLegend.drawLegendInternal in H. fold pts in H.
  destruct (Z.of_nat (length pts) =? 0)%Z eqn:E0; [apply Z.eqb_eq in E0; lia|].
  assert (Eo : LegendPosition.eqb
                 (SVGLegend.getOrientation
                    (SVGLegend.set_data (Some data) (SVGLegend.set_parentViewport viewport s)))
                 LegendPosition.None = false).
  { destruct (LegendPosition.eqb _ _) eqn:E; [|reflexivity].
    apply LegendPosition_eqb_eq in E. destruct s; cbn in E, Ho. congruence. }
  rewrite Eo in H.
  match type of H with bind (SVGLegend.calculateViewport ?x) _ = _ => set (s1 := x) in * end.
  destruct (SVGLegend.calculateViewport s1) as [s2|] eqn:V; cbn [bind] in H; [|discriminate].
  apply calculateViewport_frame in V.
  destruct (SVGLegend.calculateLayout autoWidth s2) as [[s3 lay]|] eqn:L;
    cbn [bind] in H; [|discriminate].
  injection H as <-.
  assert (Hd2 : SVGLegend.data s2 = Some data) by (rewrite V; reflexivity).
  pose proof (calculateLayout_inv autoWidth s2 s3 data lay Hd2 Hne L) as Hinv.
  cbv zeta in Hinv. fold pts in Hinv.
  assert (Hidx : SVGLegend.legendDataStartIndex (SVGLegend.normalizePosition pts s2) = i).
  { subst i. apply normalizePosition_index. rewrite V. subst s1. destruct s; reflexivity. }
  rewrite Hidx in Hinv.
  rewrite js_slice_from_length in Hinv.
  2:{ pose proof (normalizePosition_range _ pts s) as Hc. cbv zeta in Hc. fold i in Hc. lia. }
  fold rem in Hinv.
  destruct Hinv as (Hi & Hn & Hor & Hsc & Hpv & _ & _ & _ & (d' & Hd' & Hl' & _ & _ & Hpt) & Harr).
  assert (Hsc2 : SVGLegend.isScrollable s2 = SVGLegend.isScrollable s)
    by (rewrite V; subst s1; destruct s; reflexivity).
  assert (Hapw2 : SVGLegend.arrowPosWindow s2 = SVGLegend.arrowPosWindow s)
    by (rewrite V; subst s1; destruct s; reflexivity).
  assert (Hor2 : SVGLegend.orientation s2 = SVGLegend.orientation s)
    by (rewrite V; subst s1; destruct s; reflexivity).
  assert (Hpv2 : SVGLegend.parentViewport s2 = viewport)
    by (rewrite V; subst s1; destruct s; reflexivity).
  rewrite Hsc2, Hapw2 in Harr.
  exists (LegendLayout.numberOfItems lay).
  split; [exact Hn|].
  unfold SVGLegend.updateLayout.
  split; [destruct s3; cbn in *; destruct data0;
            try destruct (SVGLegend.isTopOrBottom orientation && showPrimary);
            cbn; exact Hi|].
  split; [destruct s3; cbn in *; destruct data0;
            try destruct (SVGLegend.isTopOrBottom orientation && showPrimary);
            cbn; congruence|].
  split; [destruct s3; cbn in *; destruct data0;
            try destruct (SVGLegend.isTopOrBottom orientation && showPrimary);
            cbn; congruence|].
  split; [destruct s3; cbn in *; destruct data0;
            try destruct (SVGLegend.isTopOrBottom orientation && showPrimary);
            cbn; congruence|].
  split.
  { exists d'. destruct s3; cbn in *; destruct data0;
      try destruct (SVGLegend.isTopOrBottom orientation && showPrimary); cbn; auto. }
  destruct (SVGLegend.isScrollable s);
    destruct s3; cbn in *; destruct data0;
    try destruct (SVGLegend.isTopOrBottom orientation && showPrimary); cbn; exact Harr.
Qed.

(** C4, as amended.  From start index 0 on a visible legend with points and
    a stored window size that is not negative, one activation of an Increase
    arrow followed by one activation of a Decrease arrow leaves the start
    index at [max 0 (j - w)], where [j] is the start index after the
    Increase and [w] the window size that the re-layout of the Increase
    stored.  The start index is back at 0 exactly when [j <= w]; this is the
    case when the page shown after the Increase is the last one of a
    scrollable legend (its Increase arrow is gone), because the window size
    is then rolled back to the jump just taken. *)
Theorem paging_round_trip `{host : Host} (inc dec : NavigationArrow.t)
    (s s1 s2 : SVGLegend.t) (d : LegendData.t) :
  NavigationArrow.dataType inc = Increase ->
  NavigationArrow.dataType dec = Decrease ->
  SVGLegend.legendDataStartIndex s = 0%Z ->
  SVGLegend.data s = Some d ->
  LegendData.dataPoints d <> [] ->
  SVGLegend.orientation s <> LegendPosition.None ->
  (0 <= SVGLegend.arrowPosWindow s)%Z ->
  SVGLegend.onArrowClick inc s = Ok s1 ->
  SVGLegend.onArrowClick dec s1 = Ok s2 ->
  SVGLegend.legendDataStartIndex s2
  = Z.max 0 (SVGLegend.legendDataStartIndex s1 - SVGLegend.arrowPosWindow s1)
  /\ (SVGLegend.legendDataStartIndex s2 = 0%Z
      <-> (SVGLegend.legendDataStartIndex s1 <= SVGLegend.arrowPosWindow s1)%Z)
  /\ (SVGLegend.isScrollable s = true ->
      ~ In Increase (arrowTypes (Group.navArrows (SVGLegend.group s1))) ->
      SVGLegend.arrowPosWindow s1 = SVGLegend.arrowPosWindow s
      /\ SVGLegend.legendDataStartIndex s2 = 0%Z).
Proof.
  intros Hinc Hdec H0 Hd Hne Ho Hw H1 H2.
  unfold SVGLegend.onArrowClick in H1. rewrite Hinc, H0 in H1.
  match type of H1 with context [SVGLegend.data ?x] => set (sa := x) in * end.
  assert (Hda : SVGLegend.data sa = Some d) by (subst sa; destruct s; exact Hd).
  rewrite Hda in H1.
  assert (Hoa : SVGLegend.orientation sa <> LegendPosition.None)
    by (subst sa; destruct s; exact Ho).
  pose proof (drawLegendInternal_visible d _ false sa s1 Hoa Hne H1) as V1.
  cbv zeta in V1.
  destruct V1 as (n1 & Hn1 & Hi1 & Hor1 & Hsc1 & _ & (d1 & Hd1 & Hl1 & _) & Harr1).
  pose proof (normalizePosition_range _ (LegendData.dataPoints d) sa) as C1.
  cbv zeta in C1. rewrite <- Hi1 in C1.
  assert (Hsa : SVGLegend.legendDataStartIndex sa = SVGLegend.arrowPosWindow s)
    by (subst sa; destruct s; cbn; lia).
  assert (Hapa : SVGLegend.arrowPosWindow sa = SVGLegend.arrowPosWindow s)
    by (subst sa; destruct s; reflexivity).
  assert (Hsca : SVGLegend.isScrollable sa = SVGLegend.isScrollable s)
    by (subst sa; destruct s; reflexivity).
  rewrite Hsa in C1. rewrite Hsca, Hapa in Harr1.
  assert (Hlen : (0 < Z.of_nat (length (LegendData.dataPoints d)))%Z).
  { destruct (LegendData.dataPoints d); [congruence | cbn [length]; lia]. }
  assert (Hw1 : (0 <= SVGLegend.arrowPosWindow s1)%Z).
  { destruct (SVGLegend.isScrollable s); destruct Harr1 as [_ ->];
      [destruct (n1 =? _)%Z|]; lia. }
  unfold SVGLegend.onArrowClick in H2. rewrite Hdec in H2.
  match type of H2 with context [SVGLegend.data ?x] => set (sb := x) in * end.
  assert (Hdb : SVGLegend.data sb = Some d1) by (subst sb; destruct s1; exact Hd1).
  rewrite Hdb in H2.
  assert (Hob : SVGLegend.orientation sb <> LegendPosition.None).
  { subst sb. destruct s1; cbn in *. rewrite Hor1. subst sa. destruct s; exact Ho. }
  assert (Hne1 : LegendData.dataPoints d1 <> []).
  { intros E. rewrite E in Hl1. cbn in Hl1. lia. }
  pose proof (drawLegendInternal_visible d1 _ false sb s2 Hob Hne1 H2) as V2.
  cbv zeta in V2. destruct V2 as (n2 & _ & Hi2 & _).
  pose proof (normalizePosition_range _ (LegendData.dataPoints d1) sb) as C2.
  cbv zeta in C2. rewrite <- Hi2, Hl1 in C2.
  assert (Hsb : SVGLegend.legendDataStartIndex sb
                = (SVGLegend.legendDataStartIndex s1 - SVGLegend.arrowPosWindow s1)%Z)
    by (subst sb; destruct s1; reflexivity).
  rewrite Hsb in C2.
  assert (Hmain : SVGLegend.legendDataStartIndex s2
                  = Z.max 0 (SVGLegend.legendDataStartIndex s1 - SVGLegend.arrowPosWindow s1))
    by lia.
  split; [exact Hmain|]. split; [lia|].
  intros Hsc Hno. rewrite Hsc in Harr1. destruct Harr1 as [Hty Hap].
  rewrite Hty in Hno.
  destruct (n1 =? _)%Z.
  - split; [exact Hap|]. lia.
  - exfalso. apply Hno. apply in_or_app. right. left. reflexivity.
Qed.

Lemma paging_round_trip_witness :
  let d := FixedPitch.legendData FixedPitch.twelveLabels in
  let s := FixedPitch.loaded LegendPosition.Top true 0 FixedPitch.twelveLabels
             (IViewport.mk 50 285) in
  let inc := NavigationArrow.mk 0 0 "" "" Increase in
  let dec := NavigationArrow.mk 0 0 "" "" Decrease in
  match SVGLegend.onArrowClick (host := FixedPitch.host) inc s with
  | Ok s1 =>
      match SVGLegend.onArrowClick (host := FixedPitch.host) dec s1 with
      | Ok s2 =>
          SVGLegend.legendDataStartIndex s2
          = Z.max 0 (SVGLegend.legendDataStartIndex s1 - SVGLegend.arrowPosWindow s1)
          /\ (SVGLegend.legendDataStartIndex s2 = 0%Z
              <-> (SVGLegend.legendDataStartIndex s1 <= SVGLegend.arrowPosWindow s1)%Z)
      | TypeError => False
      end
  | TypeError => False
  end.
Proof.
  intros d s inc dec.
  destruct (SVGLegend.onArrowClick (host := FixedPitch.host) inc s) as [s1|] eqn:E1.
  - destruct (SVGLegend.onArrowClick (host := FixedPitch.host) dec s1) as [s2|] eqn:E2.
    + pose proof (paging_round_trip (host := FixedPitch.host) inc dec s s1 s2 d
                    eq_refl eq_refl eq_refl eq_refl) as H.
      destruct H as (Ha & Hb & _).
      * discriminate.
      * discriminate.
      * vm_compute. discriminate.
      * exact E1.
      * exact E2.
      * split; assumption.
    + vm_compute in E1. injection E1 as <-. vm_compute in E2. discriminate E2.
  - vm_compute in E1. discriminate E1.
Defined.

(** C4 as stated fails.  Twelve equal labels on a parent 285 pixels wide:
    the first page shows 4 items, so the Increase arrow moves the start index
    to 4; the second page starts behind the room of the Decrease arrow and
    shows 3 items, which is not the rest of the list, so the stored window
    size becomes 3; the Decrease arrow then moves the start index to 1. *)
Lemma paging_round_trip_counterexample :
  match SVGLegend.drawLegend (host := FixedPitch.host)
          (FixedPitch.legendData FixedPitch.twelveLabels) (IViewport.mk 50 285)
          (FixedPitch.legend LegendPosition.Top true) with
  | Ok s =>
      match Group.navArrows (SVGLegend.group s) with
      | [inc] =>
          match SVGLegend.onArrowClick (host := FixedPitch.host) inc s with
          | Ok s1 =>
              match Group.navArrows (SVGLegend.group s1) with
              | [dec; _] =>
                  match SVGLegend.onArrowClick (host := FixedPitch.host) dec s1 with
                  | Ok s2 =>
                      SVGLegend.legendDataStartIndex s = 0%Z
                      /\ NavigationArrow.dataType inc = Increase
                      /\ SVGLegend.legendDataStartIndex s1 = 4%Z
                      /\ SVGLegend.arrowPosWindow s1 = 3%Z
                      /\ NavigationArrow.dataType dec = Decrease
                      /\ SVGLegend.parentViewport s2 = SVGLegend.parentViewport s
                      /\ SVGLegend.legendDataStartIndex s2 = 1%Z
                  | TypeError => False
                  end
              | _ => False
              end
          | TypeError => False
          end
      | _ => False
      end
  | TypeError => False
  end.
Proof. vm_compute. repeat split; reflexivity. Qed.

(** ** Truncation *)

Lemma for_until_visited {A S : Type} (body : S -> A -> A * S) (stop : S -> bool)
    (l : list A) :
  forall itr acc l' acc' broke (i : nat) (a : A),
    SVGLegend.for_until body stop l itr acc = (l', acc', broke) ->
    l !! i = Some a ->
    match broke with
    | Some n => (itr + Z.of_nat i <= n)%Z
    | None => True
    end ->
    exists acc_i, l' !! i = Some (fst (body acc_i a)).
Proof.
  induction l as [|a0 rest IH]; intros itr acc l' acc' broke i a H Hl Hv; cbn in H.
  - discriminate Hl.
  - destruct (body acc a0) as [a0' acc1] eqn:B.
    destruct (stop acc1).
    + inversion H. subst. destruct i as [|i].
      * cbn in Hl. injection Hl as <-. exists acc. rewrite B. reflexivity.
      * lia.
    + destruct (SVGLegend.for_until body stop rest (itr + 1)%Z acc1)
        as [[rest' acc2] n2] eqn:E.
      inversion H. subst. destruct i as [|i].
      * cbn in Hl. injection Hl as <-. exists acc. rewrite B. reflexivity.
      * cbn in Hl |- *. eapply IH; [exact E | exact Hl |].
        destruct broke; [lia | exact I].
Qed.

Lemma measuredItemWidth_label `{host : Host} (fontSize : option Q) (showPrimary : bool)
    (dp : LegendDataPoint.t) :
  measureSvgTextWidth
    (SVGLegend.getTextProperties false (Some (LegendDataPoint.label dp)) fontSize) + 15
  <= SVGLegend.measuredItemWidth fontSize showPrimary dp.
Proof.
  unfold SVGLegend.measuredItemWidth.
  set (l := measureSvgTextWidth _).
  destruct showPrimary.
  - set (p := measureSvgTextWidth _). set (q := measureSvgTextWidth _).
    destruct (Qgtb l p) eqn:E1; [destruct (Qgtb l q) eqn:E2 | destruct (Qgtb p q) eqn:E2];
      try apply Qgtb_gt in E1; try apply Qgtb_le in E1;
      try apply Qgtb_gt in E2; try apply Qgtb_le in E2; lra.
  - destruct (Qgtb l 0) eqn:E1; [destruct (Qgtb l 0) | destruct (Qgtb 0 0)];
      try apply Qgtb_gt in E1; try apply Qgtb_le in E1; lra.
Qed.

Lemma horizontalItem_label `{host : Host} (fontSize : option Q) (showPrimary : bool)
    (fts fis pad mtl ptl occ : Q) (dp : LegendDataPoint.t) :
  LegendDataPoint.label
    (fst (SVGLegend.horizontalItem fontSize showPrimary fts fis pad mtl ptl occ dp))
  = if Qltb (SVGLegend.measuredItemWidth fontSize showPrimary dp) mtl
    then LegendDataPoint.label dp
    else getTailoredTextOrDefault
           (SVGLegend.getTextProperties false (Some (LegendDataPoint.label dp)) fontSize) mtl.
Proof.
  unfold SVGLegend.horizontalItem.
  destruct (Qltb _ mtl); [reflexivity|]. destruct showPrimary; reflexivity.
Qed.

Lemma verticalItem_label `{host : Host} (fontSize : option Q) (showPrimary : bool)
    (df ff vlh ex his hts avail : Q) (acc : Q * Q) (dp : LegendDataPoint.t) :
  LegendDataPoint.label
    (fst (SVGLegend.verticalItem fontSize showPrimary df ff vlh ex his hts avail acc dp))
  = if Qgtb (SVGLegend.measuredItemWidth fontSize showPrimary dp) avail
    then getTailoredTextOrDefault
           (SVGLegend.getTextProperties false (Some (LegendDataPoint.label dp)) fontSize) avail
    else LegendDataPoint.label dp.
Proof.
  unfold SVGLegend.verticalItem. destruct acc as [tot used].
  destruct (Qgtb _ avail); [|reflexivity]. destruct showPrimary; reflexivity.
Qed.

(** The rule of both loops, from what the body does to one label. *)
Lemma labelsTailored_loop `{host : Host} {S : Type} (ellipsisWidth : Q)
    (fontSize : option Q) (showPrimary : bool) (budget : Q)
    (body : S -> LegendDataPoint.t -> LegendDataPoint.t * S) (stop : S -> bool)
    (pts pts' : list LegendDataPoint.t) (acc acc' : S) (broke : option Z) :
  tailoringContract ellipsisWidth ->
  (forall a dp,
     let tp := SVGLegend.getTextProperties false (Some (LegendDataPoint.label dp)) fontSize in
     (LegendDataPoint.label (fst (body a dp)) = LegendDataPoint.label dp
      /\ SVGLegend.measuredItemWidth fontSize showPrimary dp <= budget)
     \/ (LegendDataPoint.label (fst (body a dp)) = getTailoredTextOrDefault tp budget
         /\ budget <= SVGLegend.measuredItemWidth fontSize showPrimary dp)) ->
  SVGLegend.for_until body stop pts 0%Z acc = (pts', acc', broke) ->
  labelsTailored ellipsisWidth fontSize budget
    (match broke with
     | Some itr => itr
     | None => Z.of_nat (length pts)
     end) pts pts'.
Proof.
  intros [Hfit Hbound] Hbody H i dp Hl.
  pose proof (lookup_lt_Some _ _ _ Hl) as Hlt.
  destruct (Z_lt_le_dec (match broke with
                         | Some itr => itr
                         | None => Z.of_nat (length pts)
                         end) (Z.of_nat i)) as [Hun|Hvis].
  - exists dp. split.
    + destruct broke as [n|]; [|lia].
      rewrite (for_until_untouched _ _ _ _ _ _ _ _ i H); [exact Hl | lia].
    + cbv zeta. repeat split; intros; try lia; reflexivity.
  - destruct (for_until_visited _ _ _ _ _ _ _ _ i dp H Hl) as [a Ha].
    { destruct broke; [lia | exact I]. }
    exists (fst (body a dp)). split; [exact Ha|]. cbv zeta.
    pose proof (measuredItemWidth_label fontSize showPrimary dp) as Hw.
    set (tp := SVGLegend.getTextProperties false (Some (LegendDataPoint.label dp)) fontSize) in *.
    destruct (Hbody a dp) as [[Hkeep Hle]|[Hcut Hge]].
    + split; [intros; lia|]. split; [intros _ Hb; lra|]. split; [intros _ Hb; lra|].
      intros _ _. exact Hkeep.
    + split; [intros; lia|]. split; [intros _ _; exact Hcut|]. split.
      * intros _ _ He. rewrite Hcut. apply (Hbound tp budget He).
      * intros _ Hn. rewrite Hcut. apply Hfit; [reflexivity | exact Hn].
Qed.

(** C3, as amended.  Given a text service that honours
    [tailoringContract], in the horizontal and in the vertical item layout
    alike, for the budget of the pass ([horizontalBudget]: the even split,
    truncated to an integer and at least 60; [verticalBudget]:
    [maxHorizontalSpaceAvaliable]): every point that the loop reached (window
    index at most the returned number of items) whose label is at least as
    wide as the budget has its label replaced by the tailored form, which is
    no wider than the budget when the budget has room for the ellipsis; every
    reached label that is narrower than the budget is left as it was; the
    points behind the one at which the loop stopped are not touched. *)
Theorem truncation_rule `{host : Host} (ellipsisWidth : Q) :
  tailoringContract ellipsisWidth ->
  (forall d pts title nav s s' pts' title' nav' n,
     SVGLegend.calculateHorizontalLayout d pts title nav s = Ok (s', pts', title', nav', n) ->
     labelsTailored ellipsisWidth (LegendData.fontSize d) (horizontalBudget pts title s)
       n pts pts')
  /\ (forall d pts title nav autoWidth s s' pts' title' nav' n,
        SVGLegend.calculateVerticalLayout d pts title nav autoWidth s
        = (s', pts', title', nav', n) ->
        labelsTailored ellipsisWidth (LegendData.fontSize d) (verticalBudget pts autoWidth s)
          n pts pts').
Proof.
  intros Hc. split.
  - intros d pts title nav s s' pts' title' nav' n.
    unfold SVGLegend.calculateHorizontalLayout.
    match goal with |- context [bind ?r _] => destruct r end; cbn [bind]; [|discriminate].
    match goal with |- context [SVGLegend.for_until ?b ?st ?l ?i ?a] =>
      destruct (SVGLegend.for_until b st l i a) as [[l1 occ] broke] eqn:E end.
    match goal with |- context [SVGLegend.updateNavigationArrowLayout ?a ?b ?c ?e] =>
      destruct (SVGLegend.updateNavigationArrowLayout a b c e) as [s1 nav1] end.
    intros H. injection H as _ <- _ _ <-.
    eapply (labelsTailored_loop ellipsisWidth (LegendData.fontSize d)
              (SVGLegend.showPrimary s) (horizontalBudget pts title s) _ _ pts l1 _ occ broke Hc);
      [|exact E].
    intros acc0 dp. cbv zeta. rewrite horizontalItem_label.
    fold (horizontalBudget pts title s).
    destruct (Qltb _ (horizontalBudget pts title s)) eqn:Eb.
    + left. split; [reflexivity|]. apply Qltb_lt in Eb. lra.
    + right. split; [reflexivity|]. apply Qltb_ge in Eb. exact Eb.
  - intros d pts title nav autoWidth s s' pts' title' nav' n.
    unfold SVGLegend.calculateVerticalLayout.
    match goal with |- context [SVGLegend.for_until ?b ?st ?l ?i ?a] =>
      destruct (SVGLegend.for_until b st l i a) as [[l1 [tot used]] broke] eqn:E end.
    match goal with |- context [SVGLegend.updateNavigationArrowLayout ?a ?b ?c ?e] =>
      destruct (SVGLegend.updateNavigationArrowLayout a b c e) as [s1 nav1] end.
    intros H. injection H as _ <- _ _ <-.
    eapply (labelsTailored_loop ellipsisWidth (LegendData.fontSize d)
              (SVGLegend.showPrimary s) (verticalBudget pts autoWidth s) _ _ pts l1 _
              (tot, used) broke Hc);
      [|exact E].
    intros acc0 dp. cbv zeta. rewrite verticalItem_label.
    fold (verticalBudget pts autoWidth s).
    destruct (Qgtb _ (verticalBudget pts autoWidth s)) eqn:Eb.
    + right. split; [reflexivity|]. apply Qgtb_gt in Eb. lra.
    + left. split; [reflexivity|]. apply Qgtb_le in Eb. exact Eb.
Qed.

(** *** The fixed-pitch host honours the contract *)

Lemma string_length_append (a b : string) :
  String.length (a ++ b)%string = (String.length a + String.length b)%nat.
Proof. induction a as [|c a IH]; simpl; [reflexivity | f_equal; exact IH]. Qed.

Lemma string_length_prefix (k : nat) (s : string) :
  (String.length (String.substring 0 k s) <= k)%nat.
Proof.
  revert s. induction k as [|k IH]; intros s.
  - destruct s; cbn; lia.
  - destruct s as [|c s]; cbn; [lia|]. specialize (IH s). lia.
Qed.

Lemma FixedPitch_widthOf_nonneg (s : string) : 0 <= FixedPitch.widthOf s.
Proof.
  unfold FixedPitch.widthOf, FixedPitch.charWidth.
  apply Qmult_le_0_compat; [lra|].
  replace 0 with (inject_Z 0) by reflexivity. rewrite <- Zle_Qle. lia.
Qed.

Lemma FixedPitch_contract : tailoringContract (host := FixedPitch.host) 18.
Proof.
  split.
  - intros tp w t Ht Hlt. cbn in *. unfold FixedPitch.tailor. rewrite Ht.
    destruct (String.length t =? 0)%nat; [reflexivity|].
    apply Qltb_lt in Hlt. rewrite Hlt. reflexivity.
  - intros tp w Hw. cbn. unfold FixedPitch.tailor.
    destruct (TextProperties.text tp) as [t|] eqn:Ht.
    2:{ apply Qle_trans with 0; [unfold Qle; simpl; lia | lra]. }
    destruct (String.length t =? 0)%nat eqn:E0.
    { apply Nat.eqb_eq in E0. unfold FixedPitch.widthOf. rewrite E0.
      apply Qle_trans with 0; [unfold Qle; simpl; lia | lra]. }
    destruct (Qltb (FixedPitch.measure tp) w) eqn:E1.
    { apply Qltb_lt in E1. unfold FixedPitch.measure in E1. rewrite Ht in E1. lra. }
    unfold FixedPitch.widthOf, FixedPitch.ellipsis. rewrite string_length_append.
    set (fit := Z.to_nat (Qfloor (w / FixedPitch.charWidth))).
    pose proof (string_length_prefix (fit - 3) t) as Hp.
    set (k := String.length (String.substring 0 (fit - 3) t)) in *.
    cbn [String.length].
    assert (Hq : (3 <= Qfloor (w / FixedPitch.charWidth))%Z).
    { replace 3%Z with (Qfloor (inject_Z 3)) by apply Qfloor_Z.
      apply Qfloor_resp_le. unfold FixedPitch.charWidth.
      apply Qle_shift_div_l; [lra|]. change (inject_Z 3) with 3. lra. }
    assert (Hf : inject_Z (Z.of_nat (k + 3)) <= inject_Z (Qfloor (w / FixedPitch.charWidth))).
    { rewrite <- Zle_Qle. subst fit. lia. }
    pose proof (Qfloor_le (w / FixedPitch.charWidth)) as Hfl.
    unfold FixedPitch.charWidth in *.
    assert (Hdiv : 6 * (w / 6) == w) by (field).
    set (x := inject_Z (Z.of_nat (k + 3))) in *.
    set (y := inject_Z (Qfloor (w / 6))) in *.
    set (z := w / 6) in *.
    lra.
Qed.

Lemma truncation_rule_witness :
  let d := FixedPitch.legendData FixedPitch.fiveLabels in
  let pts := LegendData.dataPoints d in
  let s := FixedPitch.loaded LegendPosition.Top true 0 FixedPitch.fiveLabels
             (IViewport.mk 50 400) in
  tailoringContract (host := FixedPitch.host) 18
  /\ match SVGLegend.calculateHorizontalLayout (host := FixedPitch.host) d pts None [] s with
     | Ok (_, pts', _, _, n) =>
         labelsTailored (host := FixedPitch.host) 18 (LegendData.fontSize d)
           (horizontalBudget (host := FixedPitch.host) pts None s) n pts pts'
     | TypeError => False
     end.
Proof.
  intros d pts s. split; [exact FixedPitch_contract|].
  destruct (SVGLegend.calculateHorizontalLayout (host := FixedPitch.host) d pts None [] s)
    as [[[[[s' pts'] title'] nav'] n]|] eqn:E.
  - exact (proj1 (truncation_rule (host := FixedPitch.host) 18 FixedPitch_contract)
             d pts None [] s s' pts' title' nav' n E).
  - vm_compute in E. discriminate E.
Defined.

(** C3 as stated fails in three ways, shown with the fixed-pitch host.
    (a) Horizontal, three labels of 96 pixels on a parent of width 100: the
    budget is 60, the loop stops at the second point, and the third label is
    still 96 pixels wide.  (b) Vertical, parent of width 50: the budget is
    -15, the label is replaced by the bare ellipsis, 18 pixels wide.
    (c) Horizontal, a label exactly as wide as the budget of 60: it fits, and
    it is tailored all the same. *)
Lemma truncation_rule_counterexample :
  (let labels := ["aaaaaaaaaaaaaaaa"; "bbbbbbbbbbbbbbbb"; "cccccccccccccccc"]%string in
   let d := FixedPitch.legendData labels in
   let pts := LegendData.dataPoints d in
   let s := FixedPitch.loaded LegendPosition.Top true 0 labels (IViewport.mk 50 100) in
   match SVGLegend.calculateHorizontalLayout (host := FixedPitch.host) d pts None [] s with
   | Ok (_, pts', _, _, n) =>
       n = 1%Z
       /\ horizontalBudget (host := FixedPitch.host) pts None s == 60
       /\ LegendDataPoint.label <$> pts !! 2%nat = Some "cccccccccccccccc"%string
       /\ LegendDataPoint.label <$> pts' !! 2%nat = Some "cccccccccccccccc"%string
       /\ FixedPitch.widthOf "cccccccccccccccc" == 96
   | TypeError => False
   end)
  /\ (let labels := ["abc"]%string in
      let d := FixedPitch.legendData labels in
      let pts := LegendData.dataPoints d in
      let s := FixedPitch.loaded LegendPosition.Right true 0 labels (IViewport.mk 200 50) in
      match SVGLegend.calculateVerticalLayout (host := FixedPitch.host) d pts None [] true s with
      | (_, pts', _, _, n) =>
          n = 1%Z
          /\ verticalBudget (host := FixedPitch.host) pts true s == - (15)
          /\ FixedPitch.widthOf "abc" == 18
          /\ LegendDataPoint.label <$> pts' !! 0%nat = Some "..."%string
          /\ FixedPitch.widthOf "..." == 18
      end)
  /\ (let labels := ["abcdefghij"; "b"; "c"; "d"; "e"]%string in
      let d := FixedPitch.legendData labels in
      let pts := LegendData.dataPoints d in
      let s := FixedPitch.loaded LegendPosition.Top true 0 labels (IViewport.mk 50 400) in
      match SVGLegend.calculateHorizontalLayout (host := FixedPitch.host) d pts None [] s with
      | Ok (_, pts', _, _, n) =>
          n = 5%Z
          /\ horizontalBudget (host := FixedPitch.host) pts None s == 60
          /\ FixedPitch.widthOf "abcdefghij" == 60
          /\ LegendDataPoint.label <$> pts' !! 0%nat = Some "abcdefg..."%string
      | TypeError => False
      end).
Proof. vm_compute. repeat split; reflexivity. Qed.

(** ** Repeating a draw *)

(** Reduce the projections and the setters of the instance. *)
Ltac fields :=
  cbn [SVGLegend.orientation SVGLegend.viewport SVGLegend.parentViewport SVGLegend.svg
       SVGLegend.group SVGLegend.legendDataStartIndex SVGLegend.arrowPosWindow
       SVGLegend.data SVGLegend.isScrollable SVGLegend.showPrimary
       SVGLegend.lastCalculatedWidth SVGLegend.visibleLegendWidth
       SVGLegend.visibleLegendHeight SVGLegend.legendFontSizeMarginDifference
       SVGLegend.legendFontSizeMarginValue
       SVGLegend.set_orientation SVGLegend.set_viewport SVGLegend.set_parentViewport
       SVGLegend.set_svg SVGLegend.set_group SVGLegend.set_legendDataStartIndex
       SVGLegend.set_arrowPosWindow SVGLegend.set_data SVGLegend.set_showPrimary
       SVGLegend.set_lastCalculatedWidth SVGLegend.set_visibleLegendWidth
       SVGLegend.set_visibleLegendHeight SVGLegend.set_legendFontSizeMargin
       SVGLegend.getOrientation SVGLegend.getMargins
       OwnViewport.height OwnViewport.width bind fst snd] in *.

(** The arrow update reads the start index and, for the roll-back, the
    stored window size: on two instances with the same start index it edits
    the arrows alike and decides the roll-back alike. *)
Lemma updateNavigationArrowLayout_congr (nav : list NavigationArrow.t) (rem n : Z)
    (s t : SVGLegend.t) :
  SVGLegend.legendDataStartIndex t = SVGLegend.legendDataStartIndex s ->
  exists (rolled : bool) (nav' : list NavigationArrow.t),
    SVGLegend.updateNavigationArrowLayout nav rem n s
    = (SVGLegend.set_arrowPosWindow (if rolled then SVGLegend.arrowPosWindow s else n) s, nav')
    /\ SVGLegend.updateNavigationArrowLayout nav rem n t
       = (SVGLegend.set_arrowPosWindow (if rolled then SVGLegend.arrowPosWindow t else n) t, nav').
Proof.
  intros Hi. unfold SVGLegend.updateNavigationArrowLayout. rewrite Hi.
  destruct s, t. fields.
  match goal with |- context [if ?c then (_, js_drop_last ?l) else _] =>
    exists c, (if c then js_drop_last l else l); destruct c end;
    split; reflexivity.
Qed.

Lemma calculateHorizontalLayout_congr `{host : Host} (d : LegendData.t)
    (pts : list LegendDataPoint.t) (title : option TitleLayout.t)
    (nav : list NavigationArrow.t) (s t s' : SVGLegend.t)
    (pts' : list LegendDataPoint.t) (title' : option TitleLayout.t)
    (nav' : list NavigationArrow.t) (n : Z) :
  SVGLegend.showPrimary t = SVGLegend.showPrimary s ->
  SVGLegend.legendFontSizeMarginDifference t = SVGLegend.legendFontSizeMarginDifference s ->
  SVGLegend.legendDataStartIndex t = SVGLegend.legendDataStartIndex s ->
  SVGLegend.parentViewport t = SVGLegend.parentViewport s ->
  SVGLegend.calculateHorizontalLayout d pts title nav s = Ok (s', pts', title', nav', n) ->
  exists (w : Q) (rolled : bool),
    s' = SVGLegend.set_arrowPosWindow (if rolled then SVGLegend.arrowPosWindow s else n)
           (SVGLegend.set_visibleLegendWidth w s)
    /\ SVGLegend.calculateHorizontalLayout d pts title nav t
       = Ok (SVGLegend.set_arrowPosWindow (if rolled then SVGLegend.arrowPosWindow t else n)
               (SVGLegend.set_visibleLegendWidth w t),
             pts', title', nav', n).
Proof.
  intros Hsp Hdf Hi Hpv. unfold SVGLegend.calculateHorizontalLayout.
  rewrite Hsp, Hdf, Hi, Hpv.
  match goal with |- context [bind ?r _] => destruct r end; cbn [bind]; [|discriminate].
  match goal with |- context [SVGLegend.for_until ?b ?st ?l ?i ?a] =>
    destruct (SVGLegend.for_until b st l i a) as [[l1 occ] broke] end.
  match goal with |- context [SVGLegend.updateNavigationArrowLayout ?a ?b ?c _] =>
    destruct (updateNavigationArrowLayout_congr a b c
                (SVGLegend.set_visibleLegendWidth occ s)
                (SVGLegend.set_visibleLegendWidth occ t))
      as (rolled & nav1 & Us & Ut) end.
  { destruct s, t; exact Hi. }
  rewrite Us, Ut. intros H. injection H as <- <- <- <- <-.
  exists occ, rolled. split.
  - destruct s; reflexivity.
  - destruct t; reflexivity.
Qed.

Lemma calculateVerticalLayout_congr `{host : Host} (d : LegendData.t)
    (pts : list LegendDataPoint.t) (title1 title2 : option TitleLayout.t)
    (nav : list NavigationArrow.t) (s t s' : SVGLegend.t)
    (pts' : list LegendDataPoint.t) (title' : option TitleLayout.t)
    (nav' : list NavigationArrow.t) (n : Z) :
  SVGLegend.showPrimary t = SVGLegend.showPrimary s ->
  SVGLegend.legendFontSizeMarginDifference t = SVGLegend.legendFontSizeMarginDifference s ->
  SVGLegend.legendDataStartIndex t = SVGLegend.legendDataStartIndex s ->
  SVGLegend.parentViewport t = SVGLegend.parentViewport s ->
  sameBox title2 title1 ->
  SVGLegend.calculateVerticalLayout d pts title1 nav true s = (s', pts', title', nav', n) ->
  exists (w vh : Q) (rolled : bool),
    s' = SVGLegend.set_arrowPosWindow (if rolled then SVGLegend.arrowPosWindow s else n)
           (SVGLegend.set_visibleLegendHeight vh
              (SVGLegend.set_lastCalculatedWidth w
                 (SVGLegend.set_viewport
                    (OwnViewport.mk (OwnViewport.height (SVGLegend.viewport s)) (Some w)) s)))
    /\ SVGLegend.calculateVerticalLayout d pts title2 nav true t
       = (SVGLegend.set_arrowPosWindow (if rolled then SVGLegend.arrowPosWindow t else n)
            (SVGLegend.set_visibleLegendHeight vh
               (SVGLegend.set_lastCalculatedWidth w
                  (SVGLegend.set_viewport
                     (OwnViewport.mk (OwnViewport.height (SVGLegend.viewport t)) (Some w)) t))),
          pts', title', nav', n).
Proof.
  intros Hsp Hdf Hi Hpv Hbox. unfold SVGLegend.calculateVerticalLayout.
  rewrite Hsp, Hdf, Hi, Hpv.
  assert (Htot : forall (A : Type) (a b : A),
             match title2 with Some _ => a | None => b end
             = match title1 with Some _ => a | None => b end).
  { intros A a b. destruct title1, title2; cbn in Hbox; try contradiction; reflexivity. }
  assert (Hused : match title2 with
                  | Some tl => SVGLegend.num_or (TitleLayout.width tl) 0
                  | None => 0
                  end
                  = match title1 with
                    | Some tl => SVGLegend.num_or (TitleLayout.width tl) 0
                    | None => 0
                    end).
  { destruct title1, title2; cbn in Hbox; try contradiction; [|reflexivity].
    destruct Hbox as (_ & _ & -> & _). reflexivity. }
  rewrite Htot, Hused.
  match goal with |- context [SVGLegend.for_until ?b ?st ?l ?i ?a] =>
    destruct (SVGLegend.for_until b st l i a) as [[l1 [tot used]] broke] end.
  cbv zeta.
  match goal with |- context [Qltb used ?m] => set (avail := m) end.
  set (w := if Qltb used avail then _ else _).
  set (vh := tot - _).
  match goal with |- context [SVGLegend.updateNavigationArrowLayout ?a ?b ?c (SVGLegend.set_visibleLegendHeight vh ?x)] =>
    destruct (updateNavigationArrowLayout_congr
                (map (NavigationArrow.set_x (w / 2)) nav) b c
                (SVGLegend.set_visibleLegendHeight vh
                   (SVGLegend.set_lastCalculatedWidth w
                      (SVGLegend.set_viewport
                         (OwnViewport.mk (OwnViewport.height (SVGLegend.viewport s)) (Some w)) s)))
                (SVGLegend.set_visibleLegendHeight vh
                   (SVGLegend.set_lastCalculatedWidth w
                      (SVGLegend.set_viewport
                         (OwnViewport.mk (OwnViewport.height (SVGLegend.viewport t)) (Some w)) t))))
      as (rolled & nav1 & Us & Ut) end.
  { destruct s, t; exact Hi. }
  fields. rewrite Us.
  intros H. injection H as <- <- <- <- <-.
  exists w, vh, rolled. split; [destruct s; reflexivity|].
  rewrite Ut.
  destruct title1 as [a|], title2 as [b|]; cbn in Hbox; try contradiction; [|reflexivity].
  destruct Hbox as (_ & _ & Hw & Hh). rewrite Hw, Hh. reflexivity.
Qed.

Lemma calculateTitleLayout_congr `{host : Host} (d : LegendData.t) (title : option string)
    (s t : SVGLegend.t) :
  SVGLegend.orientation t = SVGLegend.orientation s ->
  SVGLegend.legendFontSizeMarginValue t = SVGLegend.legendFontSizeMarginValue s ->
  SVGLegend.legendFontSizeMarginDifference t = SVGLegend.legendFontSizeMarginDifference s ->
  SVGLegend.parentViewport t = SVGLegend.parentViewport s ->
  sameBox (SVGLegend.calculateTitleLayout d title t) (SVGLegend.calculateTitleLayout d title s)
  /\ (SVGLegend.isTopOrBottom (SVGLegend.orientation s) = true ->
      SVGLegend.calculateTitleLayout d title t = SVGLegend.calculateTitleLayout d title s).
Proof.
  intros Ho Hv Hdf Hpv. unfold SVGLegend.calculateTitleLayout.
  rewrite Ho, Hv, Hdf, Hpv.
  destruct title as [ttl|]; [|split; [exact I | reflexivity]].
  destruct (ttl =? "")%string; [split; [exact I | reflexivity]|].
  split.
  - cbn. destruct (SVGLegend.isTopOrBottom (SVGLegend.orientation s)); repeat split; reflexivity.
  - intros ->. reflexivity.
Qed.

Lemma calculateVerticalNavigationArrowsLayout_congr `{host : Host}
    (title1 title2 : option TitleLayout.t) (s t : SVGLegend.t) :
  sameBox title2 title1 ->
  OwnViewport.height (SVGLegend.viewport t) = OwnViewport.height (SVGLegend.viewport s) ->
  SVGLegend.parentViewport t = SVGLegend.parentViewport s ->
  SVGLegend.calculateVerticalNavigationArrowsLayout title2 t
  = SVGLegend.calculateVerticalNavigationArrowsLayout title1 s.
Proof.
  intros Hbox Hh Hpv. unfold SVGLegend.calculateVerticalNavigationArrowsLayout.
  rewrite Hh, Hpv.
  destruct title1 as [a|], title2 as [b|]; cbn in Hbox; try contradiction; [|reflexivity].
  destruct Hbox as (_ & _ & _ & ->). reflexivity.
Qed.

Lemma calculateHorizontalNavigationArrowsLayout_congr `{host : Host}
    (title : option TitleLayout.t) (s t : SVGLegend.t) :
  OwnViewport.height (SVGLegend.viewport t) = OwnViewport.height (SVGLegend.viewport s) ->
  SVGLegend.parentViewport t = SVGLegend.parentViewport s ->
  SVGLegend.calculateHorizontalNavigationArrowsLayout title t
  = SVGLegend.calculateHorizontalNavigationArrowsLayout title s.
Proof.
  intros Hh Hpv. unfold SVGLegend.calculateHorizontalNavigationArrowsLayout.
  rewrite Hh, Hpv. reflexivity.
Qed.

(** A second instance that agrees with the first on what a layout pass
    with automatic width reads returns the same layout; its new state is the
    new state of the first, except for what the pass does not write (the DOM
    record, the cached footprint of the other axis) and for the window size,
    rolled back or not alike. *)
Lemma calculateLayout_congr `{host : Host} (s t s' : SVGLegend.t) (d : LegendData.t)
    (lay : LegendLayout.t) :
  SVGLegend.data s = Some d ->
  SVGLegend.data t = Some d ->
  LegendData.dataPoints d <> [] ->
  SVGLegend.orientation t = SVGLegend.orientation s ->
  SVGLegend.isScrollable t = SVGLegend.isScrollable s ->
  SVGLegend.showPrimary t = SVGLegend.showPrimary s ->
  SVGLegend.parentViewport t = SVGLegend.parentViewport s ->
  OwnViewport.height (SVGLegend.viewport t) = OwnViewport.height (SVGLegend.viewport s) ->
  (SVGLegend.isTopOrBottom (SVGLegend.orientation s) = true ->
   SVGLegend.viewport t = SVGLegend.viewport s) ->
  SVGLegend.legendDataStartIndex (SVGLegend.normalizePosition (LegendData.dataPoints d) t)
  = SVGLegend.legendDataStartIndex (SVGLegend.normalizePosition (LegendData.dataPoints d) s) ->
  SVGLegend.calculateLayout true s = Ok (s', lay) ->
  let hz := SVGLegend.isTopOrBottom (SVGLegend.orientation s) in
  exists rolled : bool,
    SVGLegend.arrowPosWindow s'
    = (if rolled then SVGLegend.arrowPosWindow s else LegendLayout.numberOfItems lay)
    /\ SVGLegend.svg s' = SVGLegend.svg s
    /\ SVGLegend.group s' = SVGLegend.group s
    /\ (if hz
        then SVGLegend.lastCalculatedWidth s' = SVGLegend.lastCalculatedWidth s
             /\ SVGLegend.visibleLegendHeight s' = SVGLegend.visibleLegendHeight s
        else SVGLegend.visibleLegendWidth s' = SVGLegend.visibleLegendWidth s)
    /\ SVGLegend.calculateLayout true t
       = Ok (SVGLegend.mk (SVGLegend.orientation s') (SVGLegend.viewport s')
               (SVGLegend.parentViewport s') (SVGLegend.svg t) (SVGLegend.group t)
               (SVGLegend.legendDataStartIndex s')
               (if rolled then SVGLegend.arrowPosWindow t else LegendLayout.numberOfItems lay)
               (SVGLegend.data s') (SVGLegend.isScrollable s') (SVGLegend.showPrimary s')
               (if hz then SVGLegend.lastCalculatedWidth t
                else SVGLegend.lastCalculatedWidth s')
               (if hz then SVGLegend.visibleLegendWidth s'
                else SVGLegend.visibleLegendWidth t)
               (if hz then SVGLegend.visibleLegendHeight t
                else SVGLegend.visibleLegendHeight s')
               (SVGLegend.legendFontSizeMarginDifference s')
               (SVGLegend.legendFontSizeMarginValue s'),
             lay).
Proof.
  intros Hds Hdt Hne Ho Hsc Hsp Hpv Hvh Hvp Hidx H hz.
  assert (Hlen : (0 < Z.of_nat (length (LegendData.dataPoints d)))%Z).
  { destruct (LegendData.dataPoints d); [congruence | cbn [length]; lia]. }
  unfold SVGLegend.calculateLayout in H |- *. rewrite Hds in H. rewrite Hdt.
  set (pts := LegendData.dataPoints d) in *.
  destruct (Z.of_nat (length pts) =? 0)%Z eqn:E0; [apply Z.eqb_eq in E0; lia|].
  cbv zeta in H |- *.
  set (v := PixelConverter.fromPointToPixel _) in *.
  rewrite (normalizePosition_frame pts (SVGLegend.set_legendFontSizeMargin _ _ s)) in H.
  rewrite (normalizePosition_frame pts (SVGLegend.set_legendFontSizeMargin _ _ t)).
  rewrite !normalizePosition_set_margin in H |- *. rewrite Hidx.
  set (i := SVGLegend.legendDataStartIndex (SVGLegend.normalizePosition pts s)) in *.
  set (s0 := SVGLegend.set_legendDataStartIndex i _) in H.
  set (t0 := SVGLegend.set_legendDataStartIndex i _).
  assert (Hi0 : SVGLegend.legendDataStartIndex s0 = i) by (subst s0; destruct s; reflexivity).
  assert (Hj0 : SVGLegend.legendDataStartIndex t0 = i) by (subst t0; destruct t; reflexivity).
  rewrite Hi0 in H. rewrite Hj0.
  assert (Ho0 : SVGLegend.orientation s0 = SVGLegend.orientation s)
    by (subst s0; destruct s; reflexivity).
  assert (Hto0 : SVGLegend.orientation t0 = SVGLegend.orientation s)
    by (subst t0; destruct t; exact Ho).
  assert (Hsc0 : SVGLegend.isScrollable t0 = SVGLegend.isScrollable s0)
    by (subst s0 t0; destruct s, t; exact Hsc).
  rewrite Ho0 in H. rewrite Hto0. rewrite Hsc0. fold hz in H |- *.
  destruct (calculateTitleLayout_congr d (LegendData.title d) s0 t0) as [Hbox Htitle];
    try (subst s0 t0; destruct s, t; cbn in *; congruence).
  rewrite Ho0 in Htitle. fold hz in Htitle.
  destruct (i <? Z.of_nat (length pts))%Z.
  - destruct hz eqn:Ehz.
    + rewrite (Htitle eq_refl).
      rewrite (calculateHorizontalNavigationArrowsLayout_congr _ s0 t0);
        try (subst s0 t0; destruct s, t; cbn in *; congruence).
      match type of H with bind ?r _ = _ =>
        destruct r as [[[[[s1 pts1] title1] nav1] n1]|] eqn:R end;
        cbn [bind] in H; [|discriminate].
      eapply (calculateHorizontalLayout_congr _ _ _ _ s0 t0) in R;
        try (subst s0 t0; destruct s, t; cbn in *; congruence).
      destruct R as (w & rolled & Hs1 & Rt). rewrite Rt. cbn [bind].
      injection H as <- <-. exists rolled. subst s1 s0 t0.
      specialize (Hvp Ehz). destruct s, t. cbn in *. subst.
      repeat split; reflexivity.
    + cbn [bind] in H |- *.
      rewrite (calculateVerticalNavigationArrowsLayout_congr _ _ s0 t0 Hbox);
        try (subst s0 t0; destruct s, t; cbn in *; congruence).
      match type of H with context [SVGLegend.calculateVerticalLayout ?a ?b ?c ?e ?f ?g] =>
        destruct (SVGLegend.calculateVerticalLayout a b c e f g)
          as [[[[s1 pts1] title1] nav1] n1] eqn:R end.
      eapply (calculateVerticalLayout_congr _ _ _ _ _ s0 t0) in R;
        try exact Hbox; try (subst s0 t0; destruct s, t; cbn in *; congruence).
      destruct R as (w & vh & rolled & Hs1 & Rt). rewrite Rt.
      injection H as <- <-. exists rolled. subst s1 s0 t0.
      destruct s, t. cbn in *. subst. rewrite ?Hvh.
      repeat split; reflexivity.
  - destruct hz eqn:Ehz.
    + rewrite (Htitle eq_refl).
      rewrite (calculateHorizontalNavigationArrowsLayout_congr _ s0 t0);
        try (subst s0 t0; destruct s, t; cbn in *; congruence).
      match type of H with bind ?r _ = _ =>
        destruct r as [[[[[s1 pts1] title1] nav1] n1]|] eqn:R end;
        cbn [bind] in H; [|discriminate].
      eapply (calculateHorizontalLayout_congr _ _ _ _ s0 t0) in R;
        try (subst s0 t0; destruct s, t; cbn in *; congruence).
      destruct R as (w & rolled & Hs1 & Rt). rewrite Rt. cbn [bind].
      injection H as <- <-. exists rolled. subst s1 s0 t0.
      specialize (Hvp Ehz). destruct s, t. cbn in *. subst.
      repeat split; reflexivity.
    + cbn [bind] in H |- *.
      rewrite (calculateVerticalNavigationArrowsLayout_congr _ _ s0 t0 Hbox);
        try (subst s0 t0; destruct s, t; cbn in *; congruence).
      match type of H with context [SVGLegend.calculateVerticalLayout ?a ?b ?c ?e ?f ?g] =>
        destruct (SVGLegend.calculateVerticalLayout a b c e f g)
          as [[[[s1 pts1] title1] nav1] n1] eqn:R end.
      eapply (calculateVerticalLayout_congr _ _ _ _ _ s0 t0) in R;
        try exact Hbox; try (subst s0 t0; destruct s, t; cbn in *; congruence).
      destruct R as (w & vh & rolled & Hs1 & Rt). rewrite Rt.
      injection H as <- <-. exists rolled. subst s1 s0 t0.
      destruct s, t. cbn in *. subst. rewrite ?Hvh.
      repeat split; reflexivity.
Qed.

Lemma drawLegendInternal_hidden_exact `{host : Host} (data : LegendData.t)
    (viewport : IViewport.t) (autoWidth : bool) (s : SVGLegend.t) :
  LegendData.dataPoints data = [] \/ SVGLegend.orientation s = LegendPosition.None ->
  SVGLegend.drawLegendInternal data viewport autoWidth s
  = Ok (SVGLegend.mk LegendPosition.None (OwnViewport.mk 0 (Some 0)) viewport
          (Svg.mk 0 0 None None
             (if (Z.of_nat (length (LegendData.dataPoints data)) =? 0)%Z
              then Some LegendPosition.None
              else Svg.attr_orientation (SVGLegend.svg s)))
          (Group.mk None [] [] [])
          (SVGLegend.legendDataStartIndex s) (SVGLegend.arrowPosWindow s)
          (Some (LegendData.set_dataPoints [] data)) (SVGLegend.isScrollable s)
          (negb (LegendData.primaryType data =? "None")%string)
          (SVGLegend.lastCalculatedWidth s) (SVGLegend.visibleLegendWidth s)
          (SVGLegend.visibleLegendHeight s) (SVGLegend.legendFontSizeMarginDifference s)
          (SVGLegend.legendFontSizeMarginValue s)).
Proof.
  intros H. unfold SVGLegend.drawLegendInternal.
  destruct (Z.of_nat (length (LegendData.dataPoints data)) =? 0)%Z eqn:E0.
  - destruct s. cbn -[js_slice]. change (Z.of_nat 0 =? 0)%Z with true.
    cbn -[js_slice]. rewrite js_slice_nil. reflexivity.
  - destruct H as [H|H]; [rewrite H in E0; discriminate E0|].
    destruct s. cbn in H. subst. cbn -[js_slice]. change (Z.of_nat 0 =? 0)%Z with true.
    cbn -[js_slice]. rewrite js_slice_nil. reflexivity.
Qed.

Lemma normalizePosition_idempotent {A : Type} (points : list A) (s t : SVGLegend.t) :
  points <> [] ->
  SVGLegend.legendDataStartIndex t
  = SVGLegend.legendDataStartIndex (SVGLegend.normalizePosition points s) ->
  SVGLegend.legendDataStartIndex (SVGLegend.normalizePosition points t)
  = SVGLegend.legendDataStartIndex (SVGLegend.normalizePosition points s).
Proof.
  intros Hne Ht.
  assert (Hlen : (0 < Z.of_nat (length points))%Z).
  { destruct points; [congruence | cbn [length]; lia]. }
  pose proof (normalizePosition_range _ points s) as Hs. cbv zeta in Hs.
  pose proof (normalizePosition_range _ points t) as Hc. cbv zeta in Hc.
  destruct Hs as [Hr _]. destruct Hc as (_ & _ & _ & Hk).
  rewrite <- Ht in *. apply Hk. lia.
Qed.

Lemma calculateViewport_congr (s t s' : SVGLegend.t) :
  SVGLegend.orientation t = SVGLegend.orientation s ->
  SVGLegend.data t = SVGLegend.data s ->
  SVGLegend.calculateViewport s = Ok s' ->
  exists v,
    SVGLegend.calculateViewport t = Ok (SVGLegend.set_viewport v t)
    /\ OwnViewport.height v = OwnViewport.height (SVGLegend.viewport s')
    /\ (SVGLegend.isTopOrBottom (SVGLegend.orientation s) = true ->
        v = SVGLegend.viewport s').
Proof.
  intros Ho Hd. unfold SVGLegend.calculateViewport. rewrite Ho, Hd.
  destruct (SVGLegend.orientation s); try destruct (SVGLegend.data s);
    intros H; try discriminate H; injection H as <-;
    eexists; (split; [reflexivity|]); split; try reflexivity; intros E;
    try discriminate E; reflexivity.
Qed.

Lemma drawLegendInternal_idempotent `{host : Host} (data : LegendData.t)
    (viewport : IViewport.t) (s s1 : SVGLegend.t) :
  SVGLegend.drawLegendInternal data viewport true s = Ok s1 ->
  SVGLegend.drawLegendInternal data viewport true s1 = Ok s1.
Proof.
  intros H.
  destruct (LegendData.dataPoints data) as [|dp0 rest0] eqn:Ep.
  { rewrite (drawLegendInternal_hidden_exact data viewport true s (or_introl Ep)) in H.
    injection H as <-.
    rewrite (drawLegendInternal_hidden_exact data viewport true _ (or_introl Ep)).
    rewrite Ep. reflexivity. }
  assert (Hne : LegendData.dataPoints data <> []) by (rewrite Ep; discriminate).
  clear Ep dp0 rest0.
  destruct (LegendPosition.eqb (SVGLegend.orientation s) LegendPosition.None) eqn:Eo.
  { apply LegendPosition_eqb_eq in Eo.
    rewrite (drawLegendInternal_hidden_exact data viewport true s (or_intror Eo)) in H.
    injection H as <-.
    match goal with |- SVGLegend.drawLegendInternal _ _ _ ?x = _ =>
      rewrite (drawLegendInternal_hidden_exact data viewport true x (or_intror eq_refl)) end.
    fields. cbn [Svg.attr_orientation].
    destruct (Z.of_nat (length (LegendData.dataPoints data)) =? 0)%Z; reflexivity. }
  assert (Hlen : (Z.of_nat (length (LegendData.dataPoints data)) =? 0)%Z = false).
  { apply Z.eqb_neq. destruct (LegendData.dataPoints data); [congruence | cbn [length]; lia]. }
  pose proof (drawLegendInternal_visible data viewport true s s1) as Hvis.
  unfold SVGLegend.drawLegendInternal in H |- *. rewrite Hlen in H |- *.
  assert (Eo' : LegendPosition.eqb
                  (SVGLegend.getOrientation
                     (SVGLegend.set_data (Some data) (SVGLegend.set_parentViewport viewport s)))
                  LegendPosition.None = false) by (destruct s; exact Eo).
  rewrite Eo' in H.
  set (b := negb (LegendData.primaryType data =? "None")%string) in *.
  set (sa := SVGLegend.set_showPrimary b _) in H.
  destruct (SVGLegend.calculateViewport sa) as [sb|] eqn:V; cbn [bind] in H; [|discriminate].
  destruct (SVGLegend.calculateLayout true sb) as [[se lay]|] eqn:L;
    cbn [bind] in H; [|discriminate].
  injection H as H.
  pose proof (calculateViewport_frame _ _ V) as Vf.
  assert (Hdb : SVGLegend.data sb = Some data) by (rewrite Vf; reflexivity).
  pose proof (calculateLayout_inv true sb se data lay Hdb Hne L) as Hinv. cbv zeta in Hinv.
  destruct Hinv as (Hi & _ & Hor & Hsc & Hpv & Hsp & Hsvg & Hgr & (d' & Hd' & _) & _).
  assert (Hsb : SVGLegend.orientation sb = SVGLegend.orientation s
                /\ SVGLegend.isScrollable sb = SVGLegend.isScrollable s
                /\ SVGLegend.showPrimary sb = b
                /\ SVGLegend.parentViewport sb = viewport).
  { rewrite Vf. subst sa. destruct s. repeat split; reflexivity. }
  destruct Hsb as (Hob & Hscb & Hspb & Hpvb).
  assert (Hs1 : SVGLegend.orientation s1 = SVGLegend.orientation se
                /\ SVGLegend.isScrollable s1 = SVGLegend.isScrollable se
                /\ SVGLegend.legendDataStartIndex s1 = SVGLegend.legendDataStartIndex se
                /\ SVGLegend.arrowPosWindow s1 = SVGLegend.arrowPosWindow se
                /\ SVGLegend.lastCalculatedWidth s1 = SVGLegend.lastCalculatedWidth se
                /\ SVGLegend.visibleLegendWidth s1 = SVGLegend.visibleLegendWidth se
                /\ SVGLegend.visibleLegendHeight s1 = SVGLegend.visibleLegendHeight se
                /\ Svg.attr_orientation (SVGLegend.svg s1)
                   = Svg.attr_orientation (SVGLegend.svg se)).
  { rewrite <- H. unfold SVGLegend.updateLayout. destruct se. fields.
    destruct data0; [destruct (_ && _)|]; repeat split; reflexivity. }
  destruct Hs1 as (Ho1 & Hsc1 & Hi1 & Ha1 & Hl1 & Hw1 & Hh1 & Hso1).
  assert (Eo1 : LegendPosition.eqb
                  (SVGLegend.getOrientation
                     (SVGLegend.set_data (Some data) (SVGLegend.set_parentViewport viewport s1)))
                  LegendPosition.None = false).
  { destruct s1. cbn in Ho1 |- *. rewrite Ho1, Hor, Hob. exact Eo. }
  rewrite Eo1. fold b.
  set (ta := SVGLegend.set_showPrimary b _).
  destruct (calculateViewport_congr sa ta sb) as (v & Vt & Hvh & Hvv); [| | exact V |].
  { subst sa ta. destruct s, s1. cbn in *. congruence. }
  { subst sa ta. destruct s, s1; reflexivity. }
  rewrite Vt. cbn [bind].
  set (tb := SVGLegend.set_viewport v ta) in *.
  assert (Htb : SVGLegend.orientation tb = SVGLegend.orientation s1
                /\ SVGLegend.isScrollable tb = SVGLegend.isScrollable s1
                /\ SVGLegend.showPrimary tb = b
                /\ SVGLegend.parentViewport tb = viewport
                /\ SVGLegend.data tb = Some data
                /\ SVGLegend.legendDataStartIndex tb = SVGLegend.legendDataStartIndex s1
                /\ SVGLegend.viewport tb = v
                /\ SVGLegend.svg tb = SVGLegend.svg s1
                /\ SVGLegend.group tb = SVGLegend.group s1
                /\ SVGLegend.arrowPosWindow tb = SVGLegend.arrowPosWindow s1
                /\ SVGLegend.lastCalculatedWidth tb = SVGLegend.lastCalculatedWidth s1
                /\ SVGLegend.visibleLegendWidth tb = SVGLegend.visibleLegendWidth s1
                /\ SVGLegend.visibleLegendHeight tb = SVGLegend.visibleLegendHeight s1).
  { subst tb ta. destruct s1. repeat split; reflexivity. }
  destruct Htb as (Hto & Htsc & Htsp & Htpv & Htd & Hti & Htv & Hts & Htg & Hta & Htl & Htw & Hth).
  destruct (calculateLayout_congr sb tb se data lay Hdb Htd Hne) as (rolled & Hap & _ & _ & Hper & Lt).
  { now rewrite Hto, Ho1, Hor. }
  { now rewrite Htsc, Hsc1, Hsc. }
  { now rewrite Htsp, Hspb. }
  { now rewrite Htpv, Hpvb. }
  { now rewrite Htv. }
  { rewrite Htv. intros Ehz. apply Hvv. rewrite Hob in Ehz. subst sa. destruct s; exact Ehz. }
  { apply normalizePosition_idempotent; [exact Hne | now rewrite Hti, Hi1, Hi]. }
  { exact L. }
  rewrite Lt. cbn [bind]. f_equal.
  rewrite Hts, Htg, Hta, Htl, Htw, Hth. clear Lt.
  replace (if rolled then SVGLegend.arrowPosWindow s1 else LegendLayout.numberOfItems lay)
    with (SVGLegend.arrowPosWindow se) by (rewrite Ha1, Hap; destruct rolled; reflexivity).
  rewrite Hl1, Hw1, Hh1.
  replace (if SVGLegend.isTopOrBottom (SVGLegend.orientation sb)
           then SVGLegend.lastCalculatedWidth se else SVGLegend.lastCalculatedWidth se)
    with (SVGLegend.lastCalculatedWidth se) by (destruct (SVGLegend.isTopOrBottom (SVGLegend.orientation sb)); reflexivity).
  replace (if SVGLegend.isTopOrBottom (SVGLegend.orientation sb)
           then SVGLegend.visibleLegendWidth se else SVGLegend.visibleLegendWidth se)
    with (SVGLegend.visibleLegendWidth se) by (destruct (SVGLegend.isTopOrBottom (SVGLegend.orientation sb)); reflexivity).
  replace (if SVGLegend.isTopOrBottom (SVGLegend.orientation sb)
           then SVGLegend.visibleLegendHeight se else SVGLegend.visibleLegendHeight se)
    with (SVGLegend.visibleLegendHeight se) by (destruct (SVGLegend.isTopOrBottom (SVGLegend.orientation sb)); reflexivity).
  remember (SVGLegend.svg s1) as svg1 eqn:Esvg.
  remember (SVGLegend.group s1) as group1 eqn:Egroup.
  rewrite <- H. clear - Hso1.
  unfold SVGLegend.updateLayout. destruct se. fields. cbn in Hso1.
  destruct data; [destruct (SVGLegend.isTopOrBottom orientation && showPrimary)|];
    fields; rewrite Hso1; reflexivity.
Qed.

(** ** C7: a repeated draw changes nothing

    C7.  For the same data and parent viewport, a second [drawLegend] that
    starts from the instance the first one left (its orientation, its
    pagination state and the [lastCalculatedWidth] it stored) succeeds and
    leaves exactly that instance: the same viewport and svg box, the same
    title, visible items with their glyph and text positions, and navigation
    arrows bound to the group, the same start index and page width, and the
    same [lastCalculatedWidth]. *)
Theorem drawLegend_repeatable `{host : Host} (data : LegendData.t)
    (viewport : IViewport.t) (s s1 : SVGLegend.t) :
  SVGLegend.drawLegend data viewport s = Ok s1 ->
  SVGLegend.drawLegend data viewport s1 = Ok s1.
Proof.
  unfold SVGLegend.drawLegend. apply drawLegendInternal_idempotent.
Qed.

(** A legend on the right of a 400 by 200 parent: the first draw moves
    [lastCalculatedWidth] from 0 to the measured width, which
    [calculateViewport] reads in the second draw. *)
Lemma drawLegend_repeatable_witness :
  let d := FixedPitch.legendData FixedPitch.fiveLabels in
  let s := FixedPitch.legend LegendPosition.Right true in
  match SVGLegend.drawLegend (host := FixedPitch.host) d (IViewport.mk 200 400) s with
  | Ok s1 =>
      ~ SVGLegend.lastCalculatedWidth s1 == SVGLegend.lastCalculatedWidth s
      /\ SVGLegend.drawLegend (host := FixedPitch.host) d (IViewport.mk 200 400) s1 = Ok s1
  | TypeError => False
  end.
Proof.
  intros d s.
  destruct (SVGLegend.drawLegend (host := FixedPitch.host) d (IViewport.mk 200 400) s)
    as [s1|] eqn:E.
  - split.
    + vm_compute in E. injection E as <-. vm_compute. discriminate.
    + apply (drawLegend_repeatable (host := FixedPitch.host) d (IViewport.mk 200 400) s s1).
      exact E.
  - vm_compute in E. discriminate E.
Defined.

(** ** The caller's objects

    The store lemmas: a write lands in one object, a clone is a new object,
    and what [drawLegend] writes to are clones. *)

Lemma Store_set_length (h : list Store.object) (l : nat) (k : string) (v : Store.value) :
  length (Store.set h l k v) = length h.
Proof. unfold Store.set. apply length_alter. Qed.

Lemma Store_set_other (h : list Store.object) (l l' : nat) (k : string) (v : Store.value) :
  l <> l' -> Store.set h l k v !! l' = h !! l'.
Proof. intros Hne. unfold Store.set. apply list_lookup_alter_ne. exact Hne. Qed.

Lemma Store_set_own (h : list Store.object) (l : nat) (k : string) (v : Store.value) :
  (l < length h)%nat -> Store.own (Store.set h l k v) l k v.
Proof.
  intros Hl. apply lookup_lt_is_Some in Hl. destruct Hl as [o Ho].
  exists (Store.mkObject (Store.proto o) (<[k := v]> (Store.props o))). split.
  - unfold Store.set. rewrite list_lookup_alter.
    destruct (decide (l = l)) as [_|Hne]; [|contradiction].
    rewrite Ho. reflexivity.
  - cbn. apply lookup_insert_eq.
Qed.

Lemma Store_own_set (h : list Store.object) (l l' : nat) (k k' : string)
    (v v' : Store.value) :
  k <> k' -> Store.own h l k v -> Store.own (Store.set h l' k' v') l k v.
Proof.
  intros Hk (o & Ho & Hp).
  destruct (decide (l' = l)) as [->|Hne].
  - exists (Store.mkObject (Store.proto o) (<[k' := v']> (Store.props o))). split.
    + unfold Store.set. rewrite list_lookup_alter.
      destruct (decide (l = l)) as [_|Hn]; [|contradiction].
      rewrite Ho. reflexivity.
    + cbn. rewrite lookup_insert_ne by congruence. exact Hp.
  - exists o. split; [|exact Hp]. rewrite Store_set_other by exact Hne. exact Ho.
Qed.

Lemma Store_get_own (h : list Store.object) (l : nat) (k : string) (v : Store.value) :
  Store.own h l k v -> Store.get h l k = v.
Proof.
  intros (o & Ho & Hp). unfold Store.get. cbn [Store.get_fuel].
  rewrite Ho, Hp. reflexivity.
Qed.

Lemma sameBelow_refl (n : nat) (h : list Store.object) : Store.sameBelow n h h.
Proof. intros l _. reflexivity. Qed.

Lemma sameBelow_trans (n : nat) (h1 h2 h3 : list Store.object) :
  Store.sameBelow n h1 h2 -> Store.sameBelow n h2 h3 -> Store.sameBelow n h1 h3.
Proof. intros H12 H23 l Hl. rewrite (H23 l Hl). apply H12. exact Hl. Qed.

Lemma sameBelow_set (n : nat) (h : list Store.object) (l : nat) (k : string)
    (v : Store.value) :
  (n <= l)%nat -> Store.sameBelow n h (Store.set h l k v).
Proof. intros Hn l' Hl'. apply Store_set_other. lia. Qed.

Lemma sameBelow_writePoint (n : nat) (h : list Store.object) (l : nat)
    (dp : LegendDataPoint.t) :
  (n <= l)%nat -> Store.sameBelow n h (Store.writePoint h l dp).
Proof.
  intros Hn. unfold Store.writePoint.
  repeat (eapply sameBelow_trans; [|apply sameBelow_set; exact Hn]).
  apply sameBelow_refl.
Qed.

Lemma sameBelow_writePoints (n : nat) (ls : list nat) :
  Forall (fun l => (n <= l)%nat) ls ->
  forall (h : list Store.object) (dps : list LegendDataPoint.t),
    Store.sameBelow n h (Store.writePoints h ls dps).
Proof.
  induction 1 as [|l ls Hl _ IH]; intros h dps.
  - apply sameBelow_refl.
  - destruct dps as [|dp dps]; [apply sameBelow_refl|]. cbn [Store.writePoints].
    eapply sameBelow_trans; [apply sameBelow_writePoint; exact Hl | apply IH].
Qed.

Lemma own_writeTooltips (data : nat) (refs todo : list nat) :
  forall h : list Store.object,
    Store.own h data "dataPoints" (Store.VArray refs) ->
    Store.own
      (fold_left (fun h dataPoint =>
                    Store.set h dataPoint "tooltip" (Store.get h dataPoint "label"))
                 todo h)
      data "dataPoints" (Store.VArray refs).
Proof.
  induction todo as [|l todo IH]; intros h Hown; cbn [fold_left].
  - exact Hown.
  - apply IH. apply Store_own_set; [discriminate | exact Hown].
Qed.

Lemma sameBelow_writeTooltips (n : nat) (todo : list nat) :
  Forall (fun l => (n <= l)%nat) todo ->
  forall h : list Store.object,
    Store.sameBelow n h
      (fold_left (fun h dataPoint =>
                    Store.set h dataPoint "tooltip" (Store.get h dataPoint "label"))
                 todo h).
Proof.
  induction 1 as [|l todo Hl _ IH]; intros h; cbn [fold_left].
  - apply sameBelow_refl.
  - eapply sameBelow_trans; [apply sameBelow_set; exact Hl | apply IH].
Qed.

(** [setTooltipToLegendItems] writes to the points of the array only, and
    leaves the array in place. *)
Lemma setTooltipToLegendItems_frame (n data : nat) (refs : list nat)
    (h : list Store.object) :
  Store.own h data "dataPoints" (Store.VArray refs) ->
  Forall (fun l => (n <= l)%nat) refs ->
  Store.sameBelow n h (Store.setTooltipToLegendItems h data)
  /\ Store.own (Store.setTooltipToLegendItems h data) data "dataPoints" (Store.VArray refs).
Proof.
  intros Hown Hrefs. unfold Store.setTooltipToLegendItems, Store.getArray.
  rewrite (Store_get_own _ _ _ _ Hown). split.
  - apply sameBelow_writeTooltips. exact Hrefs.
  - apply own_writeTooltips. exact Hown.
Qed.

(** The clones of [inheritAll] are the next free locations. *)
Lemma inheritAll_fresh (ls : list nat) :
  forall (h h' : list Store.object) (cs : list nat),
    Store.inheritAll h ls = (h', cs) ->
    Store.sameBelow (length h) h h'
    /\ (length h <= length h')%nat
    /\ Forall (fun c => (length h <= c)%nat) cs.
Proof.
  induction ls as [|l ls IH]; intros h h' cs H; cbn in H.
  - injection H as <- <-. split; [apply sameBelow_refl|]. split; [lia|constructor].
  - destruct (Store.inheritAll (h ++ [Store.mkObject (Some l) ∅]) ls) as [h2 cs2] eqn:E.
    injection H as <- <-.
    destruct (IH _ _ _ E) as (Hs & Hlen & Hcs).
    rewrite length_app in Hs, Hlen, Hcs. cbn [length] in Hs, Hlen, Hcs.
    split; [|split].
    + intros l' Hl'. rewrite (Hs l') by lia. apply lookup_app_l. exact Hl'.
    + lia.
    + constructor; [lia|]. eapply Forall_impl; [exact Hcs|]. cbn. intros; lia.
Qed.

(** [drawLegendInternal] writes to the data object it is given and to the
    points of its array. *)
Lemma Store_drawLegendInternal_frame `{host : Host} (n data : nat) (refs : list nat)
    (h h' : list Store.object) (viewport : IViewport.t) (autoWidth : bool)
    (s s' : SVGLegend.t) :
  (n <= data)%nat ->
  Store.own h data "dataPoints" (Store.VArray refs) ->
  Forall (fun l => (n <= l)%nat) refs ->
  Store.drawLegendInternal h data viewport autoWidth s = Ok (h', s') ->
  Store.sameBelow n h h'.
Proof.
  intros Hd Hown Hrefs H. unfold Store.drawLegendInternal in H.
  destruct (SVGLegend.drawLegendInternal _ _ _ _) as [s2|]; [|discriminate H].
  injection H as <- <-.
  destruct (LegendPosition.eqb _ _).
  - apply sameBelow_set. exact Hd.
  - unfold Store.getArray. rewrite (Store_get_own _ _ _ _ Hown).
    apply sameBelow_writePoints. exact Hrefs.
Qed.

Lemma get_fuel_sameBelow (h h' : list Store.object) (k : string) :
  Store.closed h ->
  Store.sameBelow (length h) h h' ->
  forall (fuel l : nat), (l < length h)%nat ->
    Store.get_fuel fuel h' l k = Store.get_fuel fuel h l k.
Proof.
  intros Hc Hs. induction fuel as [|fuel IH]; intros l Hl; cbn [Store.get_fuel].
  - reflexivity.
  - rewrite (Hs l Hl). destruct (h !! l) as [o|] eqn:Ho; [|reflexivity].
    destruct (Store.props o !! k); [reflexivity|].
    destruct (Store.proto o) as [p|] eqn:Hp; [|reflexivity].
    apply IH. exact (Hc l o p Ho Hp).
Qed.

Lemma readPoint_sameBelow (h h' : list Store.object) (l : nat) :
  (forall k, Store.get h' l k = Store.get h l k) ->
  Store.readPoint h' l = Store.readPoint h l.
Proof.
  intros Hg. unfold Store.readPoint, Store.getString, Store.getPoint.
  rewrite !Hg. reflexivity.
Qed.

(** ** C8: the caller's data after [drawLegend]

    C8.  When [drawLegend] returns, every object that the caller's store
    held is as it was: the data object and each of its data points keep
    their own properties and their prototype, so every property read on
    them (label, measure, secondaryMeasure, glyphPosition, textPosition,
    tooltip, the [dataPoints] array itself) gives what it gave before, and
    the data they denote is the same.  What the instance holds afterwards
    is a new object. *)
Theorem drawLegend_keeps_caller_data `{host : Host} (h h' : list Store.object)
    (data c : nat) (viewport : IViewport.t) (s s' : SVGLegend.t) :
  Store.closed h ->
  Store.drawLegend h data viewport s = Ok (h', c, s') ->
  (length h <= c)%nat
  /\ (forall l, (l < length h)%nat -> h' !! l = h !! l)
  /\ (forall l k, (l < length h)%nat -> Store.get h' l k = Store.get h l k)
  /\ ((data < length h)%nat ->
      Forall (fun l => (l < length h)%nat) (Store.getArray h data "dataPoints") ->
      Store.readData h' data = Store.readData h data).
Proof.
  intros Hc H.
  assert (Hframe : (length h <= c)%nat /\ Store.sameBelow (length h) h h').
  { unfold Store.drawLegend, Store.inherit in H.
    set (h1 := h ++ [Store.mkObject (Some data) ∅]) in H.
    destruct (Store.inheritAll h1 (Store.getArray h1 data "dataPoints"))
      as [h2 cs] eqn:E.
    destruct (inheritAll_fresh _ _ _ _ E) as (Hs12 & Hlen & Hcs).
    assert (Hl1 : length h1 = S (length h))
      by (subst h1; rewrite length_app; cbn; lia).
    rewrite Hl1 in Hs12, Hlen, Hcs.
    set (h3 := Store.set h2 (length h) "dataPoints" (Store.VArray cs)) in H.
    assert (Hown : Store.own h3 (length h) "dataPoints" (Store.VArray cs))
      by (apply Store_set_own; lia).
    assert (Hcs' : Forall (fun l => (length h <= l)%nat) cs)
      by (eapply Forall_impl; [exact Hcs | cbn; intros; lia]).
    destruct (setTooltipToLegendItems_frame (length h) _ _ _ Hown Hcs') as (Hs34 & Hown4).
    destruct (Store.drawLegendInternal _ _ _ _ _) as [[h5 s5]|] eqn:D; [|discriminate H].
    injection H as <- <- <-. split; [lia|].
    pose proof (Store_drawLegendInternal_frame (length h) _ _ _ _ _ _ _ _
                  (Nat.le_refl _) Hown4 Hcs' D) as Hs45.
    intros l Hl. rewrite (Hs45 l Hl), (Hs34 l Hl). subst h3.
    rewrite Store_set_other by lia. rewrite (Hs12 l) by lia.
    subst h1. apply lookup_app_l. exact Hl. }
  destruct Hframe as (Hfresh & Hs).
  assert (Hget : forall l k, (l < length h)%nat -> Store.get h' l k = Store.get h l k).
  { intros l k Hl. unfold Store.get. apply get_fuel_sameBelow; assumption. }
  split; [exact Hfresh|]. split; [exact Hs|]. split; [exact Hget|].
  intros Hd Hrefs. unfold Store.readData, Store.getString, Store.getArray.
  rewrite !(Hget data) by exact Hd. f_equal.
  fold (Store.getArray h data "dataPoints").
  induction Hrefs as [|l ls Hl _ IH]; [reflexivity|]. cbn [map]. f_equal; [|exact IH].
  apply readPoint_sameBelow. intros k. apply Hget. exact Hl.
Qed.

Lemma sample_closed : Store.closed Store.sample.
Proof.
  intros l o p Hl Hp. unfold Store.sample in Hl.
  destruct l as [|[|[|l]]]; cbn [lookup list_lookup] in Hl;
    [injection Hl as <-; discriminate Hp ..|discriminate Hl].
Qed.

(** The caller's two points on a 100 pixel wide parent: the labels of the
    clones are cut, the caller's data reads as before. *)
Lemma drawLegend_keeps_caller_data_witness :
  match Store.drawLegend (host := FixedPitch.host) Store.sample 2 (IViewport.mk 50 100)
          (FixedPitch.legend LegendPosition.Top true) with
  | Ok (h', c, s') =>
      Store.readData h' 2 = Store.readData Store.sample 2
      /\ Store.getString h' 0 "label" = Some "aaaaaaaaaaaaaaaaaaaaaaaaaaaaaaaaaaaaaaaa"%string
      /\ map LegendDataPoint.label (LegendData.dataPoints (Store.readData h' c))
         = ["aaaaaaa..."; "bbbbbbb..."]%string
  | TypeError => False
  end.
Proof.
  destruct (Store.drawLegend (host := FixedPitch.host) Store.sample 2 (IViewport.mk 50 100)
              (FixedPitch.legend LegendPosition.Top true)) as [[[h' c] s']|] eqn:E.
  - destruct (drawLegend_keeps_caller_data (host := FixedPitch.host)
                Store.sample h' 2 c (IViewport.mk 50 100)
                (FixedPitch.legend LegendPosition.Top true) s' sample_closed E)
      as (_ & _ & Hget & Hread).
    split; [|split].
    + apply Hread; [cbn; lia | vm_compute; repeat constructor].
    + unfold Store.getString. rewrite Hget by (cbn; lia). reflexivity.
    + vm_compute in E. injection E as <- <- <-. vm_compute. reflexivity.
  - vm_compute in E. discriminate E.
Defined.

(** Without the clones the same layout writes through to the caller's
    points: [drawLegendInternal] on the caller's own data object cuts the
    label of the caller's first point. *)
Example drawLegendInternal_writes_through :
  match Store.drawLegendInternal (host := FixedPitch.host) Store.sample 2
          (IViewport.mk 50 100) true (FixedPitch.legend LegendPosition.Top true) with
  | Ok (h', _) => Store.getString h' 0 "label" = Some "aaaaaaa..."%string
  | TypeError => False
  end.
Proof. vm_compute. reflexivity. Qed.

(** ** The constructor *)

(** The constructor runs [calculateViewport] before any data is set.  For a
    placement on the left or on the right that method reads
    [this.data.fontSize], and [this.data] is [undefined]: the constructor
    throws.  For every other argument it returns an instance on the first
    page, placed where asked ([Top] for a falsy argument), visible unless
    the placement is [None]; its margins are 80/3 pixels high for a
    placement on top or at the bottom, and empty for [None]. *)
Theorem constructor_placements (legendPosition : option LegendPosition.t)
    (isScrollable : bool) :
  match legendPosition with
  | Some LegendPosition.Right | Some LegendPosition.Left
  | Some LegendPosition.RightCenter | Some LegendPosition.LeftCenter =>
      SVGLegend.constructor legendPosition isScrollable = TypeError
  | _ =>
      exists s,
        SVGLegend.constructor legendPosition isScrollable = Ok s
        /\ SVGLegend.getOrientation s = default LegendPosition.Top legendPosition
        /\ SVGLegend.isVisible s
           = match legendPosition with
             | Some LegendPosition.None => false
             | _ => true
             end
        /\ SVGLegend.isScrollable s = isScrollable
        /\ SVGLegend.legendDataStartIndex s = 0%Z
        /\ SVGLegend.arrowPosWindow s = 1%Z
        /\ SVGLegend.data s = None
        /\ OwnViewport.width (SVGLegend.getMargins s) = Some 0
        /\ OwnViewport.height (SVGLegend.getMargins s)
           == (if SVGLegend.isVisible s then 80 # 3 else 0)
        /\ Svg.attr_orientation (SVGLegend.svg s) = legendPosition
  end.
Proof.
  destruct legendPosition as [[]|]; try reflexivity;
    eexists; (split; [reflexivity|]); cbn -[Qeq]; repeat split; reflexivity.
Qed.

(** ** The steps of a draw *)

(** [calculateLayout] on data with points: the clamp, the title, the layout
    of the placement, and the points of the window written back. *)
Lemma calculateLayout_unfold `{host : Host} (autoWidth : bool) (s s' : SVGLegend.t)
    (d : LegendData.t) (lay : LegendLayout.t) :
  SVGLegend.data s = Some d ->
  LegendData.dataPoints d <> [] ->
  SVGLegend.calculateLayout autoWidth s = Ok (s', lay) ->
  let all := LegendData.dataPoints d in
  let s0 := normalized d s in
  let i := SVGLegend.legendDataStartIndex s0 in
  let title := SVGLegend.calculateTitleLayout d (LegendData.title d) s0 in
  (0 <= i < Z.of_nat (length all))%Z
  /\ exists s1 pts' title' nav' n,
       (if SVGLegend.isTopOrBottom (SVGLegend.orientation s)
        then SVGLegend.calculateHorizontalLayout d (skipn (Z.to_nat i) all) title
               (if SVGLegend.isScrollable s
                then SVGLegend.calculateHorizontalNavigationArrowsLayout title s0 else [])
               s0 = Ok (s1, pts', title', nav', n)
        else SVGLegend.calculateVerticalLayout d (skipn (Z.to_nat i) all) title
               (if SVGLegend.isScrollable s
                then SVGLegend.calculateVerticalNavigationArrowsLayout title s0 else [])
               autoWidth s0 = (s1, pts', title', nav', n))
       /\ s' = SVGLegend.set_data
                 (Some (LegendData.set_dataPoints (firstn (Z.to_nat i) all ++ pts') d)) s1
       /\ SVGLegend.legendDataStartIndex s1 = i
       /\ lay = LegendLayout.mk n title' nav'.
Proof.
  intros Hd Hne H all s0 i title.
  assert (Hlen : (0 < Z.of_nat (length all))%Z).
  { subst all. destruct (LegendData.dataPoints d); [congruence | cbn [length]; lia]. }
  pose proof (normalizePosition_range _ all
                (SVGLegend.set_legendFontSizeMargin
                   (PixelConverter.fromPointToPixel
                      (match LegendData.fontSize d with
                       | Some f => f
                       | None => SVGLegend.DefaultFontSizeInPt
                       end))
                   (PixelConverter.fromPointToPixel
                      (match LegendData.fontSize d with
                       | Some f => f
                       | None => SVGLegend.DefaultFontSizeInPt
                       end) - SVGLegend.DefaultTextMargin) s)) as Hc.
  cbv zeta in Hc. fold all in Hc. destruct Hc as [Hrange _].
  change (SVGLegend.normalizePosition all _) with s0 in Hrange. fold i in Hrange.
  assert (Hir : (0 <= i < Z.of_nat (length all))%Z) by lia.
  split; [exact Hir|].
  unfold SVGLegend.calculateLayout in H. rewrite Hd in H. fold all in H.
  destruct (Z.of_nat (length all) =? 0)%Z eqn:E0; [apply Z.eqb_eq in E0; lia|].
  cbv zeta in H.
  change (SVGLegend.normalizePosition all _) with s0 in H. fold i in H.
  destruct (i <? Z.of_nat (length all))%Z eqn:Elt; [|apply Z.ltb_ge in Elt; lia].
  unfold js_slice_from in H. rewrite js_index_in_range in H by lia.
  fold title in H.
  assert (Hos : SVGLegend.orientation s0 = SVGLegend.orientation s
                /\ SVGLegend.isScrollable s0 = SVGLegend.isScrollable s).
  { subst s0. unfold normalized. rewrite normalizePosition_frame.
    destruct s; split; reflexivity. }
  destruct Hos as [Hor Hsc]. rewrite Hor, Hsc in H.
  match type of H with bind ?r _ = _ => destruct r as [[[[[s1 pts1] title1] nav1] n1]|] eqn:R end;
    cbn [bind] in H; [|discriminate].
  injection H as <- <-.
  assert (Hi1 : SVGLegend.legendDataStartIndex s1 = i).
  { destruct (SVGLegend.isTopOrBottom (SVGLegend.orientation s)).
    - apply calculateHorizontalLayout_inv in R. destruct R as (_ & _ & w & U).
      pose proof (f_equal fst U) as U1. cbn [fst] in U1.
      pose proof (updateNavigationArrowLayout_frame
                    (if SVGLegend.isScrollable s
                     then SVGLegend.calculateHorizontalNavigationArrowsLayout title s0
                     else [])
                    (Z.of_nat (length (skipn (Z.to_nat i) all))) n1
                    (SVGLegend.set_visibleLegendWidth w s0)) as F.
      cbv zeta in F. rewrite U1 in F. rewrite F. subst i. destruct s0; reflexivity.
    - injection R as R. apply calculateVerticalLayout_inv in R.
      destruct R as (_ & _ & v' & lcw & vh & nav0 & _ & U).
      pose proof (f_equal fst U) as U1. cbn [fst] in U1.
      pose proof (updateNavigationArrowLayout_frame nav0
                    (Z.of_nat (length (skipn (Z.to_nat i) all))) n1
                    (SVGLegend.set_visibleLegendHeight vh
                       (SVGLegend.set_lastCalculatedWidth lcw
                          (SVGLegend.set_viewport v' s0)))) as F.
      cbv zeta in F. rewrite U1 in F. rewrite F. subst i. destruct s0; reflexivity. }
  exists s1, pts1, title1, nav1, n1.
  split.
  { destruct (SVGLegend.isTopOrBottom (SVGLegend.orientation s)).
    - exact R.
    - injection R as R. exact R. }
  split; [|split; [exact Hi1 | reflexivity]].
  rewrite Hi1. rewrite js_index_in_range by lia. reflexivity.
Qed.

(** [drawLegendInternal] on data with points and a placement other than
    [None]: the viewport, the layout, the group. *)
Lemma drawLegendInternal_steps `{host : Host} (data : LegendData.t)
    (viewport : IViewport.t) (autoWidth : bool) (s s' : SVGLegend.t) :
  SVGLegend.orientation s <> LegendPosition.None ->
  LegendData.dataPoints data <> [] ->
  SVGLegend.drawLegendInternal data viewport autoWidth s = Ok s' ->
  exists sb se lay,
    SVGLegend.calculateViewport (prepared data viewport s) = Ok sb
    /\ SVGLegend.calculateLayout autoWidth sb = Ok (se, lay)
    /\ s' = rendered se lay.
Proof.
  intros Ho Hne H.
  assert (Hlen : (Z.of_nat (length (LegendData.dataPoints data)) =? 0)%Z = false).
  { apply Z.eqb_neq. destruct (LegendData.dataPoints data); [congruence | cbn [length]; lia]. }
  unfold SVGLegend.drawLegendInternal in H. rewrite Hlen in H.
  assert (Eo : LegendPosition.eqb
                 (SVGLegend.getOrientation
                    (SVGLegend.set_data (Some data) (SVGLegend.set_parentViewport viewport s)))
                 LegendPosition.None = false).
  { destruct (LegendPosition.eqb _ _) eqn:E; [|reflexivity].
    apply LegendPosition_eqb_eq in E. destruct s. contradiction. }
  rewrite Eo in H.
  change (SVGLegend.set_showPrimary _ _) with (prepared data viewport s) in H.
  destruct (SVGLegend.calculateViewport (prepared data viewport s)) as [sb|] eqn:V;
    cbn [bind] in H; [|discriminate].
  destruct (SVGLegend.calculateLayout autoWidth sb) as [[se lay]|] eqn:L;
    cbn [bind] in H; [|discriminate].
  injection H as <-.
  exists sb, se, lay. split; [reflexivity|]. split; [exact L | reflexivity].
Qed.

(** What [calculateViewport] gives [drawLegendInternal]. *)
Lemma calculateViewport_prepared (data : LegendData.t) (viewport : IViewport.t)
    (s sb : SVGLegend.t) :
  SVGLegend.calculateViewport (prepared data viewport s) = Ok sb ->
  SVGLegend.data sb = Some data
  /\ SVGLegend.orientation sb = SVGLegend.orientation s
  /\ SVGLegend.isScrollable sb = SVGLegend.isScrollable s
  /\ SVGLegend.parentViewport sb = viewport
  /\ SVGLegend.showPrimary sb = negb (String.eqb (LegendData.primaryType data) "None")
  /\ SVGLegend.legendDataStartIndex sb = SVGLegend.legendDataStartIndex s
  /\ SVGLegend.arrowPosWindow sb = SVGLegend.arrowPosWindow s
  /\ SVGLegend.lastCalculatedWidth sb = SVGLegend.lastCalculatedWidth s
  /\ SVGLegend.svg sb = SVGLegend.svg s
  /\ (SVGLegend.isTopOrBottom (SVGLegend.orientation s) = true ->
      SVGLegend.viewport sb
      = OwnViewport.mk
          (SVGLegend.TopLegendHeight
           + (PixelConverter.fromPointToPixel (SVGLegend.fontSize_or_default (Some data))
              - SVGLegend.DefaultFontSizeInPt))
          (Some 0))
  /\ (SVGLegend.isTopOrBottom (SVGLegend.orientation s) = false ->
      OwnViewport.height (SVGLegend.viewport sb) = 0).
Proof.
  intros V. pose proof (calculateViewport_frame _ _ V) as Vf.
  rewrite Vf. unfold prepared. destruct s. fields.
  repeat (split; [reflexivity|]).
  unfold SVGLegend.calculateViewport, prepared in V. fields.
  cbn [SVGLegend.orientation SVGLegend.data] in V.
  unfold SVGLegend.fontSize_or_default.
  split; intros Hz; destruct orientation; try discriminate Hz;
    cbn in V; try (destruct (LegendData.fontSize data));
    injection V as <-; reflexivity.
Qed.

(** ** The item loops, item by item *)

Lemma for_until_item {A T : Type} (body : T -> A -> A * T) (stop : T -> bool)
    (l : list A) :
  forall itr acc l' acc' broke (k : nat) (a : A),
    SVGLegend.for_until body stop l itr acc = (l', acc', broke) ->
    l !! k = Some a ->
    match broke with
    | Some n => (itr + Z.of_nat k <= n)%Z
    | None => True
    end ->
    l' !! k = Some (fst (body (accBefore body l k acc) a)).
Proof.
  induction l as [|a0 rest IH]; intros itr acc l' acc' broke k a H Hk Hb.
  - discriminate Hk.
  - cbn [SVGLegend.for_until] in H. destruct (body acc a0) as [a0' acc0] eqn:B.
    destruct (stop acc0) eqn:St.
    + injection H as <- <- <-. destruct k as [|k]; [|lia].
      injection Hk as <-. cbn. rewrite B. reflexivity.
    + destruct (SVGLegend.for_until body stop rest (itr + 1)%Z acc0)
        as [[rest' acc''] n] eqn:R.
      injection H as <- <- <-. destruct k as [|k].
      * injection Hk as <-. cbn. rewrite B. reflexivity.
      * cbn [accBefore]. rewrite B. cbn [snd].
        change ((a0' :: rest') !! S k) with (rest' !! k).
        apply (IH _ _ _ _ _ _ _ R Hk). destruct n; [lia | exact I].
Qed.

(** The loop goes on after an item only if the limit is not passed. *)
Lemma for_until_not_stopped {A T : Type} (body : T -> A -> A * T) (stop : T -> bool)
    (l : list A) :
  forall itr acc l' acc' broke (k : nat),
    SVGLegend.for_until body stop l itr acc = (l', acc', broke) ->
    (k < length l)%nat ->
    match broke with
    | Some n => (itr + Z.of_nat k < n)%Z
    | None => True
    end ->
    stop (accBefore body l (S k) acc) = false.
Proof.
  induction l as [|a0 rest IH]; intros itr acc l' acc' broke k H Hk Hb.
  - cbn in Hk. lia.
  - cbn [SVGLegend.for_until] in H. destruct (body acc a0) as [a0' acc0] eqn:B.
    destruct (stop acc0) eqn:St.
    + injection H as <- <- <-. lia.
    + destruct (SVGLegend.for_until body stop rest (itr + 1)%Z acc0)
        as [[rest' acc''] n] eqn:R.
      injection H as <- <- <-. cbn [accBefore]. rewrite B. cbn [snd].
      destruct k as [|k].
      * destruct rest; exact St.
      * apply (IH _ _ _ _ _ _ R); [cbn in Hk; lia|]. destruct n; [lia | exact I].
Qed.

(** The accumulator at the end: past the limit if the loop left early. *)
Lemma for_until_end {A T : Type} (body : T -> A -> A * T) (stop : T -> bool)
    (l : list A) :
  forall itr acc l' acc' broke,
    SVGLegend.for_until body stop l itr acc = (l', acc', broke) ->
    match broke with
    | Some _ => stop acc' = true
    | None => acc' = accBefore body l (length l) acc
    end.
Proof.
  induction l as [|a0 rest IH]; intros itr acc l' acc' broke H.
  - injection H as <- <- <-. reflexivity.
  - cbn [SVGLegend.for_until] in H. destruct (body acc a0) as [a0' acc0] eqn:B.
    destruct (stop acc0) eqn:St.
    + injection H as <- <- <-. exact St.
    + destruct (SVGLegend.for_until body stop rest (itr + 1)%Z acc0)
        as [[rest' acc''] n] eqn:R.
      injection H as <- <- <-. cbn [accBefore length]. rewrite B. cbn [snd].
      apply (IH _ _ _ _ _ R).
Qed.

(** What the body leaves alone, the loop leaves alone. *)
Lemma for_until_map {A T B : Type} (f : A -> B) (body : T -> A -> A * T)
    (stop : T -> bool) (l : list A) :
  (forall acc a, f (fst (body acc a)) = f a) ->
  forall itr acc l' acc' broke,
    SVGLegend.for_until body stop l itr acc = (l', acc', broke) ->
    map f l' = map f l.
Proof.
  intros Hf. induction l as [|a0 rest IH]; intros itr acc l' acc' broke H.
  - injection H as <- <- <-. reflexivity.
  - cbn [SVGLegend.for_until] in H. pose proof (Hf acc a0) as Hf0.
    destruct (body acc a0) as [a0' acc0] eqn:Eb. cbn [fst] in Hf0.
    destruct (stop acc0) eqn:St.
    + injection H as <- <- <-. cbn [map]. rewrite Hf0. reflexivity.
    + destruct (SVGLegend.for_until body stop rest (itr + 1)%Z acc0)
        as [[rest' acc''] n] eqn:R.
      injection H as <- <- <-. cbn [map]. rewrite Hf0. f_equal.
      apply (IH _ _ _ _ _ R).
Qed.

Lemma calculateHorizontalLayout_loop `{host : Host} (d : LegendData.t)
    (pts : list LegendDataPoint.t) (title : option TitleLayout.t)
    (nav : list NavigationArrow.t) (s s' : SVGLegend.t)
    (pts' : list LegendDataPoint.t) (title' : option TitleLayout.t)
    (nav' : list NavigationArrow.t) (n : Z) :
  SVGLegend.calculateHorizontalLayout d pts title nav s = Ok (s', pts', title', nav', n) ->
  exists w broke,
    SVGLegend.for_until (horizontalBody d pts title s)
      (fun occupiedWidth =>
         Qgtb occupiedWidth (IViewport.width (SVGLegend.parentViewport s)))
      pts 0%Z (horizontalStart title s) = (pts', w, broke)
    /\ n = match broke with
           | Some itr => itr
           | None => Z.of_nat (length pts)
           end
    /\ SVGLegend.updateNavigationArrowLayout nav (Z.of_nat (length pts)) n
         (SVGLegend.set_visibleLegendWidth w s) = (s', nav')
    /\ title' = match title with
                | Some tl =>
                    Some (TitleLayout.mk (TitleLayout.x tl) (horizontalTextShift pts s)
                            (TitleLayout.text tl) (TitleLayout.width tl)
                            (TitleLayout.height tl))
                | None => None
                end.
Proof.
  intros H. unfold SVGLegend.calculateHorizontalLayout in H.
  match type of H with bind ?r _ = _ => destruct r end; cbn [bind] in H; [|discriminate].
  cbv zeta in H.
  change (SVGLegend.for_until _ _ pts 0%Z _)
    with (SVGLegend.for_until (horizontalBody d pts title s)
            (fun occupiedWidth =>
               Qgtb occupiedWidth (IViewport.width (SVGLegend.parentViewport s)))
            pts 0%Z (horizontalStart title s)) in H.
  destruct (SVGLegend.for_until (horizontalBody d pts title s) _ pts 0%Z _)
    as [[pts1 w] broke] eqn:F.
  match type of H with
  | (let '(_, _) := ?u in _) = _ => destruct u as [s1 nav1] eqn:U
  end.
  injection H as <- <- <- <- <-.
  exists w, broke. repeat split; try reflexivity. exact U.
Qed.

Lemma calculateVerticalLayout_loop `{host : Host} (d : LegendData.t)
    (pts : list LegendDataPoint.t) (title : option TitleLayout.t)
    (nav : list NavigationArrow.t) (autoWidth : bool) (s s' : SVGLegend.t)
    (pts' : list LegendDataPoint.t) (title' : option TitleLayout.t)
    (nav' : list NavigationArrow.t) (n : Z) :
  SVGLegend.calculateVerticalLayout d pts title nav autoWidth s = (s', pts', title', nav', n) ->
  exists tot used broke,
    SVGLegend.for_until (verticalBody d pts autoWidth s)
      (fun acc => Qgtb (fst acc) (IViewport.height (SVGLegend.parentViewport s)))
      pts 0%Z (verticalStart title s) = (pts', (tot, used), broke)
    /\ n = match broke with
           | Some itr => itr
           | None => Z.of_nat (length pts)
           end
    /\ let w := verticalWidth pts autoWidth used s in
       SVGLegend.updateNavigationArrowLayout
         (map (NavigationArrow.set_x (w / 2)) nav) (Z.of_nat (length pts)) n
         (SVGLegend.set_visibleLegendHeight (tot - (20 + verticalFontFactor s))
            (if autoWidth
             then SVGLegend.set_lastCalculatedWidth w
                    (SVGLegend.set_viewport
                       (OwnViewport.mk (OwnViewport.height (SVGLegend.viewport s)) (Some w)) s)
             else SVGLegend.set_viewport
                    (OwnViewport.mk (OwnViewport.height (SVGLegend.viewport s)) (Some w)) s))
       = (s', nav')
       /\ title' = match title with
                   | Some tl =>
                       Some (TitleLayout.mk SVGLegend.TextAndIconPadding
                               (15 + verticalFontFactor s * (13 # 10))
                               (getTailoredTextOrDefault
                                  (SVGLegend.getTextProperties true (LegendData.title d)
                                     (LegendData.fontSize d)) w)
                               (TitleLayout.width tl) (TitleLayout.height tl))
                   | None => None
                   end.
Proof.
  intros H. unfold SVGLegend.calculateVerticalLayout in H. cbv zeta in H.
  change (SVGLegend.for_until _ _ pts 0%Z _)
    with (SVGLegend.for_until (verticalBody d pts autoWidth s)
            (fun acc => Qgtb (fst acc) (IViewport.height (SVGLegend.parentViewport s)))
            pts 0%Z (verticalStart title s)) in H.
  destruct (SVGLegend.for_until (verticalBody d pts autoWidth s) _ pts 0%Z _)
    as [[pts1 [tot used]] broke] eqn:F.
  match type of H with
  | (let '(_, _) := ?u in _) = _ => destruct u as [s1 nav1] eqn:U
  end.
  injection H as <- <- <- <- <-.
  exists tot, used, broke. split; [reflexivity|]. split; [reflexivity|].
  cbv zeta. split.
  - rewrite <- U. unfold verticalWidth, verticalBudget, verticalIconShift.
    destruct autoWidth; [destruct (Qltb _ _)|]; destruct s; reflexivity.
  - destruct title; [|reflexivity]. unfold verticalWidth, verticalBudget, verticalIconShift.
    destruct autoWidth; [destruct (Qltb _ _)|]; destruct s; reflexivity.
Qed.

(** What the rendering step keeps of the instance, and what it writes. *)
Lemma rendered_frame (s : SVGLegend.t) (lay : LegendLayout.t) :
  let s' := rendered s lay in
  SVGLegend.orientation s' = SVGLegend.orientation s
  /\ SVGLegend.parentViewport s' = SVGLegend.parentViewport s
  /\ SVGLegend.data s' = SVGLegend.data s
  /\ SVGLegend.legendDataStartIndex s' = SVGLegend.legendDataStartIndex s
  /\ SVGLegend.arrowPosWindow s' = SVGLegend.arrowPosWindow s
  /\ SVGLegend.isScrollable s' = SVGLegend.isScrollable s
  /\ SVGLegend.showPrimary s' = SVGLegend.showPrimary s
  /\ SVGLegend.lastCalculatedWidth s' = SVGLegend.lastCalculatedWidth s
  /\ SVGLegend.visibleLegendWidth s' = SVGLegend.visibleLegendWidth s
  /\ SVGLegend.visibleLegendHeight s' = SVGLegend.visibleLegendHeight s
  /\ SVGLegend.legendFontSizeMarginDifference s' = SVGLegend.legendFontSizeMarginDifference s
  /\ Group.navArrows (SVGLegend.group s') = LegendLayout.navigationArrows lay
  /\ Group.legendTitle (SVGLegend.group s')
     = match LegendLayout.title lay with
       | Some titleLayout => [titleLayout]
       | None => []
       end
  /\ Group.legendItems (SVGLegend.group s')
     = match SVGLegend.data s with
       | Some d =>
           js_slice (LegendData.dataPoints d) (SVGLegend.legendDataStartIndex s)
             (SVGLegend.legendDataStartIndex s + LegendLayout.numberOfItems lay)
       | None => []
       end
  /\ SVGLegend.viewport s'
     = match SVGLegend.data s with
       | Some _ =>
           if SVGLegend.isTopOrBottom (SVGLegend.orientation s) && SVGLegend.showPrimary s
           then OwnViewport.mk
                  (OwnViewport.height (SVGLegend.viewport s)
                   + 3 * SVGLegend.legendFontSizeMarginDifference s + 20)
                  (OwnViewport.width (SVGLegend.viewport s))
           else SVGLegend.viewport s
       | None => SVGLegend.viewport s
       end.
Proof.
  unfold rendered, SVGLegend.updateLayout. destruct s. fields.
  destruct data; [destruct (SVGLegend.isTopOrBottom orientation && showPrimary)|];
    repeat split; reflexivity.
Qed.

(** What the item layouts leave on the instance. *)
Lemma updateNavigationArrowLayout_fields (nav nav' : list NavigationArrow.t) (rem n : Z)
    (s s' : SVGLegend.t) :
  SVGLegend.updateNavigationArrowLayout nav rem n s = (s', nav') ->
  SVGLegend.orientation s' = SVGLegend.orientation s
  /\ SVGLegend.viewport s' = SVGLegend.viewport s
  /\ SVGLegend.parentViewport s' = SVGLegend.parentViewport s
  /\ SVGLegend.showPrimary s' = SVGLegend.showPrimary s
  /\ SVGLegend.lastCalculatedWidth s' = SVGLegend.lastCalculatedWidth s
  /\ SVGLegend.visibleLegendWidth s' = SVGLegend.visibleLegendWidth s
  /\ SVGLegend.visibleLegendHeight s' = SVGLegend.visibleLegendHeight s
  /\ SVGLegend.legendFontSizeMarginDifference s' = SVGLegend.legendFontSizeMarginDifference s
  /\ SVGLegend.legendDataStartIndex s' = SVGLegend.legendDataStartIndex s
  /\ SVGLegend.isScrollable s' = SVGLegend.isScrollable s.
Proof.
  intros U. pose proof (updateNavigationArrowLayout_frame nav rem n s) as F.
  cbv zeta in F. rewrite U in F. cbn [fst] in F. rewrite F.
  destruct s. repeat split; reflexivity.
Qed.

(** What [calculateLayout] starts the item layouts with. *)
Lemma normalized_fields (d : LegendData.t) (s : SVGLegend.t) :
  let s0 := normalized d s in
  SVGLegend.orientation s0 = SVGLegend.orientation s
  /\ SVGLegend.viewport s0 = SVGLegend.viewport s
  /\ SVGLegend.parentViewport s0 = SVGLegend.parentViewport s
  /\ SVGLegend.showPrimary s0 = SVGLegend.showPrimary s
  /\ SVGLegend.isScrollable s0 = SVGLegend.isScrollable s
  /\ SVGLegend.lastCalculatedWidth s0 = SVGLegend.lastCalculatedWidth s
  /\ SVGLegend.svg s0 = SVGLegend.svg s
  /\ SVGLegend.arrowPosWindow s0 = SVGLegend.arrowPosWindow s
  /\ SVGLegend.legendFontSizeMarginDifference s0
     = PixelConverter.fromPointToPixel
         (match LegendData.fontSize d with
          | Some f => f
          | None => SVGLegend.DefaultFontSizeInPt
          end) - SVGLegend.DefaultTextMargin
  /\ SVGLegend.legendFontSizeMarginValue s0
     = PixelConverter.fromPointToPixel
         (match LegendData.fontSize d with
          | Some f => f
          | None => SVGLegend.DefaultFontSizeInPt
          end).
Proof.
  unfold normalized. cbv zeta. rewrite normalizePosition_frame.
  destruct s. repeat split; reflexivity.
Qed.

(** A draw of data with points, on top or at the bottom. *)
Lemma drawLegendInternal_horizontal `{host : Host} (data : LegendData.t)
    (viewport : IViewport.t) (autoWidth : bool) (s s' : SVGLegend.t) :
  SVGLegend.isTopOrBottom (SVGLegend.orientation s) = true ->
  LegendData.dataPoints data <> [] ->
  SVGLegend.drawLegendInternal data viewport autoWidth s = Ok s' ->
  exists sb s1 pts' title' nav' n,
    SVGLegend.calculateViewport (prepared data viewport s) = Ok sb
    /\ let all := LegendData.dataPoints data in
       let s0 := normalized data sb in
       let i := SVGLegend.legendDataStartIndex s0 in
       let title := SVGLegend.calculateTitleLayout data (LegendData.title data) s0 in
       (0 <= i < Z.of_nat (length all))%Z
       /\ SVGLegend.calculateHorizontalLayout data (skipn (Z.to_nat i) all) title
            (if SVGLegend.isScrollable s
             then SVGLegend.calculateHorizontalNavigationArrowsLayout title s0 else [])
            s0 = Ok (s1, pts', title', nav', n)
       /\ SVGLegend.legendDataStartIndex s1 = i
       /\ s' = rendered
                 (SVGLegend.set_data
                    (Some (LegendData.set_dataPoints (firstn (Z.to_nat i) all ++ pts') data))
                    s1)
                 (LegendLayout.mk n title' nav').
Proof.
  intros Hz Hne H.
  assert (Ho : SVGLegend.orientation s <> LegendPosition.None)
    by (intros E; rewrite E in Hz; discriminate Hz).
  destruct (drawLegendInternal_steps _ _ _ _ _ Ho Hne H) as (sb & se & lay & V & L & ->).
  destruct (calculateViewport_prepared _ _ _ _ V)
    as (Hd & Hor & Hsc & _).
  pose proof (calculateLayout_unfold autoWidth sb se data lay Hd Hne L) as U.
  cbv zeta in U. destruct U as (Hi & s1 & pts' & title' & nav' & n & R & -> & Hi1 & ->).
  rewrite Hor, Hz, Hsc in R.
  exists sb, s1, pts', title', nav', n. split; [exact V|]. cbv zeta.
  split; [exact Hi|]. split; [exact R|]. split; [exact Hi1 | reflexivity].
Qed.

(** A draw of data with points, on the left or on the right. *)
Lemma drawLegendInternal_vertical `{host : Host} (data : LegendData.t)
    (viewport : IViewport.t) (autoWidth : bool) (s s' : SVGLegend.t) :
  SVGLegend.isTopOrBottom (SVGLegend.orientation s) = false ->
  SVGLegend.orientation s <> LegendPosition.None ->
  LegendData.dataPoints data <> [] ->
  SVGLegend.drawLegendInternal data viewport autoWidth s = Ok s' ->
  exists sb s1 pts' title' nav' n,
    SVGLegend.calculateViewport (prepared data viewport s) = Ok sb
    /\ let all := LegendData.dataPoints data in
       let s0 := normalized data sb in
       let i := SVGLegend.legendDataStartIndex s0 in
       let title := SVGLegend.calculateTitleLayout data (LegendData.title data) s0 in
       (0 <= i < Z.of_nat (length all))%Z
       /\ SVGLegend.calculateVerticalLayout data (skipn (Z.to_nat i) all) title
            (if SVGLegend.isScrollable s
             then SVGLegend.calculateVerticalNavigationArrowsLayout title s0 else [])
            autoWidth s0 = (s1, pts', title', nav', n)
       /\ SVGLegend.legendDataStartIndex s1 = i
       /\ s' = rendered
                 (SVGLegend.set_data
                    (Some (LegendData.set_dataPoints (firstn (Z.to_nat i) all ++ pts') data))
                    s1)
                 (LegendLayout.mk n title' nav').
Proof.
  intros Hz Ho Hne H.
  destruct (drawLegendInternal_steps _ _ _ _ _ Ho Hne H) as (sb & se & lay & V & L & ->).
  destruct (calculateViewport_prepared _ _ _ _ V)
    as (Hd & Hor & Hsc & _).
  pose proof (calculateLayout_unfold autoWidth sb se data lay Hd Hne L) as U.
  cbv zeta in U. destruct U as (Hi & s1 & pts' & title' & nav' & n & R & -> & Hi1 & ->).
  rewrite Hor, Hz, Hsc in R.
  exists sb, s1, pts', title', nav', n. split; [exact V|]. cbv zeta.
  split; [exact Hi|]. split; [exact R|]. split; [exact Hi1 | reflexivity].
Qed.

(** [drawLegend] is [drawLegendInternal] on the copy that carries the
    tooltips, with the width computed anew. *)
Lemma drawLegend_unfold `{host : Host} (data : LegendData.t) (viewport : IViewport.t)
    (s : SVGLegend.t) :
  SVGLegend.drawLegend data viewport s
  = SVGLegend.drawLegendInternal (SVGLegend.setTooltipToLegendItems data) viewport true s.
Proof.
  unfold SVGLegend.drawLegend. cbv zeta. rewrite map_id.
  destruct data; reflexivity.
Qed.

Lemma setTooltipToLegendItems_fields (data : LegendData.t) :
  let d := SVGLegend.setTooltipToLegendItems data in
  length (LegendData.dataPoints d) = length (LegendData.dataPoints data)
  /\ LegendData.title d = LegendData.title data
  /\ LegendData.fontSize d = LegendData.fontSize data
  /\ LegendData.primaryType d = LegendData.primaryType data
  /\ (LegendData.dataPoints data <> [] -> LegendData.dataPoints d <> []).
Proof.
  unfold SVGLegend.setTooltipToLegendItems. cbn.
  rewrite length_map. repeat split; try reflexivity.
  destruct (LegendData.dataPoints data); [congruence | discriminate].
Qed.

(** ** The margins of a drawn legend *)

Lemma Math_ceil_le (a b : Q) : a <= b -> Math_ceil a <= Math_ceil b.
Proof.
  intros H. unfold Math_ceil. rewrite <- Zle_Qle. apply Qceiling_resp_le. exact H.
Qed.

Lemma verticalWidth_bound `{host : Host} (pts : list LegendDataPoint.t) (used : Q)
    (s : SVGLegend.t) :
  verticalWidth pts true used s
  <= Math_ceil (IViewport.width (SVGLegend.parentViewport s) * SVGLegend.LegendMaxWidthFactor)
  /\ exists z : Z, verticalWidth pts true used s = inject_Z z.
Proof.
  unfold verticalWidth. destruct (Qltb used (verticalBudget pts true s)) eqn:E.
  - split; [|eexists; reflexivity]. apply Math_ceil_le. apply Qltb_lt in E.
    unfold verticalBudget, verticalIconShift in *. cbv zeta in E.
    unfold SVGLegend.LegendEdgeMariginWidth in *. lra.
  - split; [apply Qle_refl | eexists; reflexivity].
Qed.

(** The margins of a legend drawn on the left or on the right of data with
    points: no height, and a whole number of pixels of width, which is the
    stored [lastCalculatedWidth] and at most three tenths of the width of
    the parent, rounded up. *)
Theorem drawLegend_vertical_margins `{host : Host} (data : LegendData.t)
    (viewport : IViewport.t) (s s' : SVGLegend.t) :
  SVGLegend.isTopOrBottom (SVGLegend.orientation s) = false ->
  SVGLegend.orientation s <> LegendPosition.None ->
  LegendData.dataPoints data <> [] ->
  SVGLegend.drawLegend data viewport s = Ok s' ->
  exists w : Z,
    SVGLegend.getMargins s' = OwnViewport.mk 0 (Some (inject_Z w))
    /\ SVGLegend.lastCalculatedWidth s' = inject_Z w
    /\ inject_Z w <= Math_ceil (IViewport.width viewport * (3 # 10)).
Proof.
  intros Hz Ho Hne H. rewrite drawLegend_unfold in H.
  destruct (setTooltipToLegendItems_fields data) as (_ & _ & _ & _ & Hne').
  specialize (Hne' Hne).
  destruct (drawLegendInternal_vertical _ _ _ _ _ Hz Ho Hne' H)
    as (sb & s1 & pts' & title' & nav' & n & V & R).
  cbv zeta in R. destruct R as (_ & R & _ & ->).
  destruct (calculateViewport_prepared _ _ _ _ V)
    as (_ & Hor & _ & Hpv & _ & _ & _ & _ & _ & _ & Hvh).
  specialize (Hvh Hz).
  set (d := SVGLegend.setTooltipToLegendItems data) in *.
  destruct (normalized_fields d sb) as (Hor0 & Hv0 & Hpv0 & _).
  apply calculateVerticalLayout_loop in R.
  destruct R as (tot & used & broke & _ & _ & R). cbv zeta in R. destruct R as (U & _).
  apply updateNavigationArrowLayout_fields in U.
  destruct U as (Ho1 & Hv1 & _ & _ & Hl1 & _).
  set (pts := skipn _ _) in *.
  destruct (verticalWidth_bound pts used (normalized d sb)) as (Hb & z & Hw).
  rewrite Hpv0, Hpv in Hb.
  exists z. unfold SVGLegend.getMargins.
  destruct (rendered_frame
              (SVGLegend.set_data
                 (Some (LegendData.set_dataPoints
                          (firstn (Z.to_nat (SVGLegend.legendDataStartIndex (normalized d sb)))
                             (LegendData.dataPoints d) ++ pts') d)) s1)
              (LegendLayout.mk n title' nav'))
    as (_ & _ & _ & _ & _ & _ & _ & Hlcw & _ & _ & _ & _ & _ & _ & Hvp).
  rewrite Hvp, Hlcw. clear Hvp Hlcw.
  replace (SVGLegend.orientation (SVGLegend.set_data _ s1))
    with (SVGLegend.orientation s) by (destruct s1; cbn in *; congruence).
  rewrite Hz. cbn [andb SVGLegend.data SVGLegend.set_data].
  replace (SVGLegend.viewport (SVGLegend.set_data _ s1))
    with (SVGLegend.viewport s1) by (destruct s1; reflexivity).
  replace (SVGLegend.lastCalculatedWidth (SVGLegend.set_data _ s1))
    with (SVGLegend.lastCalculatedWidth s1) by (destruct s1; reflexivity).
  rewrite Hv1, Hl1. destruct (normalized d sb) eqn:En. fields.
  cbn [OwnViewport.height] in *. rewrite Hv0 in *. rewrite Hvh.
  rewrite Hw. split; [reflexivity|]. split; [reflexivity|].
  rewrite <- Hw. exact Hb.
Qed.

(** Five labels on the right of a parent 400 pixels wide: the legend is
    120 pixels wide, three tenths of the parent. *)
Lemma drawLegend_vertical_margins_witness :
  match SVGLegend.drawLegend (host := FixedPitch.host)
          (FixedPitch.legendData FixedPitch.fiveLabels) (IViewport.mk 200 400)
          (FixedPitch.legend LegendPosition.Right true) with
  | Ok s' =>
      SVGLegend.getMargins s' = OwnViewport.mk 0 (Some 120)
      /\ exists w : Z,
           SVGLegend.getMargins s' = OwnViewport.mk 0 (Some (inject_Z w))
           /\ SVGLegend.lastCalculatedWidth s' = inject_Z w
           /\ inject_Z w <= Math_ceil (400 * (3 # 10))
  | TypeError => False
  end.
Proof.
  destruct (SVGLegend.drawLegend (host := FixedPitch.host)
              (FixedPitch.legendData FixedPitch.fiveLabels) (IViewport.mk 200 400)
              (FixedPitch.legend LegendPosition.Right true)) as [s'|] eqn:E.
  - split.
    + vm_compute in E. injection E as <-. reflexivity.
    + apply (drawLegend_vertical_margins (host := FixedPitch.host)
               (FixedPitch.legendData FixedPitch.fiveLabels) (IViewport.mk 200 400)
               (FixedPitch.legend LegendPosition.Right true) s');
        [reflexivity | discriminate | discriminate | exact E].
  - vm_compute in E. discriminate E.
Defined.

(** The margins of a legend drawn on top or at the bottom of data with
    points: no width, and a height that depends on the font size and on
    whether the primary measure is shown, not on the points or on the
    parent.  A font size of 0 counts as the default 8 in the base height
    and as 0 in the room of the measures. *)
Theorem drawLegend_horizontal_margins `{host : Host} (data : LegendData.t)
    (viewport : IViewport.t) (s s' : SVGLegend.t) :
  SVGLegend.isTopOrBottom (SVGLegend.orientation s) = true ->
  LegendData.dataPoints data <> [] ->
  SVGLegend.drawLegend data viewport s = Ok s' ->
  let px := PixelConverter.fromPointToPixel in
  let base := 24 + (px (SVGLegend.fontSize_or_default (Some data)) - 8) in
  let difference := px (default 8 (LegendData.fontSize data)) - px 8 in
  OwnViewport.width (SVGLegend.getMargins s') = Some 0
  /\ OwnViewport.height (SVGLegend.getMargins s')
     == (if String.eqb (LegendData.primaryType data) "None"
         then base
         else base + 3 * difference + 20).
Proof.
  intros Hz Hne H px base difference. rewrite drawLegend_unfold in H.
  destruct (setTooltipToLegendItems_fields data) as (_ & _ & Hfs & Hpt & Hne').
  specialize (Hne' Hne). cbv zeta in Hfs, Hpt.
  destruct (drawLegendInternal_horizontal _ _ _ _ _ Hz Hne' H)
    as (sb & s1 & pts' & title' & nav' & n & V & R).
  cbv zeta in R. destruct R as (_ & R & _ & ->).
  destruct (calculateViewport_prepared _ _ _ _ V)
    as (_ & Hor & _ & _ & Hsp & _ & _ & _ & _ & Hvp & _).
  specialize (Hvp Hz).
  set (d := SVGLegend.setTooltipToLegendItems data) in *.
  destruct (normalized_fields d sb) as (Hor0 & Hv0 & _ & Hsp0 & _ & _ & _ & _ & Hdf & _).
  apply calculateHorizontalLayout_loop in R.
  destruct R as (w & broke & _ & _ & U & _).
  apply updateNavigationArrowLayout_fields in U.
  destruct U as (Ho1 & Hv1 & _ & Hsp1 & _ & _ & _ & Hd1 & _).
  unfold SVGLegend.getMargins.
  destruct (rendered_frame
              (SVGLegend.set_data
                 (Some (LegendData.set_dataPoints
                          (firstn (Z.to_nat (SVGLegend.legendDataStartIndex (normalized d sb)))
                             (LegendData.dataPoints d) ++ pts') d)) s1)
              (LegendLayout.mk n title' nav'))
    as (_ & _ & _ & _ & _ & _ & _ & _ & _ & _ & _ & _ & _ & _ & Hv).
  rewrite Hv. clear Hv.
  replace (SVGLegend.orientation (SVGLegend.set_data _ s1))
    with (SVGLegend.orientation s)
    by (destruct s1; cbn in *; destruct (normalized d sb); cbn in *; congruence).
  replace (SVGLegend.showPrimary (SVGLegend.set_data _ s1))
    with (negb (String.eqb (LegendData.primaryType data) "None"))
    by (destruct s1; cbn in *; destruct (normalized d sb); cbn in *; congruence).
  replace (SVGLegend.viewport (SVGLegend.set_data _ s1))
    with (SVGLegend.viewport sb)
    by (destruct s1; cbn in *; destruct (normalized d sb); cbn in *; congruence).
  replace (SVGLegend.legendFontSizeMarginDifference (SVGLegend.set_data _ s1))
    with (px (default 8 (LegendData.fontSize data)) - px 8).
  2:{ symmetry. transitivity (SVGLegend.legendFontSizeMarginDifference s1);
        [destruct s1; reflexivity|].
      rewrite Hd1.
      transitivity (SVGLegend.legendFontSizeMarginDifference (normalized d sb));
        [destruct (normalized d sb); reflexivity|].
      rewrite Hdf, Hfs. destruct (LegendData.fontSize data); reflexivity. }
  rewrite Hz, Hvp. cbn [SVGLegend.data SVGLegend.set_data andb].
  replace (SVGLegend.fontSize_or_default (Some d))
    with (SVGLegend.fontSize_or_default (Some data))
    by (unfold SVGLegend.fontSize_or_default; rewrite Hfs; reflexivity).
  destruct (String.eqb (LegendData.primaryType data) "None");
    cbn [negb OwnViewport.width OwnViewport.height]; split; reflexivity.
Qed.

(** Five labels on top, font size 8 and no measures: 80/3 pixels. *)
Lemma drawLegend_horizontal_margins_witness :
  match SVGLegend.drawLegend (host := FixedPitch.host)
          (FixedPitch.legendData FixedPitch.fiveLabels) (IViewport.mk 200 400)
          (FixedPitch.legend LegendPosition.Top true) with
  | Ok s' =>
      OwnViewport.width (SVGLegend.getMargins s') = Some 0
      /\ OwnViewport.height (SVGLegend.getMargins s') == 80 # 3
  | TypeError => False
  end.
Proof.
  destruct (SVGLegend.drawLegend (host := FixedPitch.host)
              (FixedPitch.legendData FixedPitch.fiveLabels) (IViewport.mk 200 400)
              (FixedPitch.legend LegendPosition.Top true)) as [s'|] eqn:E.
  - destruct (drawLegend_horizontal_margins (host := FixedPitch.host)
                (FixedPitch.legendData FixedPitch.fiveLabels) (IViewport.mk 200 400)
                (FixedPitch.legend LegendPosition.Top true) s') as [Hw Hh];
      [reflexivity | discriminate | exact E |].
    split; [exact Hw|]. rewrite Hh. reflexivity.
  - vm_compute in E. discriminate E.
Defined.

(** ** The items bound to the group *)

Lemma js_slice_window {A : Type} (before window : list A) (n : Z) :
  (0 <= n <= Z.of_nat (length window))%Z ->
  js_slice (before ++ window) (Z.of_nat (length before)) (Z.of_nat (length before) + n)
  = firstn (Z.to_nat n) window.
Proof.
  intros Hn. unfold js_slice.
  rewrite !js_index_in_range by (rewrite length_app; lia).
  rewrite Nat2Z.id. rewrite drop_app_length.
  f_equal. lia.
Qed.

Lemma rendered_items (s1 : SVGLegend.t) (d : LegendData.t)
    (before window : list LegendDataPoint.t) (n : Z) (title : option TitleLayout.t)
    (nav : list NavigationArrow.t) :
  SVGLegend.legendDataStartIndex s1 = Z.of_nat (length before) ->
  (0 <= n <= Z.of_nat (length window))%Z ->
  Group.legendItems
    (SVGLegend.group
       (rendered
          (SVGLegend.set_data (Some (LegendData.set_dataPoints (before ++ window) d)) s1)
          (LegendLayout.mk n title nav)))
  = firstn (Z.to_nat n) window.
Proof.
  intros Hi Hn.
  destruct (rendered_frame
              (SVGLegend.set_data (Some (LegendData.set_dataPoints (before ++ window) d)) s1)
              (LegendLayout.mk n title nav))
    as (_ & _ & _ & _ & _ & _ & _ & _ & _ & _ & _ & _ & _ & Hit & _).
  rewrite Hit. clear Hit.
  replace (SVGLegend.legendDataStartIndex (SVGLegend.set_data _ s1))
    with (Z.of_nat (length before)) by (rewrite <- Hi; destruct s1; reflexivity).
  cbn [SVGLegend.data SVGLegend.set_data LegendData.dataPoints LegendData.set_dataPoints
       LegendLayout.numberOfItems].
  replace (SVGLegend.data (SVGLegend.set_data
             (Some (LegendData.set_dataPoints (before ++ window) d)) s1))
    with (Some (LegendData.set_dataPoints (before ++ window) d))
    by (destruct s1; reflexivity).
  cbn [LegendData.dataPoints LegendData.set_dataPoints].
  apply js_slice_window. exact Hn.
Qed.

(** Neither item layout touches the identity, the marker or the tooltip of
    a point. *)
Lemma horizontalItem_kept `{host : Host} (fontSize : option Q) (showPrimary : bool)
    (fts fis pad mtl ptl occ : Q) (dp : LegendDataPoint.t) :
  kept (fst (SVGLegend.horizontalItem fontSize showPrimary fts fis pad mtl ptl occ dp))
  = kept dp.
Proof.
  unfold SVGLegend.horizontalItem. cbv zeta.
  destruct (Qltb _ mtl); [|destruct showPrimary]; destruct dp; reflexivity.
Qed.

Lemma verticalItem_kept `{host : Host} (fontSize : option Q) (showPrimary : bool)
    (df ff vlh ex his hts avail : Q) (acc : Q * Q) (dp : LegendDataPoint.t) :
  kept (fst (SVGLegend.verticalItem fontSize showPrimary df ff vlh ex his hts avail acc dp))
  = kept dp.
Proof.
  unfold SVGLegend.verticalItem. destruct acc as [tot used]. cbv zeta.
  destruct (Qgtb _ avail); [destruct showPrimary|]; destruct dp; reflexivity.
Qed.

Lemma arrowTypes_horizontal `{host : Host} (title : option TitleLayout.t) (s : SVGLegend.t) :
  arrowTypes (SVGLegend.calculateHorizontalNavigationArrowsLayout title s)
  = [Decrease; Increase].
Proof. reflexivity. Qed.

Lemma arrowTypes_vertical `{host : Host} (title : option TitleLayout.t) (s : SVGLegend.t) :
  arrowTypes (SVGLegend.calculateVerticalNavigationArrowsLayout title s)
  = [Decrease; Increase].
Proof. reflexivity. Qed.

Lemma arrowTypes_set_x (x : Q) (nav : list NavigationArrow.t) :
  arrowTypes (map (NavigationArrow.set_x x) nav) = arrowTypes nav.
Proof.
  unfold arrowTypes. rewrite map_map. apply map_ext. intros []; reflexivity.
Qed.

(** The arrows and the page width after [updateNavigationArrowLayout], for
    the arrows of a scrollable legend and for none. *)
Lemma updateNavigationArrowLayout_result (scrollable : bool)
    (nav nav' : list NavigationArrow.t) (rem n : Z) (s s' : SVGLegend.t) :
  arrowTypes nav = (if scrollable then [Decrease; Increase] else []) ->
  SVGLegend.updateNavigationArrowLayout nav rem n s = (s', nav') ->
  if scrollable
  then arrowTypes nav'
       = (if (SVGLegend.legendDataStartIndex s =? 0)%Z then [] else [Decrease])
         ++ (if (n =? rem)%Z then [] else [Increase])
       /\ SVGLegend.arrowPosWindow s'
          = (if (n =? rem)%Z then SVGLegend.arrowPosWindow s else n)
  else nav' = [] /\ SVGLegend.arrowPosWindow s' = n.
Proof.
  intros Hty U. destruct scrollable.
  - pose proof (updateNavigationArrowLayout_scrollable nav rem n s Hty) as Hs.
    cbv zeta in Hs. rewrite U in Hs. exact Hs.
  - destruct nav; [|discriminate Hty].
    rewrite updateNavigationArrowLayout_nil in U. injection U as <- <-.
    split; [reflexivity|]. destruct s; reflexivity.
Qed.

(** What a draw binds to the group, for data with points and a placement
    other than [None]: the first [n] points of the window, which are the
    points of the caller but for their texts and positions; [n] decides
    the arrows and the page width. *)
Lemma drawLegendInternal_items `{host : Host} (data : LegendData.t)
    (viewport : IViewport.t) (autoWidth : bool) (s s' : SVGLegend.t) :
  SVGLegend.orientation s <> LegendPosition.None ->
  LegendData.dataPoints data <> [] ->
  SVGLegend.drawLegendInternal data viewport autoWidth s = Ok s' ->
  let all := LegendData.dataPoints data in
  let i := SVGLegend.legendDataStartIndex s' in
  (0 <= i < Z.of_nat (length all))%Z
  /\ i = SVGLegend.legendDataStartIndex (SVGLegend.normalizePosition all s)
  /\ exists window n,
       length window = length (skipn (Z.to_nat i) all)
       /\ map kept window = map kept (skipn (Z.to_nat i) all)
       /\ (0 <= n <= Z.of_nat (length window))%Z
       /\ Group.legendItems (SVGLegend.group s') = firstn (Z.to_nat n) window
       /\ SVGLegend.data s'
          = Some (LegendData.set_dataPoints (firstn (Z.to_nat i) all ++ window) data)
       /\ (if SVGLegend.isScrollable s
           then arrowTypes (Group.navArrows (SVGLegend.group s'))
                = (if (i =? 0)%Z then [] else [Decrease])
                  ++ (if (n =? Z.of_nat (length window))%Z then [] else [Increase])
                /\ SVGLegend.arrowPosWindow s'
                   = (if (n =? Z.of_nat (length window))%Z
                      then SVGLegend.arrowPosWindow s else n)
           else Group.navArrows (SVGLegend.group s') = []
                /\ SVGLegend.arrowPosWindow s' = n).
Proof.
  intros Ho Hne H all i.
  assert (Hcore :
    exists sb s1 pts' title' nav' n,
      SVGLegend.calculateViewport (prepared data viewport s) = Ok sb
      /\ let s0 := normalized data sb in
         let i0 := SVGLegend.legendDataStartIndex s0 in
         (0 <= i0 < Z.of_nat (length all))%Z
         /\ SVGLegend.legendDataStartIndex s1 = i0
         /\ s' = rendered
                   (SVGLegend.set_data
                      (Some (LegendData.set_dataPoints (firstn (Z.to_nat i0) all ++ pts') data))
                      s1)
                   (LegendLayout.mk n title' nav')
         /\ length pts' = length (skipn (Z.to_nat i0) all)
         /\ map kept pts' = map kept (skipn (Z.to_nat i0) all)
         /\ (0 <= n <= Z.of_nat (length pts'))%Z
         /\ exists nav sm,
              arrowTypes nav
              = (if SVGLegend.isScrollable s then [Decrease; Increase] else [])
              /\ SVGLegend.updateNavigationArrowLayout nav
                   (Z.of_nat (length pts')) n sm = (s1, nav')
              /\ SVGLegend.legendDataStartIndex sm = i0
              /\ SVGLegend.arrowPosWindow sm = SVGLegend.arrowPosWindow s).
  { destruct (SVGLegend.isTopOrBottom (SVGLegend.orientation s)) eqn:Hz.
    - destruct (drawLegendInternal_horizontal _ _ _ _ _ Hz Hne H)
        as (sb & s1 & pts' & title' & nav' & n & V & R).
      cbv zeta in R. destruct R as (Hi & R & Hi1 & ->).
      exists sb, s1, pts', title', nav', n. split; [exact V|]. cbv zeta.
      split; [exact Hi|]. split; [exact Hi1|]. split; [reflexivity|].
      pose proof (calculateHorizontalLayout_inv _ _ _ _ _ _ _ _ _ _ R) as (Hn & Hl & _).
      apply calculateHorizontalLayout_loop in R.
      destruct R as (w & broke & F & _ & U & _).
      split; [exact Hl|]. split.
      { apply (for_until_map kept _ _ _) in F; [exact F|].
        intros acc a. apply horizontalItem_kept. }
      split; [rewrite Hl; exact Hn|].
      eexists; eexists. rewrite Hl. split; [|split; [exact U|]].
      + destruct (SVGLegend.isScrollable s); reflexivity.
      + destruct (calculateViewport_prepared _ _ _ _ V)
          as (_ & _ & _ & _ & _ & _ & Ha & _).
        destruct (normalized_fields data sb) as (_ & _ & _ & _ & _ & _ & _ & Ha0 & _).
        split; [destruct (normalized data sb); reflexivity|].
        rewrite <- Ha, <- Ha0. destruct (normalized data sb); reflexivity.
    - destruct (drawLegendInternal_vertical _ _ _ _ _ Hz Ho Hne H)
        as (sb & s1 & pts' & title' & nav' & n & V & R).
      cbv zeta in R. destruct R as (Hi & R & Hi1 & ->).
      exists sb, s1, pts', title', nav', n. split; [exact V|]. cbv zeta.
      split; [exact Hi|]. split; [exact Hi1|]. split; [reflexivity|].
      pose proof (calculateVerticalLayout_inv _ _ _ _ _ _ _ _ _ _ _ R) as (Hn & Hl & _).
      apply calculateVerticalLayout_loop in R.
      destruct R as (tot & used & broke & F & _ & R). cbv zeta in R. destruct R as (U & _).
      split; [exact Hl|]. split.
      { apply (for_until_map kept _ _ _) in F; [exact F|].
        intros acc a. apply verticalItem_kept. }
      split; [rewrite Hl; exact Hn|].
      eexists; eexists. rewrite Hl. split; [|split; [exact U|]].
      + rewrite arrowTypes_set_x. destruct (SVGLegend.isScrollable s); reflexivity.
      + destruct (calculateViewport_prepared _ _ _ _ V)
          as (_ & _ & _ & _ & _ & _ & Ha & _).
        destruct (normalized_fields data sb) as (_ & _ & _ & _ & _ & _ & _ & Ha0 & _).
        split; [destruct autoWidth; destruct (normalized data sb); reflexivity|].
        rewrite <- Ha, <- Ha0. destruct autoWidth; destruct (normalized data sb); reflexivity. }
  destruct Hcore as (sb & s1 & pts' & title' & nav' & n & V & Hcore).
  cbv zeta in Hcore.
  destruct Hcore as (Hi & Hi1 & Hs' & Hl & Hk & Hn & nav & sm & Hty & U & Hsmi & Hsma).
  set (i0 := SVGLegend.legendDataStartIndex (normalized data sb)) in *.
  assert (Hlf : length (firstn (Z.to_nat i0) all) = Z.to_nat i0)
    by (rewrite length_firstn; lia).
  assert (Hii : i = i0).
  { subst i. rewrite Hs'.
    destruct (rendered_frame
                (SVGLegend.set_data
                   (Some (LegendData.set_dataPoints (firstn (Z.to_nat i0) all ++ pts') data)) s1)
                (LegendLayout.mk n title' nav')) as (_ & _ & _ & E & _).
    rewrite E. rewrite <- Hi1. destruct s1; reflexivity. }
  rewrite Hii. split; [exact Hi|]. split.
  { subst i0. unfold normalized. rewrite normalizePosition_set_margin.
    apply normalizePosition_index.
    destruct (calculateViewport_prepared _ _ _ _ V) as (_ & _ & _ & _ & _ & E & _).
    exact E. }
  exists pts', n. split; [exact Hl|]. split; [exact Hk|]. split; [exact Hn|].
  split.
  { rewrite Hs'. apply rendered_items; [|exact Hn]. rewrite Hlf, Hi1. lia. }
  split.
  { rewrite Hs'.
    destruct (rendered_frame
                (SVGLegend.set_data
                   (Some (LegendData.set_dataPoints (firstn (Z.to_nat i0) all ++ pts') data)) s1)
                (LegendLayout.mk n title' nav')) as (_ & _ & E & _).
    rewrite E. destruct s1; reflexivity. }
  pose proof (updateNavigationArrowLayout_result _ _ _ _ _ _ _ Hty U) as Hr.
  rewrite Hsmi, Hsma in Hr.
  replace (Group.navArrows (SVGLegend.group s')) with nav'.
  2:{ rewrite Hs'.
      destruct (rendered_frame
                  (SVGLegend.set_data
                     (Some (LegendData.set_dataPoints (firstn (Z.to_nat i0) all ++ pts') data))
                     s1)
                  (LegendLayout.mk n title' nav'))
        as (_ & _ & _ & _ & _ & _ & _ & _ & _ & _ & _ & E & _).
      rewrite E. reflexivity. }
  replace (SVGLegend.arrowPosWindow s') with (SVGLegend.arrowPosWindow s1).
  2:{ rewrite Hs'.
      destruct (rendered_frame
                  (SVGLegend.set_data
                     (Some (LegendData.set_dataPoints (firstn (Z.to_nat i0) all ++ pts') data))
                     s1)
                  (LegendLayout.mk n title' nav'))
        as (_ & _ & _ & _ & E & _).
      rewrite E. destruct s1; reflexivity. }
  exact Hr.
Qed.

(** Every item that [drawLegend] binds to the group is one of the caller's
    points, in order from the start of the page: it has the identity and the
    marker of that point, and its tooltip is the label that the caller gave,
    whatever the layout made of the label shown. *)
Theorem drawLegend_bound_items `{host : Host} (data : LegendData.t)
    (viewport : IViewport.t) (s s' : SVGLegend.t) :
  SVGLegend.orientation s <> LegendPosition.None ->
  LegendData.dataPoints data <> [] ->
  SVGLegend.drawLegend data viewport s = Ok s' ->
  forall (k : nat) (item : LegendDataPoint.t),
    Group.legendItems (SVGLegend.group s') !! k = Some item ->
    exists dp,
      LegendData.dataPoints data
        !! (Z.to_nat (SVGLegend.legendDataStartIndex s') + k)%nat = Some dp
      /\ LegendDataPoint.identity item = LegendDataPoint.identity dp
      /\ LegendDataPoint.markerShape item = LegendDataPoint.markerShape dp
      /\ LegendDataPoint.tooltip item = Some (LegendDataPoint.label dp).
Proof.
  intros Ho Hne H k item Hk. rewrite drawLegend_unfold in H.
  destruct (setTooltipToLegendItems_fields data) as (_ & _ & _ & _ & Hne').
  specialize (Hne' Hne).
  pose proof (drawLegendInternal_items _ _ _ _ _ Ho Hne' H) as Hit. cbv zeta in Hit.
  destruct Hit as (_ & _ & window & n & _ & Hkept & _ & Hitems & _).
  rewrite Hitems in Hk. apply lookup_take_Some in Hk. destruct Hk as [Hk _].
  assert (Hm : map kept window !! k = Some (kept item)) by (rewrite list_lookup_fmap, Hk; reflexivity).
  rewrite Hkept in Hm. rewrite list_lookup_fmap in Hm.
  rewrite lookup_drop in Hm. unfold SVGLegend.setTooltipToLegendItems in Hm.
  cbn [LegendData.dataPoints LegendData.set_dataPoints] in Hm.
  rewrite list_lookup_fmap in Hm.
  destruct (LegendData.dataPoints data
              !! (Z.to_nat (SVGLegend.legendDataStartIndex s') + k)%nat) as [dp|] eqn:Edp;
    [|discriminate Hm].
  exists dp. split; [reflexivity|]. unfold kept in Hm. cbn in Hm.
  injection Hm as E1 E2 E3. rewrite <- E1, <- E2, <- E3. repeat split; reflexivity.
Qed.

(** Five labels on top of a parent 300 pixels wide: three items are bound,
    the second one shown as ["bbbbbbb..."] with the whole label as tooltip. *)
Lemma drawLegend_bound_items_witness :
  let data := FixedPitch.legendData FixedPitch.fiveLabels in
  match SVGLegend.drawLegend (host := FixedPitch.host) data (IViewport.mk 50 300)
          (FixedPitch.legend LegendPosition.Top true) with
  | Ok s' =>
      (LegendDataPoint.label <$> Group.legendItems (SVGLegend.group s') !! 1%nat
       = Some "bbbbbbb..."%string)
      /\ forall (k : nat) (item : LegendDataPoint.t),
           Group.legendItems (SVGLegend.group s') !! k = Some item ->
           exists dp,
             LegendData.dataPoints data
               !! (Z.to_nat (SVGLegend.legendDataStartIndex s') + k)%nat = Some dp
             /\ LegendDataPoint.identity item = LegendDataPoint.identity dp
             /\ LegendDataPoint.markerShape item = LegendDataPoint.markerShape dp
             /\ LegendDataPoint.tooltip item = Some (LegendDataPoint.label dp)
  | TypeError => False
  end.
Proof.
  intros data.
  destruct (SVGLegend.drawLegend (host := FixedPitch.host) data (IViewport.mk 50 300)
              (FixedPitch.legend LegendPosition.Top true)) as [s'|] eqn:E.
  - split.
    + vm_compute in E. injection E as <-. reflexivity.
    + apply (drawLegend_bound_items (host := FixedPitch.host) data (IViewport.mk 50 300)
               (FixedPitch.legend LegendPosition.Top true) s');
        [discriminate | discriminate | exact E].
  - vm_compute in E. discriminate E.
Defined.

(** ** The next page *)

(** On a scrollable legend that has been drawn, the arrow to the next
    page moves the start of the page by the number of items that are bound
    to the group: the next page starts at the first point that was not
    shown.  When no item fits the page does not move. *)
Theorem increase_shows_next_points `{host : Host} (data : LegendData.t)
    (viewport : IViewport.t) (autoWidth : bool) (s s1 s2 : SVGLegend.t)
    (arrow : NavigationArrow.t) :
  SVGLegend.orientation s <> LegendPosition.None ->
  LegendData.dataPoints data <> [] ->
  SVGLegend.isScrollable s = true ->
  SVGLegend.drawLegendInternal data viewport autoWidth s = Ok s1 ->
  In arrow (Group.navArrows (SVGLegend.group s1)) ->
  NavigationArrow.dataType arrow = Increase ->
  SVGLegend.onArrowClick arrow s1 = Ok s2 ->
  SVGLegend.legendDataStartIndex s2
  = (SVGLegend.legendDataStartIndex s1
     + Z.of_nat (length (Group.legendItems (SVGLegend.group s1))))%Z
  /\ (SVGLegend.legendDataStartIndex s2
      < Z.of_nat (length (LegendData.dataPoints data)))%Z.
Proof.
  intros Ho Hne Hsc H Hin Hty Hclick.
  pose proof (drawLegendInternal_items _ _ _ _ _ Ho Hne H) as Hit. cbv zeta in Hit.
  destruct Hit as (Hi & _ & window & n & Hl & _ & Hn & Hitems & Hd1 & Harr).
  rewrite Hsc in Harr. destruct Harr as [Harr Hapw].
  pose proof (drawLegendInternal_visible _ _ _ _ _ Ho Hne H) as Hv. cbv zeta in Hv.
  destruct Hv as (_ & _ & _ & Ho1 & _).
  set (i := SVGLegend.legendDataStartIndex s1) in *.
  assert (Hinc : In Increase (arrowTypes (Group.navArrows (SVGLegend.group s1)))).
  { unfold arrowTypes. rewrite <- Hty. apply in_map. exact Hin. }
  rewrite Harr in Hinc.
  destruct (n =? Z.of_nat (length window))%Z eqn:En.
  { destruct (i =? 0)%Z; cbn in Hinc; [contradiction|].
    destruct Hinc as [Hinc|[]]. discriminate Hinc. }
  apply Z.eqb_neq in En.
  assert (Hlen : length (Group.legendItems (SVGLegend.group s1)) = Z.to_nat n).
  { rewrite Hitems, length_firstn. lia. }
  rewrite Hlen, Z2Nat.id by lia.
  rewrite length_skipn in Hl.
  unfold SVGLegend.onArrowClick in Hclick. rewrite Hty in Hclick.
  fold i in Hclick. rewrite Hapw in Hclick.
  set (sc := SVGLegend.set_legendDataStartIndex (i + n)%Z s1) in Hclick.
  replace (SVGLegend.data sc)
    with (Some (LegendData.set_dataPoints
                  (firstn (Z.to_nat i) (LegendData.dataPoints data) ++ window) data))
    in Hclick by (rewrite <- Hd1; subst sc; destruct s1; reflexivity).
  set (d1 := LegendData.set_dataPoints _ data) in Hclick.
  assert (Hl1 : length (LegendData.dataPoints d1) = length (LegendData.dataPoints data)).
  { subst d1. cbn. rewrite length_app, length_firstn. lia. }
  assert (Hne1 : LegendData.dataPoints d1 <> []).
  { intros E. rewrite E in Hl1. cbn in Hl1.
    destruct (LegendData.dataPoints data); [congruence | discriminate Hl1]. }
  assert (Hoc : SVGLegend.orientation sc <> LegendPosition.None)
    by (subst sc; destruct s1; cbn in *; congruence).
  pose proof (drawLegendInternal_visible _ _ _ _ _ Hoc Hne1 Hclick) as Hv. cbv zeta in Hv.
  destruct Hv as (_ & _ & Hi2 & _).
  pose proof (normalizePosition_range _ (LegendData.dataPoints d1) sc) as Hc.
  cbv zeta in Hc. destruct Hc as (_ & _ & _ & Hc).
  assert (Hsci : SVGLegend.legendDataStartIndex sc = (i + n)%Z)
    by (subst sc i; destruct s1; reflexivity).
  rewrite Hi2, Hc by (rewrite Hsci, Hl1; lia).
  rewrite Hsci. split; [reflexivity | lia].
Qed.

(** Five labels on top of a parent 300 pixels wide: three items are shown,
    and the arrow leads to the fourth point. *)
Lemma increase_shows_next_points_witness :
  let data := FixedPitch.legendData FixedPitch.fiveLabels in
  let s := FixedPitch.legend LegendPosition.Top true in
  match SVGLegend.drawLegendInternal (host := FixedPitch.host) data (IViewport.mk 50 300)
          true s with
  | Ok s1 =>
      match Group.navArrows (SVGLegend.group s1) with
      | [arrow] =>
          match SVGLegend.onArrowClick (host := FixedPitch.host) arrow s1 with
          | Ok s2 =>
              length (Group.legendItems (SVGLegend.group s1)) = 3%nat
              /\ SVGLegend.legendDataStartIndex s2
                 = (SVGLegend.legendDataStartIndex s1
                    + Z.of_nat (length (Group.legendItems (SVGLegend.group s1))))%Z
              /\ (SVGLegend.legendDataStartIndex s2
                  < Z.of_nat (length (LegendData.dataPoints data)))%Z
          | TypeError => False
          end
      | _ => False
      end
  | TypeError => False
  end.
Proof.
  intros data s.
  destruct (SVGLegend.drawLegendInternal (host := FixedPitch.host) data (IViewport.mk 50 300)
              true s) as [s1|] eqn:E; [|vm_compute in E; discriminate E].
  assert (Hnav : exists arrow,
             Group.navArrows (SVGLegend.group s1) = [arrow]
             /\ NavigationArrow.dataType arrow = Increase
             /\ length (Group.legendItems (SVGLegend.group s1)) = 3%nat
             /\ exists s2, SVGLegend.onArrowClick (host := FixedPitch.host) arrow s1 = Ok s2).
  { vm_compute in E. injection E as <-. eexists. split; [reflexivity|].
    split; [reflexivity|]. split; [reflexivity|]. eexists. vm_compute. reflexivity. }
  destruct Hnav as (arrow & Enav & Hty & Hlen & s2 & E2).
  rewrite Enav, E2. split; [exact Hlen|].
  apply (increase_shows_next_points (host := FixedPitch.host) data (IViewport.mk 50 300)
           true s s1 s2 arrow);
    [discriminate | discriminate | reflexivity | exact E | | exact Hty | exact E2].
  rewrite Enav. left. reflexivity.
Defined.

(** ** The width of a horizontal legend and its centering *)

(** [visibleLegendWidth] after the horizontal layout: within the parent if
    every point of the window fits, and beyond it otherwise, since it then
    counts the point at which the loop stopped. *)
Lemma calculateHorizontalLayout_width `{host : Host} (d : LegendData.t)
    (pts : list LegendDataPoint.t) (title : option TitleLayout.t)
    (nav : list NavigationArrow.t) (s s' : SVGLegend.t)
    (pts' : list LegendDataPoint.t) (title' : option TitleLayout.t)
    (nav' : list NavigationArrow.t) (n : Z) :
  pts <> [] ->
  SVGLegend.calculateHorizontalLayout d pts title nav s = Ok (s', pts', title', nav', n) ->
  ((n < Z.of_nat (length pts))%Z ->
   IViewport.width (SVGLegend.parentViewport s) < SVGLegend.visibleLegendWidth s')
  /\ (n = Z.of_nat (length pts) ->
      SVGLegend.visibleLegendWidth s' <= IViewport.width (SVGLegend.parentViewport s)).
Proof.
  intros Hne R. apply calculateHorizontalLayout_loop in R.
  destruct R as (w & broke & F & Hn & U & _).
  apply updateNavigationArrowLayout_fields in U.
  destruct U as (_ & _ & _ & _ & _ & Hw & _). rewrite Hw, set_visibleLegendWidth_get.
  pose proof (for_until_end _ _ _ _ _ _ _ _ F) as He.
  destruct broke as [itr|].
  - apply Qgtb_gt in He. split; [intros _; exact He|].
    intros E. pose proof (for_until_break _ _ _ _ _ _ _ _ F). lia.
  - split; [lia|]. intros _. rewrite He.
    assert (Hl : (0 < length pts)%nat) by (destruct pts; [congruence | cbn; lia]).
    pose proof (for_until_not_stopped _ _ _ _ _ _ _ _ (length pts - 1) F) as Hs.
    replace (S (length pts - 1)) with (length pts) in Hs by lia.
    apply Qgtb_le. apply Hs; [lia | exact I].
Qed.

Lemma rendered_transform (s : SVGLegend.t) (lay : LegendLayout.t) :
  Group.transform (SVGLegend.group (rendered s lay))
  = if SVGLegend.isCentered (SVGLegend.orientation s) then
      if SVGLegend.isTopOrBottom (SVGLegend.orientation s) then
        Some (ifgt 0 ((IViewport.width (SVGLegend.parentViewport s)
                       - SVGLegend.visibleLegendWidth s) / 2), 0)
      else
        Some (0, if Qltb ((IViewport.height (SVGLegend.parentViewport s)
                           - SVGLegend.visibleLegendHeight s) / 2) 0
                 then 0
                 else (IViewport.height (SVGLegend.parentViewport s)
                       - SVGLegend.visibleLegendHeight s) / 2)
    else None.
Proof.
  unfold rendered, SVGLegend.updateLayout. destruct s. fields.
  destruct data; [destruct (SVGLegend.isTopOrBottom orientation && showPrimary)|];
    reflexivity.
Qed.

(** A legend drawn on top or at the bottom: [visibleLegendWidth] is within
    the width of the parent exactly when every point from the start of the
    page is bound.  On the centered placements the group is then shifted so
    that the legend has the same room on both sides; when points are left
    for a next page the shift is zero. *)
Theorem horizontal_centering `{host : Host} (data : LegendData.t)
    (viewport : IViewport.t) (autoWidth : bool) (s s' : SVGLegend.t) :
  SVGLegend.isTopOrBottom (SVGLegend.orientation s) = true ->
  LegendData.dataPoints data <> [] ->
  SVGLegend.drawLegendInternal data viewport autoWidth s = Ok s' ->
  let W := IViewport.width viewport in
  let shown := Z.of_nat (length (Group.legendItems (SVGLegend.group s'))) in
  let remaining :=
    (Z.of_nat (length (LegendData.dataPoints data)) - SVGLegend.legendDataStartIndex s')%Z in
  (shown <= remaining)%Z
  /\ ((shown < remaining)%Z -> W < SVGLegend.visibleLegendWidth s')
  /\ (shown = remaining -> SVGLegend.visibleLegendWidth s' <= W)
  /\ (if SVGLegend.isCentered (SVGLegend.orientation s)
      then exists c,
          Group.transform (SVGLegend.group s') = Some (c, 0)
          /\ ((shown < remaining)%Z -> c = 0)
          /\ (shown = remaining ->
              0 <= c /\ c + SVGLegend.visibleLegendWidth s' + c == W)
      else Group.transform (SVGLegend.group s') = None).
Proof.
  intros Hz Hne H W shown remaining.
  destruct (drawLegendInternal_horizontal _ _ _ _ _ Hz Hne H)
    as (sb & s1 & pts' & title' & nav' & n & V & R).
  cbv zeta in R. destruct R as (Hi & R & Hi1 & Hs').
  destruct (calculateViewport_prepared _ _ _ _ V)
    as (_ & Hor & _ & Hpv & _).
  destruct (normalized_fields data sb) as (Hor0 & _ & Hpv0 & _).
  set (s0 := normalized data sb) in *.
  set (i := SVGLegend.legendDataStartIndex s0) in *.
  set (pts := skipn (Z.to_nat i) (LegendData.dataPoints data)) in *.
  assert (Hlp : Z.of_nat (length pts) = (Z.of_nat (length (LegendData.dataPoints data)) - i)%Z)
    by (subst pts; rewrite length_skipn; lia).
  assert (Hpne : pts <> []) by (intros E; rewrite E in Hlp; cbn in Hlp; lia).
  pose proof (calculateHorizontalLayout_inv _ _ _ _ _ _ _ _ _ _ R) as (Hn & Hl & _).
  pose proof (calculateHorizontalLayout_width _ _ _ _ _ _ _ _ _ _ Hpne R) as (Hover & Hfit).
  apply calculateHorizontalLayout_loop in R. destruct R as (w & broke & _ & _ & U & _).
  apply updateNavigationArrowLayout_fields in U.
  destruct U as (Ho1 & _ & Hpv1 & _).
  set (se := SVGLegend.set_data _ s1) in Hs'.
  assert (Hse : SVGLegend.orientation se = SVGLegend.orientation s
                /\ SVGLegend.parentViewport se = viewport
                /\ SVGLegend.visibleLegendWidth se = SVGLegend.visibleLegendWidth s1
                /\ SVGLegend.legendDataStartIndex se = i).
  { subst se. rewrite <- Hi1. destruct s1. cbn in *.
    repeat split; try reflexivity; congruence. }
  destruct Hse as (Hoe & Hpe & Hwe & Hie).
  destruct (rendered_frame se (LegendLayout.mk n title' nav'))
    as (_ & _ & _ & Hri & _ & _ & _ & _ & Hrw & _).
  assert (Hshown : shown = n).
  { subst shown. rewrite Hs'. subst se.
    rewrite rendered_items; [rewrite length_firstn; lia | | lia].
    rewrite Hi1, length_firstn. lia. }
  assert (Hrem : remaining = Z.of_nat (length pts)).
  { subst remaining. rewrite Hs', Hri, Hie. lia. }
  rewrite Hshown, Hrem. rewrite Hs', Hrw, Hwe.
  rewrite Hpv0, Hpv in Hover, Hfit. fold W in Hover, Hfit.
  split; [lia|]. split; [exact Hover|]. split; [exact Hfit|].
  rewrite rendered_transform, Hoe, Hz, Hpe, Hwe. fold W.
  destruct (SVGLegend.isCentered (SVGLegend.orientation s)); [|reflexivity].
  eexists. split; [reflexivity|]. unfold ifgt. split.
  - intros Hlt. specialize (Hover Hlt).
    destruct (Qgtb 0 ((W - SVGLegend.visibleLegendWidth s1) / 2)) eqn:E; [reflexivity|].
    apply Qgtb_le in E. qarith.
  - intros Heq. specialize (Hfit Heq).
    destruct (Qgtb 0 ((W - SVGLegend.visibleLegendWidth s1) / 2)) eqn:E.
    + apply Qgtb_gt in E. qarith.
    + apply Qgtb_le in E. split; [exact E|]. qarith.
Qed.

(** Five labels centered on top of a parent 300 pixels wide: three of the
    five points are bound, the legend would be 340 pixels wide and is not
    shifted. *)
Lemma horizontal_centering_witness :
  let data := FixedPitch.legendData FixedPitch.fiveLabels in
  let s := FixedPitch.legend LegendPosition.TopCenter true in
  match SVGLegend.drawLegendInternal (host := FixedPitch.host) data (IViewport.mk 50 300)
          true s with
  | Ok s' =>
      let shown := Z.of_nat (length (Group.legendItems (SVGLegend.group s'))) in
      let remaining :=
        (Z.of_nat (length (LegendData.dataPoints data))
         - SVGLegend.legendDataStartIndex s')%Z in
      shown = 3%Z /\ remaining = 5%Z
      /\ (shown <= remaining)%Z
      /\ ((shown < remaining)%Z -> 300 < SVGLegend.visibleLegendWidth s')
      /\ (shown = remaining -> SVGLegend.visibleLegendWidth s' <= 300)
      /\ exists c,
           Group.transform (SVGLegend.group s') = Some (c, 0)
           /\ ((shown < remaining)%Z -> c = 0)
           /\ (shown = remaining ->
               0 <= c /\ c + SVGLegend.visibleLegendWidth s' + c == 300)
  | TypeError => False
  end.
Proof.
  intros data s.
  destruct (SVGLegend.drawLegendInternal (host := FixedPitch.host) data (IViewport.mk 50 300)
              true s) as [s'|] eqn:E; [|vm_compute in E; discriminate E].
  cbv zeta.
  split; [vm_compute in E; injection E as <-; reflexivity|].
  split; [vm_compute in E; injection E as <-; reflexivity|].
  apply (horizontal_centering (host := FixedPitch.host) data (IViewport.mk 50 300)
           true s s'); [reflexivity | discriminate | exact E].
Defined.

(** ** Where the items are put *)

Lemma accBefore_S {A T : Type} (body : T -> A -> A * T) (l : list A) :
  forall (k : nat) (acc : T) (a : A),
    l !! k = Some a ->
    accBefore body l (S k) acc = snd (body (accBefore body l k acc) a).
Proof.
  induction l as [|a0 rest IH]; intros k acc a Hk; [discriminate Hk|].
  destruct k as [|k].
  - injection Hk as <-. destruct rest; reflexivity.
  - cbn [accBefore]. change ((a0 :: rest) !! S k) with (rest !! k) in Hk.
    rewrite <- (IH k _ a Hk). reflexivity.
Qed.

Lemma horizontalItem_positions `{host : Host} (fontSize : option Q) (showPrimary : bool)
    (fts fis pad mtl ptl occ : Q) (dp : LegendDataPoint.t) :
  let dp' := fst (SVGLegend.horizontalItem fontSize showPrimary fts fis pad mtl ptl occ dp) in
  LegendDataPoint.glyphPosition dp'
  = Some (Point.mk
            (occ + SVGLegend.getMarkerShapeWidth (LegendDataPoint.markerShape dp) / 2) fis)
  /\ LegendDataPoint.textPosition dp' = Some (Point.mk (occ + fts) fts).
Proof.
  unfold SVGLegend.horizontalItem. cbv zeta.
  destruct (Qltb _ mtl); [|destruct showPrimary]; destruct dp; split; reflexivity.
Qed.

Lemma horizontalPadding_floor `{host : Host} (pts : list LegendDataPoint.t)
    (s : SVGLegend.t) :
  0 <= LegendIconLineTotalWidth ->
  15 <= horizontalPadding pts s
  /\ horizontalTextShift pts s + 6 <= horizontalPadding pts s.
Proof.
  intros Hd. unfold horizontalPadding, horizontalTextShift, horizontalFontSizeMargin.
  pose proof (getMarkerShapeWidth_nonneg (SVGLegend.firstDataPointMarkerShape pts) Hd) as Hm.
  unfold SVGLegend.TextAndIconPadding.
  destruct (Qgtb (SVGLegend.legendFontSizeMarginDifference s) 0) eqn:E.
  - apply Qgtb_gt in E. split; qarith.
  - split; qarith.
Qed.

(** The items that the horizontal loop went past: each one is put at the
    width occupied so far, which then grows by the padding and at least the
    room of the indicators, and is still within the parent. *)
Lemma horizontal_loop_positions `{host : Host} (d : LegendData.t)
    (pts pts' : list LegendDataPoint.t) (title : option TitleLayout.t)
    (s : SVGLegend.t) (w : Q) (broke : option Z) :
  (forall tp, 0 <= measureSvgTextWidth tp) ->
  SVGLegend.for_until (horizontalBody d pts title s)
    (fun occupiedWidth => Qgtb occupiedWidth (IViewport.width (SVGLegend.parentViewport s)))
    pts 0%Z (horizontalStart title s) = (pts', w, broke) ->
  forall (k : nat) (a : LegendDataPoint.t),
    pts' !! k = Some a ->
    match broke with
    | Some n => (Z.of_nat k < n)%Z
    | None => True
    end ->
    let occ := accBefore (horizontalBody d pts title s) pts k (horizontalStart title s) in
    let occ' := accBefore (horizontalBody d pts title s) pts (S k) (horizontalStart title s) in
    (exists gx, LegendDataPoint.glyphPosition a = Some (Point.mk gx (horizontalIconShift s)))
    /\ LegendDataPoint.textPosition a
       = Some (Point.mk (occ + horizontalTextShift pts s) (horizontalTextShift pts s))
    /\ occ + horizontalPadding pts s + 15 <= occ'
    /\ occ' <= IViewport.width (SVGLegend.parentViewport s).
Proof.
  intros Hm F k a Hk Hb occ occ'.
  pose proof (for_until_length _ _ _ _ _ _ _ _ F) as Hl.
  assert (Hkl : (k < length pts)%nat).
  { rewrite <- Hl. apply lookup_lt_is_Some. eexists; exact Hk. }
  destruct (pts !! k) as [dp|] eqn:Edp;
    [|apply lookup_ge_None in Edp; lia].
  pose proof (for_until_item _ _ _ _ _ _ _ _ k dp F Edp) as Hit.
  rewrite Hk in Hit.
  assert (Ha : a = fst (horizontalBody d pts title s occ dp)).
  { assert (X : Some a = Some (fst (horizontalBody d pts title s occ dp))).
    { apply Hit. destruct broke; [lia | exact I]. }
    injection X as X. exact X. }
  pose proof (for_until_not_stopped _ _ _ _ _ _ _ _ k F Hkl) as Hs.
  assert (Hocc' : occ' = snd (horizontalBody d pts title s occ dp))
    by (subst occ' occ; apply accBefore_S; exact Edp).
  unfold horizontalBody in Ha, Hocc'.
  destruct (horizontalItem_positions (LegendData.fontSize d) (SVGLegend.showPrimary s)
              (horizontalTextShift pts s) (horizontalIconShift s)
              (horizontalPadding pts s) (horizontalBudget pts title s)
              (SVGLegend.evenSplit
                 (IViewport.width (SVGLegend.parentViewport s) - horizontalStart title s)
                 (length pts)) occ dp) as [Hg Ht].
  cbv zeta in Hg, Ht. rewrite <- Ha in Hg, Ht.
  split; [eexists; exact Hg|]. split; [exact Ht|]. split.
  - rewrite Hocc'. apply horizontalItem_advance; [exact Hm|].
    unfold horizontalBudget. apply evenSplit_floor.
  - apply Qgtb_le. apply Hs. destruct broke; [lia | exact I].
Qed.

(** The items bound to a legend drawn on top or at the bottom, when the
    text service measures no negative width: they stand on one line from
    left to right, each text at least 30 pixels after the one before, and
    each text starts at least 21 pixels before the right edge of the
    parent. *)
Theorem horizontal_items_in_line `{host : Host} (data : LegendData.t)
    (viewport : IViewport.t) (autoWidth : bool) (s s' : SVGLegend.t) :
  (forall tp, 0 <= measureSvgTextWidth tp) ->
  0 <= LegendIconLineTotalWidth ->
  SVGLegend.isTopOrBottom (SVGLegend.orientation s) = true ->
  LegendData.dataPoints data <> [] ->
  SVGLegend.drawLegendInternal data viewport autoWidth s = Ok s' ->
  let items := Group.legendItems (SVGLegend.group s') in
  (forall (k : nat) (a : LegendDataPoint.t),
     items !! k = Some a ->
     exists g p,
       LegendDataPoint.glyphPosition a = Some g
       /\ LegendDataPoint.textPosition a = Some p
       /\ Point.x p + 21 <= IViewport.width viewport)
  /\ (forall (k : nat) (a b : LegendDataPoint.t),
        items !! k = Some a ->
        items !! S k = Some b ->
        exists ga gb pa pb,
          LegendDataPoint.glyphPosition a = Some ga
          /\ LegendDataPoint.glyphPosition b = Some gb
          /\ LegendDataPoint.textPosition a = Some pa
          /\ LegendDataPoint.textPosition b = Some pb
          /\ Point.y ga = Point.y gb
          /\ Point.y pa = Point.y pb
          /\ Point.x pa + 30 <= Point.x pb).
Proof.
  intros Hm Hd Hz Hne H items.
  destruct (drawLegendInternal_horizontal _ _ _ _ _ Hz Hne H)
    as (sb & s1 & pts' & title' & nav' & n & V & R).
  cbv zeta in R. destruct R as (Hi & R & Hi1 & Hs').
  destruct (calculateViewport_prepared _ _ _ _ V) as (_ & _ & _ & Hpv & _).
  destruct (normalized_fields data sb) as (_ & _ & Hpv0 & _).
  set (s0 := normalized data sb) in *.
  set (i := SVGLegend.legendDataStartIndex s0) in *.
  set (pts := skipn (Z.to_nat i) (LegendData.dataPoints data)) in *.
  set (title := SVGLegend.calculateTitleLayout data (LegendData.title data) s0) in *.
  pose proof (calculateHorizontalLayout_inv _ _ _ _ _ _ _ _ _ _ R) as (Hn & Hl & _).
  apply calculateHorizontalLayout_loop in R. destruct R as (w & broke & F & Hnb & _).
  assert (Hitems : items = firstn (Z.to_nat n) pts').
  { subst items. rewrite Hs'. apply rendered_items; [|lia].
    rewrite Hi1, length_firstn. lia. }
  assert (Hat : forall k a, items !! k = Some a ->
            pts' !! k = Some a
            /\ match broke with
               | Some n0 => (Z.of_nat k < n0)%Z
               | None => True
               end).
  { intros k a Hk. rewrite Hitems in Hk. apply lookup_take_Some in Hk.
    destruct Hk as [Hk Hlt]. split; [exact Hk|]. destruct broke; [lia | exact I]. }
  destruct (horizontalPadding_floor pts s0 Hd) as [Hp15 Hp6].
  rewrite Hpv0, Hpv in F.
  split.
  - intros k a Hk. destruct (Hat k a Hk) as [Hk' Hb].
    pose proof (horizontal_loop_positions data pts pts' title s0 w broke Hm) as P.
    rewrite Hpv0, Hpv in P. specialize (P F k a Hk' Hb). cbv zeta in P.
    destruct P as ((gx & Hg) & Ht & Hadv & Hin).
    eexists; eexists. split; [exact Hg|]. split; [exact Ht|]. cbn [Point.x]. lra.
  - intros k a b Hka Hkb.
    destruct (Hat k a Hka) as [Hka' Hba]. destruct (Hat (S k) b Hkb) as [Hkb' Hbb].
    pose proof (horizontal_loop_positions data pts pts' title s0 w broke Hm) as P.
    rewrite Hpv0, Hpv in P.
    pose proof (P F k a Hka' Hba) as Pa. pose proof (P F (S k) b Hkb' Hbb) as Pb.
    cbv zeta in Pa, Pb.
    destruct Pa as ((gxa & Hga) & Hta & Hadv & _).
    destruct Pb as ((gxb & Hgb) & Htb & _ & _).
    do 4 eexists. split; [exact Hga|]. split; [exact Hgb|]. split; [exact Hta|].
    split; [exact Htb|]. cbn [Point.x Point.y]. split; [reflexivity|].
    split; [reflexivity|]. lra.
Qed.

(** Five labels on top of a parent 300 pixels wide: the three texts are 85
    pixels apart. *)
Lemma horizontal_items_in_line_witness :
  let data := FixedPitch.legendData FixedPitch.fiveLabels in
  let s := FixedPitch.legend LegendPosition.Top true in
  match SVGLegend.drawLegendInternal (host := FixedPitch.host) data (IViewport.mk 50 300)
          true s with
  | Ok s' =>
      let items := Group.legendItems (SVGLegend.group s') in
      match items with
      | a :: b :: _ =>
          match LegendDataPoint.textPosition a, LegendDataPoint.textPosition b with
          | Some pa, Some pb => Point.x pa == 14 /\ Point.x pb == 99
          | _, _ => False
          end
      | _ => False
      end
      /\ (forall (k : nat) (a : LegendDataPoint.t),
            items !! k = Some a ->
            exists g p,
              LegendDataPoint.glyphPosition a = Some g
              /\ LegendDataPoint.textPosition a = Some p
              /\ Point.x p + 21 <= 300)
      /\ (forall (k : nat) (a b : LegendDataPoint.t),
            items !! k = Some a ->
            items !! S k = Some b ->
            exists ga gb pa pb,
              LegendDataPoint.glyphPosition a = Some ga
              /\ LegendDataPoint.glyphPosition b = Some gb
              /\ LegendDataPoint.textPosition a = Some pa
              /\ LegendDataPoint.textPosition b = Some pb
              /\ Point.y ga = Point.y gb
              /\ Point.y pa = Point.y pb
              /\ Point.x pa + 30 <= Point.x pb)
  | TypeError => False
  end.
Proof.
  intros data s.
  destruct (SVGLegend.drawLegendInternal (host := FixedPitch.host) data (IViewport.mk 50 300)
              true s) as [s'|] eqn:E; [|vm_compute in E; discriminate E].
  cbv zeta. split.
  - vm_compute in E. injection E as <-. cbn. split; reflexivity.
  - apply (horizontal_items_in_line (host := FixedPitch.host) data (IViewport.mk 50 300)
             true s s');
      [exact (proj1 (FixedPitch_wellFormed []))
      | exact (proj1 (proj2 (FixedPitch_wellFormed [])))
      | reflexivity | discriminate | exact E].
Defined.

Lemma verticalItem_positions `{host : Host} (fontSize : option Q) (showPrimary : bool)
    (df ff vlh ex his hts avail tot used : Q) (dp : LegendDataPoint.t) :
  let dp' := fst (SVGLegend.verticalItem fontSize showPrimary df ff vlh ex his hts avail
                    (tot, used) dp) in
  LegendDataPoint.glyphPosition dp' = Some (Point.mk his (tot + ff))
  /\ LegendDataPoint.textPosition dp' = Some (Point.mk hts (tot + ex)).
Proof.
  unfold SVGLegend.verticalItem. cbv zeta.
  destruct (Qgtb _ avail); [destruct showPrimary|]; destruct dp; split; reflexivity.
Qed.

(** The items that the vertical loop went past: each one is put at the
    height occupied so far, which then grows by one row, and is still
    within the parent. *)
Lemma vertical_loop_positions `{host : Host} (d : LegendData.t)
    (pts pts' : list LegendDataPoint.t) (title : option TitleLayout.t) (autoWidth : bool)
    (s : SVGLegend.t) (acc' : Q * Q) (broke : option Z) :
  SVGLegend.for_until (verticalBody d pts autoWidth s)
    (fun acc => Qgtb (fst acc) (IViewport.height (SVGLegend.parentViewport s)))
    pts 0%Z (verticalStart title s) = (pts', acc', broke) ->
  forall (k : nat) (a : LegendDataPoint.t),
    pts' !! k = Some a ->
    match broke with
    | Some n => (Z.of_nat k < n)%Z
    | None => True
    end ->
    let tot := fst (accBefore (verticalBody d pts autoWidth s) pts k (verticalStart title s)) in
    let tot' :=
      fst (accBefore (verticalBody d pts autoWidth s) pts (S k) (verticalStart title s)) in
    LegendDataPoint.glyphPosition a
    = Some (Point.mk (verticalIconShift pts) (tot + verticalFontFactor s))
    /\ LegendDataPoint.textPosition a
       = Some (Point.mk (verticalIconShift pts * 2)
                 (tot + (4 + verticalFontFactor s * (13 # 10))))
    /\ tot' == tot + rowPitch s
    /\ tot' <= IViewport.height (SVGLegend.parentViewport s).
Proof.
  intros F k a Hk Hb tot tot'.
  pose proof (for_until_length _ _ _ _ _ _ _ _ F) as Hl.
  assert (Hkl : (k < length pts)%nat).
  { rewrite <- Hl. apply lookup_lt_is_Some. eexists; exact Hk. }
  destruct (pts !! k) as [dp|] eqn:Edp;
    [|apply lookup_ge_None in Edp; lia].
  pose proof (for_until_item _ _ _ _ _ _ _ _ k dp F Edp) as Hit.
  rewrite Hk in Hit.
  set (acc := accBefore (verticalBody d pts autoWidth s) pts k (verticalStart title s)) in *.
  assert (Ha : a = fst (verticalBody d pts autoWidth s acc dp)).
  { assert (X : Some a = Some (fst (verticalBody d pts autoWidth s acc dp))).
    { apply Hit. destruct broke; [lia | exact I]. }
    injection X as X. exact X. }
  pose proof (for_until_not_stopped _ _ _ _ _ _ _ _ k F Hkl) as Hs.
  assert (Hacc' : accBefore (verticalBody d pts autoWidth s) pts (S k) (verticalStart title s)
                  = snd (verticalBody d pts autoWidth s acc dp))
    by (subst acc; apply accBefore_S; exact Edp).
  subst tot tot'. rewrite Hacc' in *. clear Hacc'.
  destruct acc as [t u]. cbn [fst]. unfold verticalBody in *.
  destruct (verticalItem_positions (LegendData.fontSize d) (SVGLegend.showPrimary s)
              (SVGLegend.legendFontSizeMarginDifference s) (verticalFontFactor s)
              (20 + verticalFontFactor s) (4 + verticalFontFactor s * (13 # 10))
              (verticalIconShift pts) (verticalIconShift pts * 2)
              (verticalBudget pts autoWidth s) t u dp) as [Hg Ht].
  cbv zeta in Hg, Ht. rewrite <- Ha in Hg, Ht.
  split; [exact Hg|]. split; [exact Ht|].
  rewrite verticalItem_advance in *. split.
  - unfold rowPitch. destruct (SVGLegend.showPrimary s); lra.
  - apply Qgtb_le. apply Hs. destruct broke; [lia | exact I].
Qed.

(** The items bound to a legend drawn on the left or on the right: they
    stand in one column, one row ([rowPitch]) below the other, and the row
    of each one ends within the height of the parent. *)
Theorem vertical_items_in_rows `{host : Host} (data : LegendData.t)
    (viewport : IViewport.t) (autoWidth : bool) (s s' : SVGLegend.t) :
  SVGLegend.isTopOrBottom (SVGLegend.orientation s) = false ->
  SVGLegend.orientation s <> LegendPosition.None ->
  LegendData.dataPoints data <> [] ->
  SVGLegend.drawLegendInternal data viewport autoWidth s = Ok s' ->
  let items := Group.legendItems (SVGLegend.group s') in
  (forall (k : nat) (a : LegendDataPoint.t),
     items !! k = Some a ->
     exists g p,
       LegendDataPoint.glyphPosition a = Some g
       /\ LegendDataPoint.textPosition a = Some p
       /\ Point.x p == Point.x g * 2
       /\ Point.y g - verticalFontFactor s' + rowPitch s' <= IViewport.height viewport)
  /\ (forall (k : nat) (a b : LegendDataPoint.t),
        items !! k = Some a ->
        items !! S k = Some b ->
        exists ga gb pa pb,
          LegendDataPoint.glyphPosition a = Some ga
          /\ LegendDataPoint.glyphPosition b = Some gb
          /\ LegendDataPoint.textPosition a = Some pa
          /\ LegendDataPoint.textPosition b = Some pb
          /\ Point.x ga = Point.x gb
          /\ Point.x pa = Point.x pb
          /\ Point.y gb == Point.y ga + rowPitch s'
          /\ Point.y pb == Point.y pa + rowPitch s').
Proof.
  intros Hz Ho Hne H items.
  destruct (drawLegendInternal_vertical _ _ _ _ _ Hz Ho Hne H)
    as (sb & s1 & pts' & title' & nav' & n & V & R).
  cbv zeta in R. destruct R as (Hi & R & Hi1 & Hs').
  destruct (calculateViewport_prepared _ _ _ _ V) as (_ & _ & _ & Hpv & _).
  destruct (normalized_fields data sb) as (_ & _ & Hpv0 & _).
  set (s0 := normalized data sb) in *.
  set (i := SVGLegend.legendDataStartIndex s0) in *.
  set (pts := skipn (Z.to_nat i) (LegendData.dataPoints data)) in *.
  set (title := SVGLegend.calculateTitleLayout data (LegendData.title data) s0) in *.
  pose proof (calculateVerticalLayout_inv _ _ _ _ _ _ _ _ _ _ _ R) as (Hn & Hl & _).
  apply calculateVerticalLayout_loop in R.
  destruct R as (tot & used & broke & F & Hnb & R). cbv zeta in R. destruct R as (U & _).
  apply updateNavigationArrowLayout_fields in U.
  destruct U as (_ & _ & _ & Hsp1 & _ & _ & _ & Hd1 & _).
  assert (Hpitch : rowPitch s' = rowPitch s0 /\ verticalFontFactor s' = verticalFontFactor s0).
  { rewrite Hs'.
    destruct (rendered_frame
                (SVGLegend.set_data
                   (Some (LegendData.set_dataPoints
                            (firstn (Z.to_nat i) (LegendData.dataPoints data) ++ pts') data)) s1)
                (LegendLayout.mk n title' nav'))
      as (_ & _ & _ & _ & _ & _ & Hsp & _ & _ & _ & Hdf & _).
    unfold rowPitch, verticalFontFactor. rewrite Hsp, Hdf.
    replace (SVGLegend.showPrimary (SVGLegend.set_data _ s1))
      with (SVGLegend.showPrimary s0)
      by (transitivity (SVGLegend.showPrimary s1); [|destruct s1; reflexivity];
          rewrite Hsp1; destruct autoWidth, s0; reflexivity).
    replace (SVGLegend.legendFontSizeMarginDifference (SVGLegend.set_data _ s1))
      with (SVGLegend.legendFontSizeMarginDifference s0)
      by (transitivity (SVGLegend.legendFontSizeMarginDifference s1);
          [|destruct s1; reflexivity];
          rewrite Hd1; destruct autoWidth, s0; reflexivity).
    split; reflexivity. }
  destruct Hpitch as [Hrp Hff]. rewrite Hrp, Hff.
  assert (Hitems : items = firstn (Z.to_nat n) pts').
  { subst items. rewrite Hs'. apply rendered_items; [|lia].
    rewrite Hi1, length_firstn. lia. }
  assert (Hat : forall k a, items !! k = Some a ->
            pts' !! k = Some a
            /\ match broke with
               | Some n0 => (Z.of_nat k < n0)%Z
               | None => True
               end).
  { intros k a Hk. rewrite Hitems in Hk. apply lookup_take_Some in Hk.
    destruct Hk as [Hk Hlt]. split; [exact Hk|]. destruct broke; [lia | exact I]. }
  rewrite Hpv0, Hpv in F.
  pose proof (vertical_loop_positions data pts pts' title autoWidth s0 (tot, used) broke) as P.
  rewrite Hpv0, Hpv in P. specialize (P F).
  split.
  - intros k a Hk. destruct (Hat k a Hk) as [Hk' Hb].
    specialize (P k a Hk' Hb). cbv zeta in P. destruct P as (Hg & Ht & Hadv & Hin).
    eexists; eexists. split; [exact Hg|]. split; [exact Ht|]. cbn [Point.x Point.y].
    split; [reflexivity|]. lra.
  - intros k a b Hka Hkb.
    destruct (Hat k a Hka) as [Hka' Hba]. destruct (Hat (S k) b Hkb) as [Hkb' Hbb].
    pose proof (P k a Hka' Hba) as Pa. pose proof (P (S k) b Hkb' Hbb) as Pb.
    cbv zeta in Pa, Pb.
    destruct Pa as (Hga & Hta & Hadv & _). destruct Pb as (Hgb & Htb & _ & _).
    do 4 eexists. split; [exact Hga|]. split; [exact Hgb|]. split; [exact Hta|].
    split; [exact Htb|]. cbn [Point.x Point.y]. split; [reflexivity|].
    split; [reflexivity|]. split; lra.
Qed.

(** Five labels on the right of a parent 100 pixels high: four rows, 20
    pixels apart. *)
Lemma vertical_items_in_rows_witness :
  let data := FixedPitch.legendData FixedPitch.fiveLabels in
  let s := FixedPitch.legend LegendPosition.Right true in
  match SVGLegend.drawLegendInternal (host := FixedPitch.host) data (IViewport.mk 100 300)
          true s with
  | Ok s' =>
      let items := Group.legendItems (SVGLegend.group s') in
      (length items = 4%nat /\ rowPitch s' == 20)
      /\ (forall (k : nat) (a : LegendDataPoint.t),
            items !! k = Some a ->
            exists g p,
              LegendDataPoint.glyphPosition a = Some g
              /\ LegendDataPoint.textPosition a = Some p
              /\ Point.x p == Point.x g * 2
              /\ Point.y g - verticalFontFactor s' + rowPitch s' <= 100)
      /\ (forall (k : nat) (a b : LegendDataPoint.t),
            items !! k = Some a ->
            items !! S k = Some b ->
            exists ga gb pa pb,
              LegendDataPoint.glyphPosition a = Some ga
              /\ LegendDataPoint.glyphPosition b = Some gb
              /\ LegendDataPoint.textPosition a = Some pa
              /\ LegendDataPoint.textPosition b = Some pb
              /\ Point.x ga = Point.x gb
              /\ Point.x pa = Point.x pb
              /\ Point.y gb == Point.y ga + rowPitch s'
              /\ Point.y pb == Point.y pa + rowPitch s')
  | TypeError => False
  end.
Proof.
  intros data s.
  destruct (SVGLegend.drawLegendInternal (host := FixedPitch.host) data (IViewport.mk 100 300)
              true s) as [s'|] eqn:E; [|vm_compute in E; discriminate E].
  cbv zeta. split.
  - vm_compute in E. injection E as <-. split; reflexivity.
  - apply (vertical_items_in_rows (host := FixedPitch.host) data (IViewport.mk 100 300)
             true s s'); [reflexivity | discriminate | discriminate | exact E].
Defined.

(** ** The edges of the parent *)

(** The [svg] element after [updateLayout], in terms of the margins that
    the method leaves. *)
Lemma updateLayout_svg (s : SVGLegend.t) :
  let s' := SVGLegend.updateLayout s in
  let o := SVGLegend.orientation s in
  let isNone := LegendPosition.eqb o LegendPosition.None in
  SVGLegend.svg s'
  = Svg.mk
      (SVGLegend.num_or (OwnViewport.height (SVGLegend.viewport s'))
         (if isNone then 0 else IViewport.height (SVGLegend.parentViewport s)))
      (SVGLegend.nan_or (OwnViewport.width (SVGLegend.viewport s'))
         (if isNone then 0 else IViewport.width (SVGLegend.parentViewport s)))
      (if LegendPosition.eqb o LegendPosition.Right
          || LegendPosition.eqb o LegendPosition.RightCenter
       then Some (match OwnViewport.width (SVGLegend.viewport s') with
                  | Some w => Some (IViewport.width (SVGLegend.parentViewport s) - w)
                  | None => None
                  end)
       else None)
      (if LegendPosition.eqb o LegendPosition.Bottom
          || LegendPosition.eqb o LegendPosition.BottomCenter
       then Some (IViewport.height (SVGLegend.parentViewport s)
                  - OwnViewport.height (SVGLegend.viewport s'))
       else None)
      (Svg.attr_orientation (SVGLegend.svg s)).
Proof.
  unfold SVGLegend.updateLayout. destruct s. fields.
  destruct data; [destruct (SVGLegend.isTopOrBottom orientation && showPrimary)|];
    reflexivity.
Qed.

(** [updateLayout] puts a legend on the right against the right edge of
    the parent, and one at the bottom against its bottom edge, as long as
    the legend has a width, respectively a height, that is a number other
    than 0.  With a width of 0 the element takes the width of the parent and
    starts at its right edge. *)
Theorem updateLayout_edges (s : SVGLegend.t) :
  let s' := SVGLegend.updateLayout s in
  let svg := SVGLegend.svg s' in
  let W := IViewport.width (SVGLegend.parentViewport s) in
  let H := IViewport.height (SVGLegend.parentViewport s) in
  let o := SVGLegend.orientation s in
  (if LegendPosition.eqb o LegendPosition.Right
      || LegendPosition.eqb o LegendPosition.RightCenter
   then match OwnViewport.width (SVGLegend.getMargins s') with
        | Some w =>
            exists m, Svg.margin_left svg = Some (Some m)
                      /\ (~ w == 0 -> m + Svg.attr_width svg == W)
                      /\ (w == 0 -> m == W /\ Svg.attr_width svg == W)
        | None => Svg.margin_left svg = Some None /\ Svg.attr_width svg = W
        end
   else Svg.margin_left svg = None)
  /\ (if LegendPosition.eqb o LegendPosition.Bottom
         || LegendPosition.eqb o LegendPosition.BottomCenter
      then exists m, Svg.margin_top svg = Some m
                     /\ (~ OwnViewport.height (SVGLegend.getMargins s') == 0 ->
                         m + Svg.attr_height svg == H)
      else Svg.margin_top svg = None).
Proof.
  cbv zeta. rewrite updateLayout_svg. cbv zeta.
  cbn [Svg.margin_left Svg.margin_top Svg.attr_width Svg.attr_height].
  unfold SVGLegend.getMargins.
  generalize (SVGLegend.viewport (SVGLegend.updateLayout s)). intros v.
  split.
  - destruct (SVGLegend.orientation s) eqn:Eo; cbn -[Qeq]; try reflexivity.
    all: destruct (OwnViewport.width v) as [w|]; [|split; reflexivity].
    all: eexists; split; [reflexivity|]; unfold SVGLegend.nan_or, SVGLegend.num_or;
      destruct (Qeq_bool w 0) eqn:E;
      [apply Qeq_bool_eq in E | apply Qeq_bool_neq in E];
      split; intros Hw; try contradiction; try split; lra.
  - destruct (SVGLegend.orientation s) eqn:Eo; cbn -[Qeq]; try reflexivity.
    all: eexists; split; [reflexivity|]; unfold SVGLegend.num_or;
      destruct (Qeq_bool (OwnViewport.height v) 0) eqn:E;
      [apply Qeq_bool_eq in E | apply Qeq_bool_neq in E];
      intros Hh; try contradiction; lra.
Qed.

(** ** The title *)

Lemma calculateTitleLayout_none `{host : Host} (d : LegendData.t) (title : option string)
    (s : SVGLegend.t) :
  SVGLegend.calculateTitleLayout d title s = None
  <-> title = None \/ title = Some ""%string.
Proof.
  unfold SVGLegend.calculateTitleLayout. destruct title as [ttl|].
  - destruct (String.eqb ttl "") eqn:E.
    + apply String.eqb_eq in E. subst ttl. split; [right; reflexivity | reflexivity].
    + apply String.eqb_neq in E. cbv zeta. split; [discriminate|].
      intros [X|X]; [discriminate X | injection X as X; contradiction].
  - split; [left; reflexivity | reflexivity].
Qed.

(** The title box of a horizontal legend: at the origin, and as wide as
    the title or as the budget (three tenths of the parent less the shifts),
    whichever is less, plus the padding; the text is the title itself when
    it is within the budget. *)
Lemma calculateTitleLayout_horizontal `{host : Host} (d : LegendData.t)
    (ttl : string) (s : SVGLegend.t) (tl : TitleLayout.t) :
  SVGLegend.isTopOrBottom (SVGLegend.orientation s) = true ->
  SVGLegend.legendFontSizeMarginDifference s
  = SVGLegend.legendFontSizeMarginValue s - SVGLegend.DefaultTextMargin ->
  SVGLegend.calculateTitleLayout d (Some ttl) s = Some tl ->
  let titleWidth :=
    measureSvgTextWidth (SVGLegend.getTextProperties true (Some ttl) (LegendData.fontSize d)) in
  let budget :=
    IViewport.width (SVGLegend.parentViewport s) * (3 # 10)
    - (15 + horizontalFontSizeMargin s) - 10 in
  TitleLayout.x tl = 0 /\ TitleLayout.y tl = 0
  /\ TitleLayout.width tl <= IViewport.width (SVGLegend.parentViewport s) * (3 # 10) - 15
  /\ (titleWidth <= budget ->
      TitleLayout.width tl == titleWidth + 15 /\ TitleLayout.text tl = ttl)
  /\ (budget < titleWidth -> TitleLayout.width tl == budget + 15).
Proof.
  intros Hz Hdf H titleWidth budget. unfold SVGLegend.calculateTitleLayout in H.
  destruct (String.eqb ttl ""); [discriminate H|]. rewrite Hz in H. cbv zeta in H.
  fold titleWidth in H.
  set (m := IViewport.width (SVGLegend.parentViewport s) * SVGLegend.LegendMaxWidthFactor
            - _ - SVGLegend.LegendEdgeMariginWidth) in H.
  assert (Hm : m == budget).
  { subst m budget. unfold horizontalFontSizeMargin,
      SVGLegend.LegendMaxWidthFactor, SVGLegend.LegendEdgeMariginWidth,
      SVGLegend.LegendIconRadius, SVGLegend.TextAndIconPadding.
    rewrite Hdf.
    destruct (Qgtb (SVGLegend.legendFontSizeMarginValue s) SVGLegend.DefaultTextMargin) eqn:E1;
      destruct (Qgtb (SVGLegend.legendFontSizeMarginValue s - SVGLegend.DefaultTextMargin) 0)
        eqn:E2;
      try apply Qgtb_gt in E1; try apply Qgtb_le in E1;
      try apply Qgtb_gt in E2; try apply Qgtb_le in E2; lra. }
  assert (Hf : 5 <= horizontalFontSizeMargin s).
  { unfold horizontalFontSizeMargin, SVGLegend.TextAndIconPadding.
    destruct (Qgtb (SVGLegend.legendFontSizeMarginDifference s) 0) eqn:E;
      [apply Qgtb_gt in E|]; lra. }
  injection H as <-. cbn [TitleLayout.x TitleLayout.y TitleLayout.width TitleLayout.text].
  split; [reflexivity|]. split; [reflexivity|].
  unfold SVGLegend.TitlePadding.
  destruct (Qgtb titleWidth m) eqn:E; [apply Qgtb_gt in E | apply Qgtb_le in E].
  - split; [subst budget; lra|]. split; intros; lra.
  - split; [subst budget; lra|]. split; [intros _; split; [lra | reflexivity]|].
    intros; lra.
Qed.

(** The title of a layout of data with points.  There is one exactly when
    [data.title] is a string that is not empty.  On top and at the bottom
    its box starts at the left edge and is at most three tenths of the
    width of the parent less 15 pixels wide, and a title within the budget
    keeps its text.  On the left and on the right the box starts 5 pixels
    in, and the text is the title tailored to the width of the legend. *)
Theorem layout_title `{host : Host} (autoWidth : bool) (s s' : SVGLegend.t)
    (d : LegendData.t) (lay : LegendLayout.t) :
  SVGLegend.data s = Some d ->
  LegendData.dataPoints d <> [] ->
  SVGLegend.calculateLayout autoWidth s = Ok (s', lay) ->
  (LegendLayout.title lay = None
   <-> LegendData.title d = None \/ LegendData.title d = Some ""%string)
  /\ forall tl,
       LegendLayout.title lay = Some tl ->
       if SVGLegend.isTopOrBottom (SVGLegend.orientation s)
       then TitleLayout.x tl = 0
            /\ TitleLayout.width tl
               <= IViewport.width (SVGLegend.parentViewport s) * (3 # 10) - 15
            /\ (forall ttl,
                  LegendData.title d = Some ttl ->
                  TitleLayout.width tl < IViewport.width (SVGLegend.parentViewport s) * (3 # 10)
                                         - 10 - horizontalFontSizeMargin s' ->
                  TitleLayout.text tl = ttl)
       else TitleLayout.x tl = 5
            /\ TitleLayout.text tl
               = getTailoredTextOrDefault
                   (SVGLegend.getTextProperties true (LegendData.title d) (LegendData.fontSize d))
                   (SVGLegend.lastCalculatedWidth s').
Proof.
  intros Hd Hne H.
  pose proof (calculateLayout_unfold autoWidth s s' d lay Hd Hne H) as U. cbv zeta in U.
  destruct U as (_ & s1 & pts' & title' & nav' & n & R & -> & _ & ->).
  cbn [LegendLayout.title].
  destruct (normalized_fields d s) as (Hor0 & _ & Hpv0 & _ & _ & Hl0 & _ & _ & Hdf0 & Hv0).
  set (s0 := normalized d s) in *.
  set (title := SVGLegend.calculateTitleLayout d (LegendData.title d) s0) in *.
  destruct (SVGLegend.isTopOrBottom (SVGLegend.orientation s)) eqn:Hz.
  - apply calculateHorizontalLayout_loop in R. destruct R as (w & broke & _ & _ & U & ->).
    apply updateNavigationArrowLayout_fields in U.
    destruct U as (_ & _ & _ & _ & _ & _ & _ & Hd1 & _).
    split.
    { rewrite <- (calculateTitleLayout_none d (LegendData.title d) s0). fold title.
      destruct title; split; congruence. }
    intros tl Htl. destruct title as [t0|] eqn:Et; [|discriminate Htl].
    injection Htl as <-. cbn [TitleLayout.x TitleLayout.width TitleLayout.text].
    destruct (LegendData.title d) as [ttl|] eqn:Ettl; [|discriminate Et].
    assert (Hz0 : SVGLegend.isTopOrBottom (SVGLegend.orientation s0) = true)
      by (rewrite Hor0; exact Hz).
    assert (Hdf : SVGLegend.legendFontSizeMarginDifference s0
                  = SVGLegend.legendFontSizeMarginValue s0 - SVGLegend.DefaultTextMargin)
      by (rewrite Hdf0, Hv0; reflexivity).
    pose proof (calculateTitleLayout_horizontal d ttl s0 t0 Hz0 Hdf Et) as P.
    cbv zeta in P. rewrite Hpv0 in P. destruct P as (Hx & _ & Hw & Hfit & Hcut).
    split; [exact Hx|]. split; [exact Hw|].
    intros ttl' Ett Hlt. injection Ett as <-.
    assert (Hfs : horizontalFontSizeMargin (SVGLegend.set_data
                    (Some (LegendData.set_dataPoints
                             (firstn (Z.to_nat (SVGLegend.legendDataStartIndex s0))
                                (LegendData.dataPoints d) ++ pts') d)) s1)
                  = horizontalFontSizeMargin s0).
    { unfold horizontalFontSizeMargin.
      replace (SVGLegend.legendFontSizeMarginDifference (SVGLegend.set_data _ s1))
        with (SVGLegend.legendFontSizeMarginDifference s0)
        by (transitivity (SVGLegend.legendFontSizeMarginDifference s1);
            [|destruct s1; reflexivity];
            rewrite Hd1; destruct s0; reflexivity).
      reflexivity. }
    rewrite Hfs in Hlt.
    destruct (Qlt_le_dec
                (IViewport.width (SVGLegend.parentViewport s) * (3 # 10)
                 - (15 + horizontalFontSizeMargin s0) - 10)
                (measureSvgTextWidth
                   (SVGLegend.getTextProperties true (Some ttl) (LegendData.fontSize d))))
      as [Hgt|Hle].
    + specialize (Hcut Hgt). lra.
    + apply Hfit. exact Hle.
  - apply calculateVerticalLayout_loop in R.
    destruct R as (tot & used & broke & _ & _ & R). cbv zeta in R. destruct R as (U & ->).
    apply updateNavigationArrowLayout_fields in U.
    destruct U as (_ & _ & _ & _ & Hl1 & _).
    split.
    { rewrite <- (calculateTitleLayout_none d (LegendData.title d) s0). fold title.
      destruct title; split; congruence. }
    intros tl Htl. destruct title as [t0|] eqn:Et; [|discriminate Htl].
    injection Htl as <-. cbn [TitleLayout.x TitleLayout.text].
    split; [reflexivity|]. f_equal.
    transitivity (SVGLegend.lastCalculatedWidth s1); [|destruct s1; reflexivity].
    rewrite Hl1. unfold verticalWidth.
    destruct autoWidth; [destruct (Qltb _ _)|]; destruct s0; reflexivity.
Qed.

(** Five labels under the title ["Sales"], on top of a parent 400 pixels
    wide: the box of the title is 45 pixels wide and the text is kept. *)
Lemma layout_title_witness :
  let d := LegendData.mk (LegendData.dataPoints (FixedPitch.legendData FixedPitch.fiveLabels))
             (Some "Sales"%string) (Some 8) "None" in
  let s := SVGLegend.set_data (Some d)
             (SVGLegend.set_parentViewport (IViewport.mk 50 400)
                (FixedPitch.legend LegendPosition.Top true)) in
  match SVGLegend.calculateLayout (host := FixedPitch.host) true s with
  | Ok (s', lay) =>
      (TitleLayout.text <$> LegendLayout.title lay = Some "Sales"%string)
      /\ (LegendLayout.title lay = None
          <-> LegendData.title d = None \/ LegendData.title d = Some ""%string)
      /\ forall tl,
           LegendLayout.title lay = Some tl ->
           TitleLayout.x tl = 0
           /\ TitleLayout.width tl <= 400 * (3 # 10) - 15
           /\ (forall ttl,
                 LegendData.title d = Some ttl ->
                 TitleLayout.width tl < 400 * (3 # 10) - 10
                                        - horizontalFontSizeMargin s' ->
                 TitleLayout.text tl = ttl)
  | TypeError => False
  end.
Proof.
  intros d s.
  destruct (SVGLegend.calculateLayout (host := FixedPitch.host) true s)
    as [[s' lay]|] eqn:E; [|vm_compute in E; discriminate E].
  split.
  - vm_compute in E. injection E as <- <-. reflexivity.
  - apply (layout_title (host := FixedPitch.host) true s s' d lay);
      [reflexivity | discriminate | exact E].
Defined.

(** ** Paging and the width *)

(** A click on an arrow lays the legend out again without computing the
    width anew: [lastCalculatedWidth] and the parent viewport stay, and on
    the left and on the right the margins of the legend are that width. *)
Theorem paging_keeps_width `{host : Host} (arrow : NavigationArrow.t)
    (s s' : SVGLegend.t) (d : LegendData.t) :
  SVGLegend.data s = Some d ->
  LegendData.dataPoints d <> [] ->
  SVGLegend.orientation s <> LegendPosition.None ->
  SVGLegend.onArrowClick arrow s = Ok s' ->
  SVGLegend.lastCalculatedWidth s' = SVGLegend.lastCalculatedWidth s
  /\ SVGLegend.parentViewport s' = SVGLegend.parentViewport s
  /\ SVGLegend.orientation s' = SVGLegend.orientation s
  /\ (SVGLegend.isTopOrBottom (SVGLegend.orientation s) = false ->
      SVGLegend.getMargins s' = OwnViewport.mk 0 (Some (SVGLegend.lastCalculatedWidth s))).
Proof.
  intros Hd Hne Ho H. unfold SVGLegend.onArrowClick in H.
  set (sc := SVGLegend.set_legendDataStartIndex _ s) in H.
  assert (Hsc : SVGLegend.data sc = Some d /\ SVGLegend.orientation sc = SVGLegend.orientation s
                /\ SVGLegend.parentViewport sc = SVGLegend.parentViewport s
                /\ SVGLegend.lastCalculatedWidth sc = SVGLegend.lastCalculatedWidth s).
  { subst sc. destruct s. cbn in *. repeat split; try reflexivity. exact Hd. }
  destruct Hsc as (Hdc & Hoc & Hpc & Hlc). rewrite Hdc, Hpc in H.
  assert (Hoc' : SVGLegend.orientation sc <> LegendPosition.None) by (rewrite Hoc; exact Ho).
  assert (Hcore :
    exists s1 dd lay,
      s' = rendered (SVGLegend.set_data (Some dd) s1) lay
      /\ SVGLegend.lastCalculatedWidth s1 = SVGLegend.lastCalculatedWidth s
      /\ SVGLegend.parentViewport s1 = SVGLegend.parentViewport s
      /\ SVGLegend.orientation s1 = SVGLegend.orientation s
      /\ (SVGLegend.isTopOrBottom (SVGLegend.orientation s) = false ->
          SVGLegend.viewport s1
          = OwnViewport.mk 0 (Some (SVGLegend.lastCalculatedWidth s)))).
  { destruct (SVGLegend.isTopOrBottom (SVGLegend.orientation s)) eqn:Hz.
    - assert (Hzc : SVGLegend.isTopOrBottom (SVGLegend.orientation sc) = true)
        by (rewrite Hoc; exact Hz).
      destruct (drawLegendInternal_horizontal _ _ _ _ _ Hzc Hne H)
        as (sb & s1 & pts' & title' & nav' & n & V & R).
      cbv zeta in R. destruct R as (_ & R & _ & ->).
      destruct (calculateViewport_prepared _ _ _ _ V)
        as (_ & Hor & _ & Hpv & _ & _ & _ & Hl & _).
      destruct (normalized_fields d sb) as (Hor0 & _ & Hpv0 & _ & _ & Hl0 & _).
      set (s0 := normalized d sb) in *.
      apply calculateHorizontalLayout_loop in R. destruct R as (w & broke & _ & _ & U & _).
      apply updateNavigationArrowLayout_fields in U.
      destruct U as (Ho1 & _ & Hp1 & _ & Hl1 & _).
      eexists; eexists; eexists. split; [reflexivity|].
      split; [rewrite Hl1, <- Hlc, <- Hl, <- Hl0; destruct s0; reflexivity|].
      split; [rewrite Hp1, <- Hpv, <- Hpv0; destruct s0; reflexivity|].
      split; [rewrite Ho1, <- Hoc, <- Hor, <- Hor0; destruct s0; reflexivity|].
      discriminate.
    - assert (Hzc : SVGLegend.isTopOrBottom (SVGLegend.orientation sc) = false)
        by (rewrite Hoc; exact Hz).
      destruct (drawLegendInternal_vertical _ _ _ _ _ Hzc Hoc' Hne H)
        as (sb & s1 & pts' & title' & nav' & n & V & R).
      cbv zeta in R. destruct R as (_ & R & _ & ->).
      destruct (calculateViewport_prepared _ _ _ _ V)
        as (_ & Hor & _ & Hpv & _ & _ & _ & Hl & _ & _ & Hvh).
      specialize (Hvh Hzc).
      destruct (normalized_fields d sb) as (Hor0 & Hv0 & Hpv0 & _ & _ & Hl0 & _).
      set (s0 := normalized d sb) in *.
      apply calculateVerticalLayout_loop in R.
      destruct R as (tot & used & broke & _ & _ & R). cbv zeta in R. destruct R as (U & _).
      apply updateNavigationArrowLayout_fields in U.
      destruct U as (Ho1 & Hv1 & Hp1 & _ & Hl1 & _).
      unfold verticalWidth in *.
      eexists; eexists; eexists. split; [reflexivity|].
      split; [rewrite Hl1, <- Hlc, <- Hl, <- Hl0; destruct s0; reflexivity|].
      split; [rewrite Hp1, <- Hpv, <- Hpv0; destruct s0; reflexivity|].
      split; [rewrite Ho1, <- Hoc, <- Hor, <- Hor0; destruct s0; reflexivity|].
      intros _. rewrite Hv1, <- Hlc, <- Hl, <- Hl0, <- Hvh, <- Hv0.
      destruct s0; reflexivity. }
  destruct Hcore as (s1 & dd & lay & -> & Hl1 & Hp1 & Ho1 & Hv1).
  destruct (rendered_frame (SVGLegend.set_data (Some dd) s1) lay)
    as (Hro & Hrp & _ & _ & _ & _ & _ & Hrl & _ & _ & _ & _ & _ & _ & Hrv).
  unfold SVGLegend.getMargins. rewrite Hro, Hrp, Hrl, Hrv.
  replace (SVGLegend.lastCalculatedWidth (SVGLegend.set_data (Some dd) s1))
    with (SVGLegend.lastCalculatedWidth s1) by (destruct s1; reflexivity).
  replace (SVGLegend.parentViewport (SVGLegend.set_data (Some dd) s1))
    with (SVGLegend.parentViewport s1) by (destruct s1; reflexivity).
  replace (SVGLegend.orientation (SVGLegend.set_data (Some dd) s1))
    with (SVGLegend.orientation s1) by (destruct s1; reflexivity).
  replace (SVGLegend.viewport (SVGLegend.set_data (Some dd) s1))
    with (SVGLegend.viewport s1) by (destruct s1; reflexivity).
  replace (SVGLegend.data (SVGLegend.set_data (Some dd) s1))
    with (Some dd) by (destruct s1; reflexivity).
  rewrite Hl1, Hp1, Ho1.
  split; [reflexivity|]. split; [reflexivity|]. split; [reflexivity|].
  intros Hz. rewrite Hz. cbn [andb]. apply Hv1. exact Hz.
Qed.

(** A legend on the right whose width was computed as 90: after a click the
    margins are still 90 wide. *)
Lemma paging_keeps_width_witness :
  let d := FixedPitch.legendData FixedPitch.fiveLabels in
  let s := SVGLegend.set_lastCalculatedWidth 90
             (FixedPitch.loaded LegendPosition.Right true 0 FixedPitch.fiveLabels
                (IViewport.mk 100 300)) in
  let arrow := NavigationArrow.mk 0 0 "" "" Increase in
  match SVGLegend.onArrowClick (host := FixedPitch.host) arrow s with
  | Ok s' =>
      SVGLegend.lastCalculatedWidth s' = 90
      /\ SVGLegend.parentViewport s' = IViewport.mk 100 300
      /\ SVGLegend.orientation s' = LegendPosition.Right
      /\ SVGLegend.getMargins s' = OwnViewport.mk 0 (Some 90)
  | TypeError => False
  end.
Proof.
  intros d s arrow.
  destruct (SVGLegend.onArrowClick (host := FixedPitch.host) arrow s) as [s'|] eqn:E;
    [|vm_compute in E; discriminate E].
  destruct (paging_keeps_width (host := FixedPitch.host) arrow s s' d)
    as (Hl & Hp & Ho & Hm); [reflexivity | discriminate | discriminate | exact E |].
  split; [exact Hl|]. split; [exact Hp|]. split; [exact Ho|]. apply Hm. reflexivity.
Defined.

(** ** Where the arrows are put *)

Lemma updateNavigationArrowLayout_incl (nav nav' : list NavigationArrow.t) (rem n : Z)
    (s s' : SVGLegend.t) (a : NavigationArrow.t) :
  SVGLegend.updateNavigationArrowLayout nav rem n s = (s', nav') ->
  In a nav' -> In a nav.
Proof.
  unfold SVGLegend.updateNavigationArrowLayout. cbv zeta. intros U Ha.
  assert (Htl : forall l : list NavigationArrow.t, In a (js_shift l) -> In a l)
    by (intros [|x l] X; [exact X | right; exact X]).
  assert (Hrl : forall l : list NavigationArrow.t, In a (js_drop_last l) -> In a l).
  { unfold js_drop_last. induction l as [|x [|y l] IH]; intros X; [exact X | destruct X |].
    cbn in X. destruct X as [X|X]; [left; exact X | right; apply IH; exact X]. }
  destruct (SVGLegend.legendDataStartIndex s =? 0)%Z;
    match type of U with
    | (if ?c then _ else _) = _ => destruct c
    end; injection U as <- <-; auto.
Qed.

(** The arrows of a layout of data with points.  On top and at the bottom
    they are centered on the height of the legend, the arrow to the next
    page against the right edge of the parent and the arrow to the previous
    page after the title.  On the left and on the right they are centered on
    the width of the legend, the arrow to the next page against the bottom
    edge of the parent and the arrow to the previous page below the title. *)
Theorem layout_arrows_placed `{host : Host} (autoWidth : bool) (s s' : SVGLegend.t)
    (d : LegendData.t) (lay : LegendLayout.t) (a : NavigationArrow.t) :
  SVGLegend.data s = Some d ->
  LegendData.dataPoints d <> [] ->
  SVGLegend.calculateLayout autoWidth s = Ok (s', lay) ->
  In a (LegendLayout.navigationArrows lay) ->
  let W := IViewport.width (SVGLegend.parentViewport s) in
  let H := IViewport.height (SVGLegend.parentViewport s) in
  let title := LegendLayout.title lay in
  if SVGLegend.isTopOrBottom (SVGLegend.orientation s)
  then NavigationArrow.y a + 15 / 2 == OwnViewport.height (SVGLegend.viewport s) / 2
       /\ match NavigationArrow.dataType a with
          | Increase => NavigationArrow.x a + (15 # 2) == W
          | Decrease =>
              NavigationArrow.x a
              = match title with
                | Some tl => TitleLayout.x tl + TitleLayout.width tl
                | None => 0
                end
          end
  else NavigationArrow.x a = SVGLegend.lastCalculatedWidth s' / 2
       /\ match NavigationArrow.dataType a with
          | Increase => NavigationArrow.y a + 15 == H
          | Decrease =>
              NavigationArrow.y a
              = (15 # 2) + match title with
                           | Some tl => TitleLayout.height tl
                           | None => 0
                           end
          end.
Proof.
  intros Hd Hne H Ha.
  pose proof (calculateLayout_unfold autoWidth s s' d lay Hd Hne H) as U. cbv zeta in U.
  destruct U as (_ & s1 & pts' & title' & nav' & n & R & -> & _ & ->).
  cbn [LegendLayout.title LegendLayout.navigationArrows] in *.
  destruct (normalized_fields d s) as (_ & Hv0 & Hpv0 & _).
  set (s0 := normalized d s) in *.
  set (title := SVGLegend.calculateTitleLayout d (LegendData.title d) s0) in *.
  destruct (SVGLegend.isTopOrBottom (SVGLegend.orientation s)) eqn:Hz.
  - apply calculateHorizontalLayout_loop in R. destruct R as (w & broke & _ & _ & U & ->).
    pose proof (updateNavigationArrowLayout_incl _ _ _ _ _ _ a U Ha) as Hin.
    destruct (SVGLegend.isScrollable s); [|destruct Hin].
    rewrite <- Hv0, <- Hpv0.
    destruct Hin as [<-|[<-|[]]]; cbn -[Qeq Qdiv]; unfold SVGLegend.LegendArrowHeight,
      SVGLegend.LegendArrowWidth.
    + split; [lra|]. destruct title; reflexivity.
    + split; lra.
  - apply calculateVerticalLayout_loop in R.
    destruct R as (tot & used & broke & _ & _ & R). cbv zeta in R. destruct R as (U & ->).
    pose proof (updateNavigationArrowLayout_incl _ _ _ _ _ _ a U Ha) as Hin.
    apply updateNavigationArrowLayout_fields in U.
    destruct U as (_ & _ & _ & _ & Hl1 & _).
    replace (SVGLegend.lastCalculatedWidth (SVGLegend.set_data _ s1))
      with (verticalWidth (skipn (Z.to_nat (SVGLegend.legendDataStartIndex s0))
                             (LegendData.dataPoints d)) autoWidth used s0).
    2:{ transitivity (SVGLegend.lastCalculatedWidth s1); [|destruct s1; reflexivity].
        rewrite Hl1. unfold verticalWidth.
        destruct autoWidth; [destruct (Qltb _ _)|]; destruct s0; reflexivity. }
    destruct (SVGLegend.isScrollable s); [|destruct Hin].
    rewrite <- Hpv0.
    destruct Hin as [<-|[<-|[]]]; cbn -[Qeq Qdiv]; unfold SVGLegend.LegendArrowHeight,
      SVGLegend.LegendArrowWidth.
    + split; [reflexivity|]. destruct title; reflexivity.
    + split; [reflexivity|]. lra.
Qed.

(** Five labels on the right of a parent 100 pixels high and 300 wide: one
    arrow, to the next page, at the bottom of the parent and in the middle
    of the 90 pixels of the legend. *)
Lemma layout_arrows_placed_witness :
  let d := FixedPitch.legendData FixedPitch.fiveLabels in
  let s := FixedPitch.loaded LegendPosition.Right true 0 FixedPitch.fiveLabels
             (IViewport.mk 100 300) in
  match SVGLegend.calculateLayout (host := FixedPitch.host) true s with
  | Ok (s', lay) =>
      (arrowTypes (LegendLayout.navigationArrows lay) = [Increase]
       /\ SVGLegend.lastCalculatedWidth s' = 90)
      /\ forall a,
           In a (LegendLayout.navigationArrows lay) ->
           NavigationArrow.x a = SVGLegend.lastCalculatedWidth s' / 2
           /\ match NavigationArrow.dataType a with
              | Increase => NavigationArrow.y a + 15 == 100
              | Decrease =>
                  NavigationArrow.y a
                  = (15 # 2) + match LegendLayout.title lay with
                               | Some tl => TitleLayout.height tl
                               | None => 0
                               end
              end
  | TypeError => False
  end.
Proof.
  intros d s.
  destruct (SVGLegend.calculateLayout (host := FixedPitch.host) true s)
    as [[s' lay]|] eqn:E; [|vm_compute in E; discriminate E].
  split.
  - vm_compute in E. injection E as <- <-. split; reflexivity.
  - intros a Ha.
    apply (layout_arrows_placed (host := FixedPitch.host) true s s' d lay a);
      [reflexivity | discriminate | exact E | exact Ha].
Defined.

(** ** What a draw leaves of the points *)

(** A projection of the points that both loop bodies keep is kept by a
    draw, for all the points of the data that the instance holds
    afterwards. *)
Lemma drawLegendInternal_keeps `{host : Host} {B : Type} (f : LegendDataPoint.t -> B)
    (data : LegendData.t) (viewport : IViewport.t) (autoWidth : bool) (s s' : SVGLegend.t) :
  let sp := negb (String.eqb (LegendData.primaryType data) "None") in
  (forall fs fts fis pad mtl ptl occ dp,
     f (fst (SVGLegend.horizontalItem fs sp fts fis pad mtl ptl occ dp)) = f dp) ->
  (forall fs df ff vlh ex his hts avail acc dp,
     f (fst (SVGLegend.verticalItem fs sp df ff vlh ex his hts avail acc dp)) = f dp) ->
  SVGLegend.orientation s <> LegendPosition.None ->
  LegendData.dataPoints data <> [] ->
  SVGLegend.drawLegendInternal data viewport autoWidth s = Ok s' ->
  exists d',
    SVGLegend.data s' = Some d'
    /\ map f (LegendData.dataPoints d') = map f (LegendData.dataPoints data).
Proof.
  intros sp Hh Hv Ho Hne H.
  assert (Hcore :
    exists sb s1 pts' lay,
      SVGLegend.calculateViewport (prepared data viewport s) = Ok sb
      /\ let i0 := SVGLegend.legendDataStartIndex (normalized data sb) in
         s' = rendered
                (SVGLegend.set_data
                   (Some (LegendData.set_dataPoints
                            (firstn (Z.to_nat i0) (LegendData.dataPoints data) ++ pts') data))
                   s1) lay
         /\ map f pts' = map f (skipn (Z.to_nat i0) (LegendData.dataPoints data))).
  { destruct (SVGLegend.isTopOrBottom (SVGLegend.orientation s)) eqn:Hz.
    - destruct (drawLegendInternal_horizontal _ _ _ _ _ Hz Hne H)
        as (sb & s1 & pts' & title' & nav' & n & V & R).
      cbv zeta in R. destruct R as (_ & R & _ & ->).
      exists sb, s1, pts', (LegendLayout.mk n title' nav'). split; [exact V|]. cbv zeta.
      split; [reflexivity|].
      destruct (calculateViewport_prepared _ _ _ _ V) as (_ & _ & _ & _ & Hsp & _).
      destruct (normalized_fields data sb) as (_ & _ & _ & Hsp0 & _).
      apply calculateHorizontalLayout_loop in R. destruct R as (w & broke & F & _).
      apply (for_until_map f _ _ _) in F; [exact F|].
      intros acc a. unfold horizontalBody. rewrite Hsp0, Hsp. apply Hh.
    - destruct (drawLegendInternal_vertical _ _ _ _ _ Hz Ho Hne H)
        as (sb & s1 & pts' & title' & nav' & n & V & R).
      cbv zeta in R. destruct R as (_ & R & _ & ->).
      exists sb, s1, pts', (LegendLayout.mk n title' nav'). split; [exact V|]. cbv zeta.
      split; [reflexivity|].
      destruct (calculateViewport_prepared _ _ _ _ V) as (_ & _ & _ & _ & Hsp & _).
      destruct (normalized_fields data sb) as (_ & _ & _ & Hsp0 & _).
      apply calculateVerticalLayout_loop in R. destruct R as (tot & used & broke & F & _).
      apply (for_until_map f _ _ _) in F; [exact F|].
      intros acc a. unfold verticalBody. rewrite Hsp0, Hsp. apply Hv. }
  destruct Hcore as (sb & s1 & pts' & lay & V & Hcore). cbv zeta in Hcore.
  destruct Hcore as (-> & Hm).
  eexists. split.
  - destruct (rendered_frame
                (SVGLegend.set_data
                   (Some (LegendData.set_dataPoints
                            (firstn (Z.to_nat (SVGLegend.legendDataStartIndex
                                                 (normalized data sb)))
                               (LegendData.dataPoints data) ++ pts') data)) s1) lay)
      as (_ & _ & E & _).
    rewrite E. destruct s1; reflexivity.
  - cbn [LegendData.dataPoints LegendData.set_dataPoints].
    rewrite map_app, Hm, <- map_app, firstn_skipn. reflexivity.
Qed.

(** When [primaryType] is ["None"] a draw leaves the measure and the
    secondary measure of every point as they were: only the labels and the
    positions are written. *)
Theorem measures_kept_without_primary `{host : Host} (data : LegendData.t)
    (viewport : IViewport.t) (autoWidth : bool) (s s' : SVGLegend.t) :
  LegendData.primaryType data = "None"%string ->
  SVGLegend.orientation s <> LegendPosition.None ->
  LegendData.dataPoints data <> [] ->
  SVGLegend.drawLegendInternal data viewport autoWidth s = Ok s' ->
  exists d',
    SVGLegend.data s' = Some d'
    /\ map LegendDataPoint.measure (LegendData.dataPoints d')
       = map LegendDataPoint.measure (LegendData.dataPoints data)
    /\ map LegendDataPoint.secondaryMeasure (LegendData.dataPoints d')
       = map LegendDataPoint.secondaryMeasure (LegendData.dataPoints data).
Proof.
  intros Hp Ho Hne H.
  destruct (drawLegendInternal_keeps
              (fun dp => (LegendDataPoint.measure dp, LegendDataPoint.secondaryMeasure dp))
              data viewport autoWidth s s') as (d' & Hd' & Hm); [| | exact Ho | exact Hne | exact H |].
  - rewrite Hp. cbn [String.eqb negb]. intros. unfold SVGLegend.horizontalItem. cbv zeta.
    destruct (Qltb _ mtl); destruct dp; reflexivity.
  - rewrite Hp. cbn [String.eqb negb]. intros. unfold SVGLegend.verticalItem.
    destruct acc. cbv zeta. destruct (Qgtb _ avail); destruct dp; reflexivity.
  - exists d'. split; [exact Hd'|].
    split.
    + apply (f_equal (map fst)) in Hm. rewrite !map_map in Hm. exact Hm.
    + apply (f_equal (map snd)) in Hm. rewrite !map_map in Hm. exact Hm.
Qed.

(** Two points with measures and [primaryType] ["None"], on top of a parent
    100 pixels wide: the label of the first point is cut, its measures are
    not. *)
Lemma measures_kept_without_primary_witness :
  let data :=
    LegendData.mk
      [LegendDataPoint.mk "a" "aaaaaaaaaaaaaaaaaaaaaaaa" (Some "1000000000000") (Some "50%")
         None None None None;
       LegendDataPoint.mk "b" "b" (Some "2") None None None None None]%string
      None (Some 8) "None" in
  match SVGLegend.drawLegendInternal (host := FixedPitch.host) data (IViewport.mk 50 100)
          true (FixedPitch.legend LegendPosition.Top true) with
  | Ok s' =>
      exists d',
        SVGLegend.data s' = Some d'
        /\ map LegendDataPoint.label (LegendData.dataPoints d') = ["aaaaaaa..."; "b"]%string
        /\ map LegendDataPoint.measure (LegendData.dataPoints d')
           = map LegendDataPoint.measure (LegendData.dataPoints data)
        /\ map LegendDataPoint.secondaryMeasure (LegendData.dataPoints d')
           = map LegendDataPoint.secondaryMeasure (LegendData.dataPoints data)
  | TypeError => False
  end.
Proof.
  intros data.
  destruct (SVGLegend.drawLegendInternal (host := FixedPitch.host) data (IViewport.mk 50 100)
              true (FixedPitch.legend LegendPosition.Top true)) as [s'|] eqn:E;
    [|vm_compute in E; discriminate E].
  destruct (measures_kept_without_primary (host := FixedPitch.host) data (IViewport.mk 50 100)
              true (FixedPitch.legend LegendPosition.Top true) s')
    as (d' & Hd & Hm & Hs); [reflexivity | discriminate | discriminate | exact E |].
  exists d'. split; [exact Hd|]. split; [|split; [exact Hm | exact Hs]].
  vm_compute in E. injection E as <-. cbn in Hd. injection Hd as <-. reflexivity.
Defined.

(** ** calculateHorizontalLegendItemsWidths *)

Lemma maxItemWidthOf_le (n : nat) (availableWidth iconPadding : Q) :
  SVGLegend.maxItemWidthOf n availableWidth iconPadding <= availableWidth.
Proof.
  unfold SVGLegend.maxItemWidthOf. cbv zeta.
  match goal with |- (if Qgtb ?m _ then _ else _) <= _ => destruct (Qgtb m availableWidth) eqn:E end.
  - apply Qle_refl.
  - apply Qgtb_le in E. exact E.
Qed.

Lemma totalWidth_app (a b : list LegendItem.t) :
  totalWidth (a ++ b) == totalWidth a + totalWidth b.
Proof.
  unfold totalWidth. induction a as [|x a IH]; cbn [app fold_right]; [lra|].
  rewrite IH. lra.
Qed.

Lemma countedWidth_app (m : Q) (a b : list LegendItem.t) :
  countedWidth m (a ++ b) == countedWidth m a + countedWidth m b.
Proof.
  unfold countedWidth. induction a as [|x a IH]; cbn [app fold_right]; [lra|].
  rewrite IH. lra.
Qed.

(** The first loop: the items are the given ones followed by items for a
    prefix of the points, each with the width it asks for; the occupied
    width covers what is counted for them and stays within the available
    width. *)
Lemma addLegendItems_spec `{host : Host} (fontSize : option Q)
    (iconPadding maxItemWidth availableWidth : Q) :
  maxItemWidth <= availableWidth ->
  forall (pts : list LegendDataPoint.t) (occ : Q) (items : list LegendItem.t)
         (occ' : Q) (items' : list LegendItem.t),
    SVGLegend.addLegendItems fontSize iconPadding maxItemWidth availableWidth pts occ items
    = (occ', items') ->
    (items <> [] -> occ < availableWidth) ->
    countedWidth maxItemWidth items <= occ ->
    exists added,
      items' = items ++ added
      /\ map LegendItem.dataPoint added = firstn (length added) pts
      /\ (pts <> [] -> items' <> [])
      /\ Forall (fun item =>
                   LegendItem.width item = LegendItem.desiredWidth item
                   /\ LegendItem.desiredWidth item
                      = measureSvgTextWidth
                          (SVGLegend.getTextProperties false
                             (Some (LegendDataPoint.label (LegendItem.dataPoint item)))
                             fontSize) + iconPadding) added
      /\ countedWidth maxItemWidth items' <= occ'
      /\ (items' <> [] -> occ' <= availableWidth).
Proof.
  intros HM. induction pts as [|dp rest IH]; intros occ items occ' items' H Hocc Hcnt.
  - cbn in H. injection H as <- <-. exists []. rewrite app_nil_r.
    split; [reflexivity|]. split; [reflexivity|]. split; [congruence|].
    split; [constructor|]. split; [exact Hcnt|]. intros Hi. apply Qlt_le_weak. auto.
  - cbn [SVGLegend.addLegendItems] in H. cbv zeta in H.
    set (tp := SVGLegend.getTextProperties false (Some (LegendDataPoint.label dp)) fontSize)
      in H.
    set (desired := measureSvgTextWidth tp + iconPadding) in H.
    set (actual := if Qgtb desired maxItemWidth then maxItemWidth else desired) in H.
    destruct (Qle_bool availableWidth (occ + actual)) eqn:Efull.
    + destruct (Z.of_nat (length items) =? 0)%Z eqn:Efirst.
      * injection H as <- <-. apply Z.eqb_eq in Efirst.
        assert (items = []) by (destruct items; [reflexivity | cbn in Efirst; lia]).
        subst items. eexists. split; [reflexivity|]. cbn [app length firstn map].
        split; [reflexivity|]. split; [discriminate|].
        split; [repeat constructor|]. cbn. split; [lra|]. intros _. apply Qle_refl.
      * injection H as <- <-. apply Z.eqb_neq in Efirst.
        assert (Hne : items <> []) by (intros ->; cbn in Efirst; lia).
        exists []. rewrite app_nil_r. split; [reflexivity|]. split; [reflexivity|].
        split; [intros _; exact Hne|]. split; [constructor|].
        specialize (Hocc Hne). split; [lra|]. intros _. lra.
    + assert (Hlt : occ + actual < availableWidth).
      { apply Qnot_le_lt. intros X. apply Qle_bool_iff in X. congruence. }
      set (new := LegendItem.mk dp tp desired desired (Qgtb desired maxItemWidth)) in H.
      destruct (IH _ _ _ _ H) as (added & -> & Hpre & _ & Hall & Hc & Ho).
      * intros _. exact Hlt.
      * rewrite countedWidth_app. cbn. subst actual.
        destruct (Qgtb desired maxItemWidth); lra.
      * exists (new :: added). rewrite <- app_assoc. split; [reflexivity|].
        cbn [map length firstn]. split; [f_equal; exact Hpre|].
        split; [intros _; destruct items; discriminate|].
        split; [constructor; [split; reflexivity | exact Hall]|].
        rewrite <- app_assoc in Hc, Ho. split; [exact Hc | exact Ho].
Qed.

Lemma Qdiv_share (e : Q) (k : Z) :
  0 <= e -> (1 <= k)%Z -> 0 <= e / inject_Z k /\ e / inject_Z k <= e.
Proof.
  intros He Hk.
  assert (Hk1 : 1 <= inject_Z k) by (replace 1 with (inject_Z 1) by reflexivity;
                                     rewrite <- Zle_Qle; exact Hk).
  assert (Hk0 : 0 < inject_Z k) by lra.
  split.
  - apply Qle_shift_div_l; [exact Hk0 | lra].
  - apply Qle_shift_div_r; [exact Hk0|].
    assert (0 <= e * (inject_Z k - 1)) by (apply Qmult_le_0_compat; lra).
    lra.
Qed.

(** The second loop: every item keeps its point and the width it asks
    for; an item whose flag is still set got less than it asks for, any
    other item got what it asks for; and the extra width is not
    overspent. *)
Lemma redistributeExtraWidth_spec (maxItemWidth : Q) :
  forall (items : list LegendItem.t) (e : Q) (k : Z),
    0 <= e ->
    (Z.of_nat (length (filter (fun li => LegendItem.desiredOverMaxWidth li = true) items))
     <= k)%Z ->
    Forall (fun item => LegendItem.width item = LegendItem.desiredWidth item) items ->
    let r := SVGLegend.redistributeExtraWidth maxItemWidth items e k in
    Forall2 (fun item item' =>
               LegendItem.dataPoint item' = LegendItem.dataPoint item
               /\ LegendItem.desiredWidth item' = LegendItem.desiredWidth item
               /\ (if LegendItem.desiredOverMaxWidth item'
                   then LegendItem.width item' < LegendItem.desiredWidth item'
                   else LegendItem.width item' = LegendItem.desiredWidth item'))
      items r
    /\ totalWidth r <= countedWidth maxItemWidth items + e.
Proof.
  induction items as [|item rest IH]; intros e k He Hk Hall; cbv zeta.
  - split; [constructor|]. cbn. lra.
  - inversion Hall as [|? ? Hw Hrest]; subst.
    cbn [SVGLegend.redistributeExtraWidth]. cbv zeta.
    rewrite filter_cons in Hk.
    destruct (LegendItem.desiredOverMaxWidth item) eqn:Ef.
    + destruct (decide (true = true)) as [_|X]; [|contradiction].
      cbn [length] in Hk.
      assert (Hk1 : (1 <= k)%Z) by lia.
      destruct (Qdiv_share e k He Hk1) as [Hp0 Hpe].
      destruct (Qle_bool (LegendItem.desiredWidth item) (maxItemWidth + e / inject_Z k))
        eqn:Efit.
      * apply Qle_bool_iff in Efit.
        destruct (IH (e - (LegendItem.desiredWidth item - maxItemWidth)) (k - 1)%Z
                    ltac:(lra) ltac:(lia) Hrest) as [Hf Ht].
        split.
        -- constructor; [|exact Hf]. destruct item; cbn in *.
           split; [reflexivity|]. split; [reflexivity | exact Hw].
        -- unfold totalWidth, countedWidth in *. cbn [fold_right].
           rewrite Ef. destruct item; cbn in *. subst. lra.
      * assert (Hnot : maxItemWidth + e / inject_Z k < LegendItem.desiredWidth item).
        { apply Qnot_le_lt. intros X. apply Qle_bool_iff in X. congruence. }
        destruct (IH (e - (maxItemWidth + e / inject_Z k - maxItemWidth)) (k - 1)%Z
                    ltac:(lra) ltac:(lia) Hrest) as [Hf Ht].
        split.
        -- constructor; [|exact Hf]. destruct item; cbn in *. subst.
           split; [reflexivity|]. split; [reflexivity | exact Hnot].
        -- unfold totalWidth, countedWidth in *. cbn [fold_right].
           rewrite Ef. destruct item; cbn in *. lra.
    + destruct (decide (false = true)) as [X|_]; [discriminate X|].
      destruct (IH e k He Hk Hrest) as [Hf Ht].
      split.
      * constructor; [|exact Hf]. rewrite Ef. repeat split; try reflexivity. exact Hw.
      * unfold totalWidth, countedWidth in *. cbn [fold_right]. rewrite Ef. lra.
Qed.

Lemma no_flag_left (items : list LegendItem.t) :
  (0 <? Z.of_nat (length (filter (fun li => LegendItem.desiredOverMaxWidth li = true) items)))%Z
  = false ->
  Forall (fun item => LegendItem.desiredOverMaxWidth item = false) items.
Proof.
  intros H. apply Z.ltb_ge in H.
  induction items as [|item rest IH]; [constructor|].
  rewrite filter_cons in H.
  destruct (LegendItem.desiredOverMaxWidth item) eqn:Ef.
  - destruct (decide (true = true)) as [_|X]; [|contradiction]. cbn [length] in H. lia.
  - destruct (decide (false = true)) as [X|_]; [discriminate X|].
    constructor; [exact Ef | exact (IH H)].
Qed.

Lemma countedWidth_no_flag (m : Q) (items : list LegendItem.t) :
  Forall (fun item => LegendItem.desiredOverMaxWidth item = false) items ->
  countedWidth m items = totalWidth items.
Proof.
  unfold countedWidth, totalWidth.
  induction 1 as [|item rest Hf _ IH]; [reflexivity|].
  cbn [fold_right]. rewrite Hf, IH. reflexivity.
Qed.

Lemma Forall2_map_eq {A B : Type} (f : A -> B) (P : A -> A -> Prop) (l l' : list A) :
  (forall a a', P a a' -> f a' = f a) -> Forall2 P l l' -> map f l' = map f l.
Proof.
  intros HP. induction 1 as [|a a' l l' Ha _ IH]; [reflexivity|].
  cbn [map]. rewrite (HP _ _ Ha), IH. reflexivity.
Qed.

(** The items that [calculateHorizontalLegendItemsWidths] returns stand
    for the first points of the list, in their order, and there is at least
    one for a list that is not empty.  Each item asks for the measured
    width of its label plus the icon padding; its flag is set exactly when
    it got less than that, otherwise it got what it asks for. *)
Theorem calculateHorizontalLegendItemsWidths_items `{host : Host}
    (dataPoints : list LegendDataPoint.t) (availableWidth iconPadding : Q)
    (fontSize : option Q) :
  let legendItems :=
    SVGLegend.calculateHorizontalLegendItemsWidths dataPoints availableWidth iconPadding
      fontSize in
  map LegendItem.dataPoint legendItems = firstn (length legendItems) dataPoints
  /\ (dataPoints <> [] -> legendItems <> [])
  /\ Forall (fun item =>
               LegendItem.desiredWidth item
               = measureSvgTextWidth
                   (SVGLegend.getTextProperties false
                      (Some (LegendDataPoint.label (LegendItem.dataPoint item))) fontSize)
                 + iconPadding
               /\ (if LegendItem.desiredOverMaxWidth item
                   then LegendItem.width item < LegendItem.desiredWidth item
                   else LegendItem.width item = LegendItem.desiredWidth item))
       legendItems.
Proof.
  cbv zeta. unfold SVGLegend.calculateHorizontalLegendItemsWidths. cbv zeta.
  set (M := SVGLegend.maxItemWidthOf (length dataPoints) availableWidth iconPadding).
  destruct (SVGLegend.addLegendItems fontSize iconPadding M availableWidth dataPoints 0 [])
    as [occ items] eqn:E.
  destruct (addLegendItems_spec fontSize iconPadding M availableWidth
              (maxItemWidthOf_le _ _ _) dataPoints 0 [] occ items E
              ltac:(congruence) ltac:(cbn; lra))
    as (added & Hi & Hmap & Hne & Hall & _ & _).
  cbn [app] in Hi. subst added.
  match goal with
  | |- context [(0 <? ?n)%Z] => destruct (0 <? n)%Z eqn:Ek
  end.
  - destruct (addLegendItems_spec fontSize iconPadding M availableWidth
                (maxItemWidthOf_le _ _ _) dataPoints 0 [] occ items E
                ltac:(congruence) ltac:(cbn; lra))
      as (added & Hi & _ & _ & _ & Hcnt & Hle).
    clear added Hi.
    assert (Hw : Forall (fun item => LegendItem.width item = LegendItem.desiredWidth item)
                   items).
    { eapply Forall_impl; [exact Hall|]. intros a [Ha _]. exact Ha. }
    set (k := Z.of_nat
                (length (filter (fun li => LegendItem.desiredOverMaxWidth li = true) items)))
      in *.
    assert (Hshape :
      Forall2 (fun item item' =>
                 LegendItem.dataPoint item' = LegendItem.dataPoint item
                 /\ LegendItem.desiredWidth item' = LegendItem.desiredWidth item
                 /\ (if LegendItem.desiredOverMaxWidth item'
                     then LegendItem.width item' < LegendItem.desiredWidth item'
                     else LegendItem.width item' = LegendItem.desiredWidth item'))
        items (SVGLegend.redistributeExtraWidth M items (availableWidth - occ) k)).
    { assert (Hin : items <> []).
      { intros ->. subst k. cbn in Ek. discriminate Ek. }
      specialize (Hle Hin).
      exact (proj1 (redistributeExtraWidth_spec M items (availableWidth - occ) k
                      ltac:(lra) ltac:(subst k; lia) Hw)). }
    set (r := SVGLegend.redistributeExtraWidth M items (availableWidth - occ) k) in *.
    assert (Hlen : length r = length items)
      by (symmetry; eapply Forall2_length; exact Hshape).
    split.
    { rewrite Hlen, <- Hmap.
      eapply Forall2_map_eq; [|exact Hshape].
      intros a a' (Ha & _). exact Ha. }
    split.
    { intros Hp Hr. apply (Hne Hp). rewrite Hr in Hlen. cbn in Hlen.
      destruct items; [reflexivity | discriminate Hlen]. }
    clear - Hshape Hall.
    induction Hshape as [|a a' l l' (Hd & Hdw & Hfl) _ IH]; [constructor|].
    inversion Hall as [|? ? (_ & Ha) Hrest]; subst.
    constructor; [|exact (IH Hrest)].
    split; [|exact Hfl]. rewrite Hdw, Hd. exact Ha.
  - split; [exact Hmap|]. split; [exact Hne|].
    pose proof (no_flag_left items Ek) as Hnf.
    clear - Hall Hnf.
    induction Hall as [|a l (Hw & Hd) _ IH]; [constructor|].
    inversion Hnf as [|? ? Hf Hrest]; subst.
    constructor; [|exact (IH Hrest)].
    rewrite Hf. split; [exact Hd | exact Hw].
Qed.

(** For a list of points that is not empty, the widths of the items that
    [calculateHorizontalLegendItemsWidths] returns sum to the available
    width at most. *)
Theorem calculateHorizontalLegendItemsWidths_budget `{host : Host}
    (dataPoints : list LegendDataPoint.t) (availableWidth iconPadding : Q)
    (fontSize : option Q) :
  dataPoints <> [] ->
  totalWidth
    (SVGLegend.calculateHorizontalLegendItemsWidths dataPoints availableWidth iconPadding
       fontSize)
  <= availableWidth.
Proof.
  intros Hp. unfold SVGLegend.calculateHorizontalLegendItemsWidths. cbv zeta.
  set (M := SVGLegend.maxItemWidthOf (length dataPoints) availableWidth iconPadding).
  destruct (SVGLegend.addLegendItems fontSize iconPadding M availableWidth dataPoints 0 [])
    as [occ items] eqn:E.
  destruct (addLegendItems_spec fontSize iconPadding M availableWidth
              (maxItemWidthOf_le _ _ _) dataPoints 0 [] occ items E
              ltac:(congruence) ltac:(cbn; lra))
    as (added & Hi & _ & Hne & Hall & Hcnt & Hle).
  cbn [app] in Hi. subst added.
  specialize (Hle (Hne Hp)).
  match goal with
  | |- context [(0 <? ?n)%Z] => destruct (0 <? n)%Z eqn:Ek
  end.
  - assert (Hw : Forall (fun item => LegendItem.width item = LegendItem.desiredWidth item)
                   items).
    { eapply Forall_impl; [exact Hall|]. intros a [Ha _]. exact Ha. }
    pose proof (proj2 (redistributeExtraWidth_spec M items (availableWidth - occ) _
                         ltac:(lra) (Z.le_refl _) Hw)) as Ht.
    cbv zeta in Ht. lra.
  - rewrite <- (countedWidth_no_flag M items (no_flag_left items Ek)). lra.
Qed.

Lemma calculateHorizontalLegendItemsWidths_budget_witness :
  let dataPoints :=
    [FixedPitch.point "a label of forty characters, no less...";
     FixedPitch.point "b"]%string in
  dataPoints <> []
  /\ map LegendItem.width
       (SVGLegend.calculateHorizontalLegendItemsWidths (host := FixedPitch.host)
          dataPoints 200 25 (Some 8))
     = [169; 31]
  /\ totalWidth
       (SVGLegend.calculateHorizontalLegendItemsWidths (host := FixedPitch.host)
          dataPoints 200 25 (Some 8))
     <= 200.
Proof.
  intros dataPoints.
  split; [discriminate|]. split; [vm_compute; reflexivity|].
  apply (calculateHorizontalLegendItemsWidths_budget (host := FixedPitch.host)
           dataPoints 200 25 (Some 8)).
  discriminate.
Defined.
